(** * Mentions, notification preferences and mention dispatch

  A shallow embedding of the mention pipeline of the nexus-ui
  repository:

  - [Mentions]       src/lib/mentions.ts (the library extractor);
  - [Preferences]    the notification preferences API, second file of
                     src/convex/members.ts (createDefaultPreferences,
                     isInQuietHours, shouldSendNotification, updateChannel);
  - [Members]        src/convex/members.ts (getByUsername);
  - [Messages]       the messages API, src/unnamed/part_011 (the
                     dispatcher: extractMentions, getMentionedUsers,
                     checkNotificationPreferences,
                     handleMentionNotifications, create).

  JavaScript strings are modelled as lists of [ascii] characters, read
  as the code units U+0000 to U+00FF.  The character classes of the
  regular expressions of the source only name ASCII characters, except
  for white space, which has U+00A0 in that range; [toLowerCase] also
  folds the capital letters U+00C0 to U+00DE.

  A handler runs in a state monad over the database with exceptions; a
  mutation is the transaction [mutation handler], which commits the
  writes of a handler that returns and none of a handler that throws. *)

From Stdlib Require Import ZArith QArith Lia Ascii String.
From stdpp Require Import base option list strings gmap.

Local Close Scope Q_scope.
Local Open Scope Z_scope.
Local Open Scope nat_scope.

(** ** JavaScript strings *)

Module Js.

Abbreviation jsstring := (list ascii).

(** A string literal as a list of characters. *)
Definition js (s : string) : jsstring := list_ascii_of_string s.

Definition between (lo hi c : ascii) : bool :=
  Ascii.leb lo c && Ascii.leb c hi.

Definition is_lower (c : ascii) : bool := between "a" "z" c.
Definition is_upper (c : ascii) : bool := between "A" "Z" c.
Definition is_digit (c : ascii) : bool := between "0" "9" c.

(** [[a-zA-Z]] *)
Definition is_letter (c : ascii) : bool := is_lower c || is_upper c.

(** [\w], that is [[A-Za-z0-9_]] *)
Definition is_word (c : ascii) : bool :=
  is_letter c || is_digit c || Ascii.eqb c "_".

(** The longest prefix of [s] whose characters satisfy [p]: what a greedy
    [[...]*] consumes. *)
Fixpoint span (p : ascii -> bool) (s : jsstring) : jsstring :=
  match s with
  | c :: s' => if p c then c :: span p s' else []
  | [] => []
  end.

(** [[...new Set(xs)]]: a Set iterates in insertion order, so the first
    occurrence of every element is kept. *)
Fixpoint uniq_from (seen : list jsstring) (xs : list jsstring) : list jsstring :=
  match xs with
  | [] => []
  | x :: xs' =>
      if bool_decide (x ∈ seen) then uniq_from seen xs'
      else x :: uniq_from (x :: seen) xs'
  end.

Definition uniq (xs : list jsstring) : list jsstring := uniq_from [] xs.

(** [s.split(sep)] for a separator of one character. *)
Fixpoint split (sep : ascii) (s : jsstring) : list jsstring :=
  match s with
  | [] => [[]]
  | c :: s' =>
      if Ascii.eqb c sep then [] :: split sep s'
      else match split sep s' with
           | w :: ws => (c :: w) :: ws
           | [] => [[c]]
           end
  end.

(** Numbers are integers here, [None] standing for [NaN] (and for
    [undefined] where it is used as a number).  [Number] and [parseInt]
    are modelled on strings of decimal digits, which is what the fields
    of a well-formed [HH:mm] are; signs, fractions, exponents and
    surrounding white space are not modelled and read as [NaN]. *)
Definition jsnum := option Z.

Definition digit_val (c : ascii) : Z := Z.of_nat (nat_of_ascii c) - 48.

Definition digits_val (s : jsstring) : Z :=
  fold_left (fun acc c => (acc * 10 + digit_val c)%Z) s 0%Z.

Definition Number (s : jsstring) : jsnum :=
  if forallb is_digit s then Some (digits_val s) else None.

Definition parseInt (s : jsstring) : jsnum :=
  match span is_digit s with
  | [] => None
  | ds => Some (digits_val ds)
  end.

Definition num_add (a b : jsnum) : jsnum :=
  match a, b with Some x, Some y => Some (x + y)%Z | _, _ => None end.
Definition num_mul (a b : jsnum) : jsnum :=
  match a, b with Some x, Some y => Some (x * y)%Z | _, _ => None end.

(** Comparisons: every comparison with [NaN] is false. *)
Definition num_lt (a b : jsnum) : bool :=
  match a, b with Some x, Some y => (x <? y)%Z | _, _ => false end.
Definition num_gt (a b : jsnum) : bool := num_lt b a.
Definition num_ge (a b : jsnum) : bool :=
  match a, b with Some x, Some y => (y <=? x)%Z | _, _ => false end.

(** The capital letters below U+0100: [A] to [Z], and U+00C0 to U+00DE
    without the multiplication sign U+00D7. *)
Definition is_capital (c : ascii) : bool :=
  let n := nat_of_ascii c in
  is_upper c || ((192 <=? n) && (n <=? 222) && negb (n =? 215)).

(** [s.toLowerCase()]: below U+0100 every capital letter has its small
    letter 32 places further. *)
Definition lower_char (c : ascii) : ascii :=
  if is_capital c then ascii_of_nat (nat_of_ascii c + 32) else c.
Definition toLowerCase (s : jsstring) : jsstring := lower_char <$> s.

(** White space of [trim()] and of [\s] below U+0100: space, tab, line
    feed, vertical tab, form feed, carriage return and the no-break space
    U+00A0. *)
Definition is_space (c : ascii) : bool :=
  let n := nat_of_ascii c in
  (n =? 32) || ((9 <=? n) && (n <=? 13)) || (n =? 160).

Fixpoint trimStart (s : jsstring) : jsstring :=
  match s with
  | c :: s' => if is_space c then trimStart s' else s
  | [] => []
  end.

Definition trim (s : jsstring) : jsstring :=
  rev (trimStart (rev (trimStart s))).

Fixpoint startsWith (s p : jsstring) : bool :=
  match p, s with
  | [], _ => true
  | a :: p', b :: s' => Ascii.eqb a b && startsWith s' p'
  | _ :: _, [] => false
  end.

(** [s.includes(sub)] *)
Fixpoint includes (s sub : jsstring) : bool :=
  startsWith s sub
  || match s with
     | _ :: s' => includes s' sub
     | [] => false
     end.

(** [s || d] for a string [s]: the empty string is falsy. *)
Definition or_else (s d : jsstring) : jsstring :=
  match s with [] => d | _ => s end.

(** A number as [v.number()] accepts it, any IEEE double: [NaN], an
    infinity, or a finite value, which is a rational number. *)
Inductive number :=
| NaN
| Infinity (negative : bool)
| Finite (q : Q).

(** [x || d] for a number [x]: [NaN], [0] and [-0] are falsy. *)
Definition number_or (x : option number) (d : number) : number :=
  match x with
  | None | Some NaN => d
  | Some (Finite q) => if Qeq_bool q 0 then d else Finite q
  | Some (Infinity negative) => Infinity negative
  end.

(** [n >= x] for an array length [n] and a number [x]. *)
Definition length_ge (n : nat) (x : number) : bool :=
  match x with
  | NaN => false
  | Infinity negative => negative
  | Finite q => Qle_bool q (inject_Z (Z.of_nat n))
  end.

End Js.

Import Js.

(** ** src/lib/mentions.ts *)

Module Mentions.

(** [[a-zA-Z0-9._-]] *)
Definition is_name_char (c : ascii) : bool :=
  is_letter c || is_digit c
  || Ascii.eqb c "." || Ascii.eqb c "_" || Ascii.eqb c "-".

(** [[.,!?;:]] *)
Definition is_trailing_punct (c : ascii) : bool :=
  Ascii.eqb c "." || Ascii.eqb c "," || Ascii.eqb c "!"
  || Ascii.eqb c "?" || Ascii.eqb c ";" || Ascii.eqb c ":".

(** [(?<!\w)]: the character before the position, when there is one, is
    not a word character. *)
Definition lookbehind_ok (prev : option ascii) : bool :=
  match prev with
  | Some p => negb (is_word p)
  | None => true
  end.

(** One attempt of [mentionRegex] at the head of [s], [prev] being the
    character before it: a negative lookbehind for [\w], an [@], and as
    capture group 1 one [[a-zA-Z]] followed by the longest run of
    [[a-zA-Z0-9._-]].  The result is capture group 1. *)
Definition match_at (prev : option ascii) (s : jsstring) : option jsstring :=
  match s with
  | c :: l :: rest =>
      if lookbehind_ok prev && Ascii.eqb c "@" && is_letter l
      then Some (l :: span is_name_char rest)
      else None
  | _ => None
  end.

(** [text.matchAll(mentionRegex)] with the [g] flag: the matches from
    left to right, each search resuming where the previous match ended.
    [skip] counts the characters of the current match still to be passed
    over, [idx] is the index of the head of [s] in the text.  A match is
    returned as (index of its [@], capture group 1). *)
Fixpoint matchAll_from (prev : option ascii) (skip idx : nat) (s : jsstring)
  : list (nat * jsstring) :=
  match s with
  | [] => []
  | c :: s' =>
      match skip with
      | S k => matchAll_from (Some c) k (S idx) s'
      | O =>
          match match_at prev s with
          | Some cap =>
              (idx, cap) :: matchAll_from (Some c) (length cap) (S idx) s'
          | None => matchAll_from (Some c) 0 (S idx) s'
          end
      end
  end.

Definition matchAll (text : jsstring) : list (nat * jsstring) :=
  matchAll_from None 0 0 text.

(** [/[.,!?;:]$/.test(username)] *)
Definition ends_with_punct (username : jsstring) : bool :=
  match last username with
  | Some c => is_trailing_punct c
  | None => false
  end.

(** The loop
    [while (username.length > 0 && /[.,!?;:]$/.test(username))
       username = username.slice(0, -1)],
    with one unit of fuel per iteration. *)
Fixpoint strip_loop (fuel : nat) (username : jsstring) : jsstring :=
  match fuel with
  | O => username
  | S fuel' =>
      if (0 <? length username) && ends_with_punct username
      then strip_loop fuel' (removelast username)
      else username
  end.

Definition strip_trailing (username : jsstring) : jsstring :=
  strip_loop (length username) username.

(** The body of the [map] callback: [None] is the source's [null]. *)
Definition clean (capture : jsstring) : option jsstring :=
  let username := strip_trailing capture in
  if (length username <? 2) || (50 <? length username)
  then None
  else Some username.

Definition extractMentions (text : jsstring) : list jsstring :=
  match text with
  | [] => []
  | _ => uniq (omap clean (snd <$> matchAll text))
  end.

End Mentions.

(** ** The document store

  The tables of convex/schema.ts the mention pipeline reads and writes.
  A document id ([Id<'users'>], [Id<'channels'>], ...) is an opaque,
  never empty string: it is always truthy, so an optional id is an
  [option] and the tests [if (channelId)], [authorUserId && ...] are
  tests for [Some]. *)

Module Schema.

Definition Id := nat.

Inductive result (A : Type) : Type :=
| Ok (a : A)
| Throw (e : jsstring).
Arguments Ok {A} a.
Arguments Throw {A} e.

Record User := {
  user_id : Id;
  name : option jsstring;
  email : option jsstring }.

Inductive Role := role_admin | role_member.

Record Member := {
  member_id : Id;
  member_userId : Id;
  member_workspaceId : Id;
  role : Role }.

Inductive TriState := inherit | enabled | disabled.

Record QuietHours := {
  qh_enabled : bool;
  startTime : jsstring;
  endTime : jsstring;
  timezone : jsstring }.

Record GlobalPreferences := {
  g_mentions : bool;
  directMessages : bool;
  sound : bool;
  desktop : bool;
  g_email : bool;
  mobile : bool;
  quietHours : QuietHours }.

(** [mutedUntil] is [v.optional(v.number())]: [None] is an absent key. *)
Record ChannelPreference := {
  channelId : Id;
  c_mentions : TriState;
  allMessages : TriState;
  threads : TriState;
  keywords : list jsstring;
  mutedUntil : option Z }.

Record NotificationPreferences := {
  prefs_id : Id;
  userId : Id;
  workspaceId : Id;
  globalPreferences : GlobalPreferences;
  channelPreferences : list ChannelPreference;
  createdAt : Z;
  updatedAt : Z }.

Inductive NotificationType := mention | direct_message | all_messages.

Record Notification := {
  n_id : Id;
  n_userId : Id;
  n_messageId : Id;
  n_workspaceId : Id;
  n_channelId : option Id;
  n_conversationId : option Id;
  n_type : NotificationType;
  read : bool;
  n_createdAt : Z }.

Record Message := {
  msg_id : Id;
  memberId : Id;
  body : jsstring;
  image : option Id;
  msg_channelId : option Id;
  msg_conversationId : option Id;
  msg_workspaceId : Id;
  parentMessageId : option Id }.

(** The database seen by one query or mutation.  [nextId] is the id the
    next [ctx.db.insert] returns. *)
Record Db := {
  users : list User;
  members : list Member;
  notificationPreferences : list NotificationPreferences;
  notifications : list Notification;
  messages : list Message;
  nextId : Id }.

(** The clock of the host: [now] is [Date.now()] in milliseconds,
    [tzOffset] the offset of its local time from UTC in minutes. *)
Record Clock := {
  now : Z;
  tzOffset : Z }.

Definition getUTCHours (c : Clock) : Z := (now c / 3600000) mod 24.
Definition getUTCMinutes (c : Clock) : Z := (now c / 60000) mod 60.
Definition getHours (c : Clock) : Z :=
  ((now c + tzOffset c * 60000) / 3600000) mod 24.

(** [.unique()]: the only document of a query, [null] when there is
    none; it throws when there are several. *)
Definition unique {A} (docs : list A) : result (option A) :=
  match docs with
  | [] => Ok None
  | [d] => Ok (Some d)
  | _ => Throw (js "unique() query returned more than one result")
  end.

(** Handlers run in a state monad over [Db] with exceptions.  After a
    [Throw] the database is the one the handler had reached, which later
    code of the handler would have seen; what is committed is decided by
    [mutation] below. *)
Definition M (A : Type) : Type := Db -> result A * Db.

Definition ret {A} (a : A) : M A := fun db => (Ok a, db).
Definition throw {A} (e : jsstring) : M A := fun db => (Throw e, db).
Definition bind {A B} (m : M A) (k : A -> M B) : M B :=
  fun db =>
    match m db with
    | (Ok a, db') => k a db'
    | (Throw e, db') => (Throw e, db')
    end.
Definition read_db {A} (q : Db -> result A) : M A := fun db => (q db, db).

Definition is_ok {A} (r : result A) : bool :=
  match r with Ok _ => true | Throw _ => false end.

(** [mutation({ handler })]: a mutation is a transaction.  The writes of
    a handler that returns are committed; when the handler throws, the
    mutation fails with that exception and none of its writes is. *)
Definition mutation {A} (handler : M A) : M A :=
  fun db =>
    match handler db with
    | (Ok a, db') => (Ok a, db')
    | (Throw e, _) => (Throw e, db)
    end.

End Schema.

Import Schema.

#[global] Instance M_ret : MRet M := @ret.
#[global] Instance M_bind : MBind M := fun A B k m => bind m k.

(** ** The notification preferences API (src/convex/members.ts) *)

Module Preferences.

(** The absent keys [_id], [createdAt] and [updatedAt] of the object the
    source builds are 0 here; its readers use the two preference fields
    only, and an insert sets all three. *)
Definition createDefaultPreferences (userId workspaceId : Id)
  : NotificationPreferences :=
  {| prefs_id := 0;
     userId := userId;
     workspaceId := workspaceId;
     globalPreferences :=
       {| g_mentions := true;
          directMessages := true;
          sound := true;
          desktop := true;
          g_email := false;
          mobile := true;
          quietHours :=
            {| qh_enabled := false;
               startTime := js "22:00";
               endTime := js "08:00";
               timezone := js "UTC" |} |};
     channelPreferences := [];
     createdAt := 0;
     updatedAt := 0 |}.

(** [const [h, m] = t.split(':').map(Number); h * 60 + m] *)
Definition minutes_of (t : jsstring) : jsnum :=
  let parts := Number <$> split ":" t in
  let h := mjoin (parts !! 0) in
  let m := mjoin (parts !! 1) in
  num_add (num_mul h (Some 60%Z)) m.

Definition isInQuietHours (clock : Clock) (quietHours : QuietHours) : bool :=
  if negb (qh_enabled quietHours) then false
  else
    let currentHour := getUTCHours clock in
    let currentMinute := getUTCMinutes clock in
    let currentTime := Some (currentHour * 60 + currentMinute)%Z in
    let startTime := minutes_of (startTime quietHours) in
    let endTime := minutes_of (endTime quietHours) in
    if num_gt startTime endTime
    then num_ge currentTime startTime || num_lt currentTime endTime
    else num_ge currentTime startTime && num_lt currentTime endTime.

(** [prefs.channelPreferences.find(cp => cp.channelId === channelId)] *)
Definition findChannelPref (channelPrefs : list ChannelPreference) (ch : Id)
  : option ChannelPreference :=
  snd <$> list_find (fun cp => channelId cp = ch) channelPrefs.

Definition shouldSendMentionNotification
    (prefs : NotificationPreferences) (channelId : option Id) : bool :=
  match channelId with
  | Some ch =>
      match findChannelPref (channelPreferences prefs) ch with
      | Some channelPref =>
          match c_mentions channelPref with
          | enabled => true
          | disabled => false
          | inherit => g_mentions (globalPreferences prefs)
          end
      | None => g_mentions (globalPreferences prefs)
      end
  | None => g_mentions (globalPreferences prefs)
  end.

Definition shouldSendAllMessagesNotification
    (prefs : NotificationPreferences) (channelId : option Id) : bool :=
  match channelId with
  | Some ch =>
      match findChannelPref (channelPreferences prefs) ch with
      | Some channelPref =>
          match allMessages channelPref with
          | enabled => true
          | disabled => false
          | inherit => false
          end
      | None => false
      end
  | None => false
  end.

(** [mutedUntil && mutedUntil > Date.now()]: the number 0 is falsy. *)
Definition isMuted (clock : Clock) (channelPref : option ChannelPreference)
  : bool :=
  match channelPref ≫= mutedUntil with
  | Some t => negb (t =? 0)%Z && (now clock <? t)%Z
  | None => false
  end.

(** The index [by_user_workspace]. *)
Definition by_user_workspace (u w : Id) (db : Db)
  : list NotificationPreferences :=
  filter (fun p => userId p = u /\ workspaceId p = w)
         (notificationPreferences db).

Definition shouldSendNotification (clock : Clock)
    (userId workspaceId : Id) (channelId : option Id)
    (notificationType : NotificationType) (db : Db) : result bool :=
  match unique (by_user_workspace userId workspaceId db) with
  | Throw e => Throw e
  | Ok preferences =>
      let prefs :=
        default (createDefaultPreferences userId workspaceId) preferences in
      if isInQuietHours clock (quietHours (globalPreferences prefs))
      then Ok false
      else if match channelId with
              | Some ch =>
                  isMuted clock (findChannelPref (channelPreferences prefs) ch)
              | None => false
              end
      then Ok false
      else
        Ok match notificationType with
           | mention => shouldSendMentionNotification prefs channelId
           | direct_message => directMessages (globalPreferences prefs)
           | all_messages => shouldSendAllMessagesNotification prefs channelId
           end
  end.

(** The [preferences] argument of [updateChannel]: every key is
    optional, and [mutedUntil] may also be [null] ([Some None]). *)
Record ChannelArgs := {
  a_mentions : option TriState;
  a_allMessages : option TriState;
  a_threads : option TriState;
  a_keywords : option (list jsstring);
  a_mutedUntil : option (option Z) }.

(** The object [channelUpdate].  It has the keys of a channel preference;
    its [mutedUntil] key is present only for a number. *)
Definition channelUpdate (ch : Id) (preferences : ChannelArgs)
  : ChannelPreference :=
  {| channelId := ch;
     c_mentions := default inherit (a_mentions preferences);
     allMessages := default disabled (a_allMessages preferences);
     threads := default enabled (a_threads preferences);
     keywords := default [] (a_keywords preferences);
     mutedUntil :=
       match a_mutedUntil preferences with
       | Some (Some t) => Some t
       | Some None => None
       | None => None
       end |}.

(** The object spread [{ ...old, ...upd }]: a key present in [upd] wins. *)
Definition spread (old upd : ChannelPreference) : ChannelPreference :=
  {| channelId := channelId upd;
     c_mentions := c_mentions upd;
     allMessages := allMessages upd;
     threads := threads upd;
     keywords := keywords upd;
     mutedUntil :=
       match mutedUntil upd with
       | Some t => Some t
       | None => mutedUntil old
       end |}.

(** [channelPrefs.findIndex(pref => pref.channelId === channelId)], with
    [None] for -1. *)
Definition existingIndex (channelPrefs : list ChannelPreference) (ch : Id)
  : option nat :=
  fst <$> list_find (fun pref => channelId pref = ch) channelPrefs.

(** Lines 494 to 515 of the handler: the new value of [channelPrefs]. *)
Definition updatedChannelPrefs (channelPrefs : list ChannelPreference)
    (ch : Id) (preferences : ChannelArgs) : list ChannelPreference :=
  let upd := channelUpdate ch preferences in
  match existingIndex channelPrefs ch with
  | Some i =>
      match channelPrefs !! i with
      | Some old => <[i := spread old upd]> channelPrefs
      | None => channelPrefs
      end
  | None => channelPrefs ++ [upd]
  end.

Definition set_prefs (l : list NotificationPreferences) (n : Id) (db : Db)
  : Db :=
  {| users := users db; members := members db;
     notificationPreferences := l;
     notifications := notifications db; messages := messages db;
     nextId := n |}.

(** [ctx.db.insert('notificationPreferences',
                   { ...defaultPrefs, createdAt, updatedAt })] *)
Definition insertPreferences (doc : NotificationPreferences) (t : Z) : M Id :=
  fun db =>
    let id := nextId db in
    let stored :=
      {| prefs_id := id; userId := userId doc;
         workspaceId := workspaceId doc;
         globalPreferences := globalPreferences doc;
         channelPreferences := channelPreferences doc;
         createdAt := t; updatedAt := t |} in
    (Ok id, set_prefs (notificationPreferences db ++ [stored]) (S id) db).

(** [ctx.db.get(prefsId)] *)
Definition getPreferences (id : Id) (db : Db)
  : option NotificationPreferences :=
  snd <$> list_find (fun p => prefs_id p = id) (notificationPreferences db).

(** [ctx.db.patch(id, { channelPreferences, updatedAt })] *)
Definition patched (id : Id) (channelPrefs : list ChannelPreference) (t : Z)
    (p : NotificationPreferences) : NotificationPreferences :=
  if bool_decide (prefs_id p = id)
  then {| prefs_id := prefs_id p; userId := userId p;
          workspaceId := workspaceId p;
          globalPreferences := globalPreferences p;
          channelPreferences := channelPrefs;
          createdAt := createdAt p; updatedAt := t |}
  else p.

Definition patchChannelPreferences (id : Id)
    (channelPrefs : list ChannelPreference) (t : Z) : M unit :=
  fun db =>
    (Ok (),
     set_prefs (patched id channelPrefs t <$> notificationPreferences db)
       (nextId db) db).

Definition updateChannel (caller : option Id) (clock : Clock)
    (userId workspaceId channelId : Id) (preferences : ChannelArgs) : M Id :=
  if negb (bool_decide (caller = Some userId))
  then throw (js "Unauthorized")
  else
    found ← read_db (fun db => unique (by_user_workspace userId workspaceId db));
    userPrefs ←
      match found with
      | Some p => mret p
      | None =>
          prefsId ← insertPreferences
                      (createDefaultPreferences userId workspaceId) (now clock);
          got ← read_db (fun db => Ok (getPreferences prefsId db));
          match got with
          | Some p => mret p
          | None => throw (js "Failed to create preferences")
          end
      end;
    let channelPrefs :=
      updatedChannelPrefs (channelPreferences userPrefs) channelId preferences in
    patchChannelPreferences (prefs_id userPrefs) channelPrefs (now clock);;
    mret (prefs_id userPrefs).

End Preferences.

(** ** The members API (src/convex/members.ts) *)

Module Members.

(** An element of the array [getByUsername] returns. *)
Record MemberMatch := {
  mm_id : Id;
  mm_userId : Id;
  mm_workspaceId : Id;
  mm_role : Role;
  mm_user : User;
  displayName : jsstring;
  username : jsstring }.

(** [ctx.db.get(userId)] *)
Definition populateUser (db : Db) (u : Id) : option User :=
  snd <$> list_find (fun x => user_id x = u) (users db).

(** The index [by_workspace_id]. *)
Definition by_workspace_id (w : Id) (db : Db) : list Member :=
  filter (fun m => member_workspaceId m = w) (members db).

(** The index [by_workspace_id_user_id]. *)
Definition by_workspace_id_user_id (w u : Id) (db : Db) : list Member :=
  filter (fun m => member_workspaceId m = w /\ member_userId m = u)
         (members db).

(** The [for (const member of members)] loop, [matchingMembers] being
    the array filled so far. *)
Fixpoint collectMatches (db : Db) (limit : number) (searchTerm : jsstring)
    (members : list Member) (matchingMembers : list MemberMatch)
  : list MemberMatch :=
  match members with
  | [] => matchingMembers
  | member :: rest =>
      if length_ge (length matchingMembers) limit
      then matchingMembers
      else
        match populateUser db (member_userId member) with
        | None => collectMatches db limit searchTerm rest matchingMembers
        | Some user =>
            let name := toLowerCase (default [] (name user)) in
            let email := toLowerCase (default [] (email user)) in
            let emailUsername := default [] (split "@" email !! 0) in
            if includes name searchTerm
               || includes emailUsername searchTerm
               || includes email searchTerm
            then
              collectMatches db limit searchTerm rest
                (matchingMembers ++
                 [{| mm_id := member_id member;
                     mm_userId := member_userId member;
                     mm_workspaceId := member_workspaceId member;
                     mm_role := role member;
                     mm_user := user;
                     displayName :=
                       or_else (default [] (Schema.name user))
                               (js "Unknown User");
                     username :=
                       or_else emailUsername
                         (or_else (default [] (Schema.email user))
                                  (js "unknown")) |}])
            else collectMatches db limit searchTerm rest matchingMembers
        end
  end.

(** [args.limit || 10]: an absent limit, [NaN] and the number 0 are
    falsy. *)
Definition limit_or_10 (limit : option number) : number :=
  number_or limit (Finite 10).

Definition getByUsername (caller : option Id) (workspaceId : Id)
    (searchTerm : jsstring) (limit : option number) (db : Db)
  : result (list MemberMatch) :=
  match caller with
  | None => Ok []
  | Some userId =>
      match unique (by_workspace_id_user_id workspaceId userId db) with
      | Throw e => Throw e
      | Ok None => Ok []
      | Ok (Some currentMember) =>
          if length (trim searchTerm) <? 1 then Ok []
          else
            let limit := limit_or_10 limit in
            let searchTerm := trim (toLowerCase searchTerm) in
            let members := by_workspace_id workspaceId db in
            Ok (collectMatches db limit searchTerm members [])
      end
  end.

End Members.

(** ** The messages API (src/unnamed/part_011): the dispatcher *)

Module Messages.

Import Members.

(** One attempt of [/@(\w+)/] at the head of [s]; the result is capture
    group 1. *)
Definition match_at (s : jsstring) : option jsstring :=
  match s with
  | c :: rest =>
      if Ascii.eqb c "@"
      then match span is_word rest with
           | [] => None
           | cap => Some cap
           end
      else None
  | [] => None
  end.

(** The loop [while ((match = mentionRegex.exec(messageBody)) !== null)
    mentions.push(match[1])]: [skip] counts the characters of the current
    match still to be passed over. *)
Fixpoint exec_from (skip : nat) (s : jsstring) : list jsstring :=
  match s with
  | [] => []
  | _ :: s' =>
      match skip with
      | S k => exec_from k s'
      | O =>
          match match_at s with
          | Some cap => cap :: exec_from (length cap) s'
          | None => exec_from 0 s'
          end
      end
  end.

Definition extractMentions (messageBody : jsstring) : list jsstring :=
  uniq (exec_from 0 messageBody).

(** [user && user.name && usernames.includes(user.name)] *)
Definition isMentioned (usernames : list jsstring) (user : option User)
  : bool :=
  match user with
  | Some u =>
      match name u with
      | Some n =>
          match n with
          | [] => false
          | _ => bool_decide (n ∈ usernames)
          end
      | None => false
      end
  | None => false
  end.

Definition getMentionedUsers (db : Db) (workspaceId : Id)
    (usernames : list jsstring) : list Id :=
  match usernames with
  | [] => []
  | _ =>
      let members := by_workspace_id workspaceId db in
      let users := (fun member => populateUser db (member_userId member))
                     <$> members in
      omap (fun user =>
              if isMentioned usernames user then user_id <$> user else None)
           users
  end.

(** The quiet-hours block of [checkNotificationPreferences]: [true] when
    it reaches [return false]. *)
Definition quietHoursDeny (clock : Clock) (quietHours : QuietHours) : bool :=
  if qh_enabled quietHours then
    let currentHour := Some (getHours clock) in
    let startHour :=
      parseInt (default [] (split ":" (startTime quietHours) !! 0)) in
    let endHour :=
      parseInt (default [] (split ":" (endTime quietHours) !! 0)) in
    if num_lt startHour endHour
    then num_ge currentHour startHour && num_lt currentHour endHour
    else num_ge currentHour startHour || num_lt currentHour endHour
  else false.

(** The channel block of [checkNotificationPreferences]: [Some b] when
    it returns [b], [None] when control falls through. *)
Definition channelDecision (clock : Clock)
    (preferences : NotificationPreferences) (channelId : option Id)
  : option bool :=
  match channelId with
  | Some ch =>
      match Preferences.findChannelPref (channelPreferences preferences) ch with
      | Some channelPref =>
          if Preferences.isMuted clock (Some channelPref) then Some false
          else match c_mentions channelPref with
               | disabled => Some false
               | enabled => Some true
               | inherit => None
               end
      | None => None
      end
  | None => None
  end.

Definition checkNotificationPreferences (clock : Clock)
    (userId workspaceId : Id) (channelId : option Id) (db : Db)
  : result bool :=
  match unique (Preferences.by_user_workspace userId workspaceId db) with
  | Throw e => Throw e
  | Ok None => Ok true
  | Ok (Some preferences) =>
      if negb (g_mentions (globalPreferences preferences)) then Ok false
      else
        match channelDecision clock preferences channelId with
        | Some b => Ok b
        | None =>
            if quietHoursDeny clock (quietHours (globalPreferences preferences))
            then Ok false
            else Ok true
        end
  end.

Definition set_notifications (l : list Notification) (n : Id) (db : Db)
  : Db :=
  {| users := users db; members := members db;
     notificationPreferences := notificationPreferences db;
     notifications := l; messages := messages db;
     nextId := n |}.

(** [ctx.db.insert('notifications', { userId, messageId, workspaceId,
    channelId, conversationId, type: 'mention', read: false,
    createdAt: Date.now() })] *)
Definition insertNotification (clock : Clock) (userId messageId workspaceId : Id)
    (channelId conversationId : option Id) : M Id :=
  fun db =>
    let id := nextId db in
    let doc :=
      {| n_id := id; n_userId := userId; n_messageId := messageId;
         n_workspaceId := workspaceId; n_channelId := channelId;
         n_conversationId := conversationId; n_type := mention;
         read := false; n_createdAt := now clock |} in
    (Ok id, set_notifications (notifications db ++ [doc]) (S id) db).

(** The loop [for (const userId of mentionedUserIds)], over the two
    awaited operations of its body: [check] is the call of
    [checkNotificationPreferences] and [insert] the call of
    [ctx.db.insert('notifications', ...)].  Nothing in the loop catches
    an exception. *)
Section Loop.

Variable check : Id -> Db -> result bool.
Variable insert : Id -> M Id.
Variable authorUserId : option Id.

Definition notifyOne (userId : Id) : M unit :=
  shouldNotify ← read_db (check userId);
  if shouldNotify : bool
  then insert userId;; mret ()
  else mret ().

Fixpoint notifyEachWith (mentionedUserIds : list Id) : M unit :=
  match mentionedUserIds with
  | [] => mret ()
  | userId :: rest =>
      if bool_decide (authorUserId = Some userId)
      then notifyEachWith rest
      else notifyOne userId;; notifyEachWith rest
  end.

End Loop.

Definition notifyEach (clock : Clock) (messageId workspaceId : Id)
    (channelId conversationId authorUserId : option Id)
    (mentionedUserIds : list Id) : M unit :=
  notifyEachWith
    (fun userId =>
       checkNotificationPreferences clock userId workspaceId channelId)
    (fun userId =>
       insertNotification clock userId messageId workspaceId channelId
         conversationId)
    authorUserId mentionedUserIds.

Definition handleMentionNotifications (clock : Clock) (messageId : Id)
    (messageBody : jsstring) (workspaceId : Id)
    (channelId conversationId authorUserId : option Id) : M unit :=
  let mentionedUsernames := extractMentions messageBody in
  match mentionedUsernames with
  | [] => mret ()
  | _ =>
      mentionedUserIds ←
        read_db (fun db =>
                   Ok (getMentionedUsers db workspaceId mentionedUsernames));
      notifyEach clock messageId workspaceId channelId conversationId
        authorUserId mentionedUserIds
  end.

Definition set_messages (l : list Message) (n : Id) (db : Db) : Db :=
  {| users := users db; members := members db;
     notificationPreferences := notificationPreferences db;
     notifications := notifications db; messages := l;
     nextId := n |}.

Definition insertMessage (memberId : Id) (body : jsstring) (image : option Id)
    (channelId conversationId : option Id) (workspaceId : Id)
    (parentMessageId : option Id) : M Id :=
  fun db =>
    let id := nextId db in
    let doc :=
      {| msg_id := id; memberId := memberId; body := body; image := image;
         msg_channelId := channelId; msg_conversationId := conversationId;
         msg_workspaceId := workspaceId;
         parentMessageId := parentMessageId |} in
    (Ok id, set_messages (messages db ++ [doc]) (S id) db).

(** [ctx.db.get(parentMessageId)] *)
Definition getMessage (id : Id) (db : Db) : option Message :=
  snd <$> list_find (fun m => msg_id m = id) (messages db).

(** The mutation [create]; [caller] is [auth.getUserId(ctx)]. *)
Definition create (caller : option Id) (clock : Clock)
    (body : jsstring) (image : option Id) (workspaceId : Id)
    (channelId parentMessageId conversationId : option Id) : M Id :=
  match caller with
  | None => throw (js "Unauthorized")
  | Some userId =>
      found ← read_db (fun db =>
                unique (by_workspace_id_user_id workspaceId userId db));
      match found with
      | None => throw (js "Unauthorized")
      | Some member =>
          _conversationId ←
            match conversationId, channelId, parentMessageId with
            | None, None, Some parent =>
                parentMessage ← read_db (fun db => Ok (getMessage parent db));
                match parentMessage with
                | None => throw (js "Parent message not found")
                | Some pm => mret (msg_conversationId pm)
                end
            | _, _, _ => mret conversationId
            end;
          messageId ← insertMessage (member_id member) body image channelId
                        _conversationId workspaceId parentMessageId;
          handleMentionNotifications clock messageId body workspaceId
            channelId _conversationId (Some userId);;
          mret messageId
      end
  end.

(** [handleMentionNotifications] and [create] over a context [ctx] whose
    [ctx.db.insert('notifications', ...)] is the operation [insert],
    which may throw.  With [insertNotification] they are the two
    functions above. *)
Section Ctx.

Variable insert : Clock -> Id -> Id -> Id -> option Id -> option Id -> M Id.

Definition handleMentionNotificationsWith (clock : Clock) (messageId : Id)
    (messageBody : jsstring) (workspaceId : Id)
    (channelId conversationId authorUserId : option Id) : M unit :=
  let mentionedUsernames := extractMentions messageBody in
  match mentionedUsernames with
  | [] => mret ()
  | _ =>
      mentionedUserIds ←
        read_db (fun db =>
                   Ok (getMentionedUsers db workspaceId mentionedUsernames));
      notifyEachWith
        (fun userId =>
           checkNotificationPreferences clock userId workspaceId channelId)
        (fun userId =>
           insert clock userId messageId workspaceId channelId
             conversationId)
        authorUserId mentionedUserIds
  end.

Definition createWith (caller : option Id) (clock : Clock)
    (body : jsstring) (image : option Id) (workspaceId : Id)
    (channelId parentMessageId conversationId : option Id) : M Id :=
  match caller with
  | None => throw (js "Unauthorized")
  | Some userId =>
      found ← read_db (fun db =>
                unique (by_workspace_id_user_id workspaceId userId db));
      match found with
      | None => throw (js "Unauthorized")
      | Some member =>
          _conversationId ←
            match conversationId, channelId, parentMessageId with
            | None, None, Some parent =>
                parentMessage ← read_db (fun db => Ok (getMessage parent db));
                match parentMessage with
                | None => throw (js "Parent message not found")
                | Some pm => mret (msg_conversationId pm)
                end
            | _, _, _ => mret conversationId
            end;
          messageId ← insertMessage (member_id member) body image channelId
                        _conversationId workspaceId parentMessageId;
          handleMentionNotificationsWith clock messageId body workspaceId
            channelId _conversationId (Some userId);;
          mret messageId
      end
  end.

End Ctx.

End Messages.

(** ** A small workspace used in the examples *)

Module Fixtures.

Definition ws : Id := 100.
Definition general : Id := 7.

Definition alice : User :=
  {| user_id := 1; name := Some (js "alice");
     email := Some (js "alice@example.com") |}.
Definition john : User :=
  {| user_id := 2; name := Some (js "john");
     email := Some (js "john.doe@example.com") |}.
Definition sarah : User :=
  {| user_id := 3; name := Some (js "sarah");
     email := Some (js "sarah_smith@example.com") |}.
Definition b : User :=
  {| user_id := 4; name := Some (js "b");
     email := Some (js "bea@example.com") |}.

Definition member_of (u : User) : Member :=
  {| member_id := 10 + user_id u; member_userId := user_id u;
     member_workspaceId := ws; role := role_member |}.

(** Four members, no stored preferences, no notifications. *)
Definition db0 : Db :=
  {| users := [alice; john; sarah; b];
     members := member_of <$> [alice; john; sarah; b];
     notificationPreferences := [];
     notifications := [];
     messages := [];
     nextId := 1000 |}.

Definition with_prefs (l : list NotificationPreferences) : Db :=
  Preferences.set_prefs l (nextId db0) db0.

Definition channel_pref (m : TriState) (muted : option Z) : ChannelPreference :=
  {| channelId := general; c_mentions := m; allMessages := disabled;
     threads := enabled; keywords := []; mutedUntil := muted |}.

(** A stored preference document of [john] in [ws]. *)
Definition prefs_of_john (id : Id) (mentions quiet : bool) (from to : string)
    (channels : list ChannelPreference) : NotificationPreferences :=
  {| prefs_id := id; userId := user_id john; workspaceId := ws;
     globalPreferences :=
       {| g_mentions := mentions; directMessages := true; sound := true;
          desktop := true; g_email := false; mobile := true;
          quietHours :=
            {| qh_enabled := quiet; startTime := js from;
               endTime := js to; timezone := js "UTC" |} |};
     channelPreferences := channels;
     createdAt := 0; updatedAt := 0 |}.

(** Quiet hours 22:00 to 08:00, mentions on, the channel set to
    [enabled]. *)
Definition db_quiet_channel_on : Db :=
  with_prefs [prefs_of_john 500 true true "22:00" "08:00"
                [channel_pref enabled None]].

(** Quiet hours 22:00 to 08:30, mentions on, no channel entry. *)
Definition db_quiet_0830 : Db :=
  with_prefs [prefs_of_john 500 true true "22:00" "08:30" []].

(** Global mentions off, no quiet hours, the channel set to [m]. *)
Definition db_global_off (m : TriState) : Db :=
  with_prefs [prefs_of_john 500 false false "22:00" "08:00"
                [channel_pref m None]].

(** Global mentions on, no quiet hours, the channel set to [m]. *)
Definition db_global_on (m : TriState) : Db :=
  with_prefs [prefs_of_john 500 true false "22:00" "08:00"
                [channel_pref m None]].

(** A member whose profile name is not her handle. *)
Definition dana : User :=
  {| user_id := 5; name := Some (js "Dana Scully");
     email := Some (js "dana@example.com") |}.

Definition db_dana : Db :=
  {| users := [alice; dana];
     members := member_of <$> [alice; dana];
     notificationPreferences := [];
     notifications := [];
     messages := [];
     nextId := 1000 |}.

(** Two stored preference documents for [john] in [ws]: the query
    [.unique()] on them throws. *)
Definition db_dup : Db :=
  with_prefs [prefs_of_john 500 true false "22:00" "08:00" [];
              prefs_of_john 501 true false "22:00" "08:00" []].

(** A channel entry with every field away from its default. *)
Definition tuned_entry : ChannelPreference :=
  {| channelId := general; c_mentions := enabled; allMessages := inherit;
     threads := disabled; keywords := [js "urgent"];
     mutedUntil := Some 99999999%Z |}.

Definition db_tuned : Db :=
  with_prefs [prefs_of_john 500 true false "22:00" "08:00" [tuned_entry]].

(** An update that names [allMessages] only. *)
Definition only_allMessages : Preferences.ChannelArgs :=
  {| Preferences.a_mentions := None;
     Preferences.a_allMessages := Some enabled;
     Preferences.a_threads := None;
     Preferences.a_keywords := None;
     Preferences.a_mutedUntil := None |}.

(** An update that names [mutedUntil] only, as [null]. *)
Definition unmute : Preferences.ChannelArgs :=
  {| Preferences.a_mentions := None;
     Preferences.a_allMessages := None;
     Preferences.a_threads := None;
     Preferences.a_keywords := None;
     Preferences.a_mutedUntil := Some None |}.

(** 23:30 and 08:15 UTC on 1 January 1970, on a host in UTC. *)
Definition clock_2330 : Clock := {| now := 84600000; tzOffset := 0 |}.
Definition clock_0815 : Clock := {| now := 29700000; tzOffset := 0 |}.
Definition clock_noon : Clock := {| now := 43200000; tzOffset := 0 |}.

End Fixtures.

(** ** Predicates used to state the properties *)

Module Spec.

(** Position [i] of [text] holds an [@] that is not preceded by a word
    character. *)
Definition trigger_at (text : jsstring) (i : nat) : bool :=
  bool_decide (text !! i = Some "@"%char)
  && match i with
     | O => true
     | S j =>
         match text !! j with
         | Some p => negb (is_word p)
         | None => false
         end
     end.

(** The text [HH:mm] of hour [h] and minute [m]. *)
Definition two_digits (n : nat) : jsstring :=
  [ascii_of_nat (48 + n / 10); ascii_of_nat (48 + n mod 10)].
Definition hhmm (h m : nat) : jsstring :=
  two_digits h ++ ":"%char :: two_digits m.

(** [cur] lies in the daily window from [start] to [stop], all three in
    minutes after midnight; the window passes midnight when
    [start > stop]. *)
Definition in_window (start stop cur : Z) : bool :=
  if (stop <? start)%Z
  then (start <=? cur)%Z || (cur <? stop)%Z
  else (start <=? cur)%Z && (cur <? stop)%Z.

(** The derived handle of a user, the part of the email before the [@],
    as [getByUsername] computes it. *)
Definition handle_of (u : User) : jsstring :=
  default [] (split "@" (default [] (email u)) !! 0).

(** Case-insensitive resolution of [usernames] in a workspace: a member
    whose derived handle or whose profile name equals one of the usernames
    up to letter case is resolved. *)
Definition resolves_case_insensitively (db : Db) (workspaceId : Id)
    (usernames : list jsstring) : Prop :=
  forall m u x,
    m ∈ Members.by_workspace_id workspaceId db ->
    Members.populateUser db (member_userId m) = Some u ->
    x ∈ usernames ->
    toLowerCase x = toLowerCase (handle_of u)
    \/ Some (toLowerCase x) = toLowerCase <$> name u ->
    user_id u ∈ Messages.getMentionedUsers db workspaceId usernames.

(** Failure isolation for one call of the mutation [create] in a
    channel: the call succeeds, and every resolved recipient other than
    the author whose preferences allow the mention has a notification
    afterwards. *)
Definition isolates_failures (caller : Id) (clock : Clock) (body : jsstring)
    (workspaceId channelId : Id) (db : Db) : Prop :=
  let run :=
    mutation (Messages.create (Some caller) clock body None workspaceId
                (Some channelId) None None) db in
  is_ok run.1 = true
  /\ forall u,
       u ∈ Messages.getMentionedUsers db workspaceId
             (Messages.extractMentions body) ->
       u <> caller ->
       Messages.checkNotificationPreferences clock u workspaceId
         (Some channelId) db = Ok true ->
       u ∈ n_userId <$> notifications run.2.

(** [conv'] is the conversation [create] stores a message under: the
    conversation given, or for a thread reply given neither a channel nor
    a conversation the conversation of its parent message, which has to
    exist. *)
Definition stored_conversation (db : Db)
    (channelId parentMessageId conversationId conv' : option Id) : Prop :=
  match conversationId, channelId, parentMessageId with
  | None, None, Some parent =>
      exists pm, Messages.getMessage parent db = Some pm
                 /\ conv' = msg_conversationId pm
  | _, _, _ => conv' = conversationId
  end.

(** [updateChannel] gives no way to end a mute early: whatever the
    update, a channel that is muted at [clock] is still muted at [clock]
    afterwards. *)
Definition mute_cannot_be_cleared (clock : Clock) (u w ch : Id) (db : Db)
  : Prop :=
  forall args p old,
    unique (Preferences.by_user_workspace u w db) = Ok (Some p) ->
    Preferences.findChannelPref (channelPreferences p) ch = Some old ->
    Preferences.isMuted clock (Some old) = true ->
    exists p' entry,
      Preferences.getPreferences (prefs_id p)
        (Preferences.updateChannel (Some u) clock u w ch args db).2 = Some p'
      /\ Preferences.findChannelPref (channelPreferences p') ch = Some entry
      /\ Preferences.isMuted clock (Some entry) = true.



(** Minutes after midnight, UTC, at [clock]. *)
Definition utc_minutes (clock : Clock) : Z :=
  (getUTCHours clock * 60 + getUTCMinutes clock)%Z.

End Spec.

(** * The rest of the code *)

(** ** The rest of src/lib/mentions.ts *)

Module MentionTools.

Import Mentions.

(** [/^[a-zA-Z][a-zA-Z0-9._-]*$/.test(username)] *)
Definition usernameRegex (username : jsstring) : bool :=
  match username with
  | c :: rest => is_letter c && forallb is_name_char rest
  | [] => false
  end.

Definition isValidMentionUsername (username : jsstring) : bool :=
  match username with
  | [] => false
  | _ =>
      if (length username <? 2) || (50 <? length username) then false
      else usernameRegex username
  end.

Definition isValidMentionUsernamePartial (partial : jsstring) : bool :=
  match partial with
  | [] => true
  | c :: _ =>
      if negb (is_letter c) then false
      else forallb is_name_char partial
  end.

(** [text.substring(from, to)] for [from <= to]. *)
Definition substring (from to : nat) (text : jsstring) : jsstring :=
  take (to - from) (drop from text).

(** The value [findMentionAtCursor] returns. *)
Record MentionAtCursor := {
  m_start : nat;
  m_end : nat;
  m_username : jsstring }.

(** The loop [for (let i = cursorPosition - 1; i >= 0; i--)]: [before]
    holds [text[i]], [text[i - 1]], ... down to [text[0]].  The result is
    [atPosition], [None] standing for -1. *)
Fixpoint scanBack (i : nat) (before : jsstring) : option nat :=
  match before with
  | [] => None
  | c :: rest =>
      if Ascii.eqb c "@" then Some i
      else if is_space c then None
      else scanBack (pred i) rest
  end.

(** [cursorPosition] is an integer here. *)
Definition findMentionAtCursor (text : jsstring) (cursorPosition : Z)
  : option MentionAtCursor :=
  match text with
  | [] => None
  | _ =>
      if (cursorPosition <? 0)%Z
         || (Z.of_nat (length text) <? cursorPosition)%Z
      then None
      else
        let cursor := Z.to_nat cursorPosition in
        match scanBack (cursor - 1) (rev (take cursor text)) with
        | None => None
        | Some atPosition =>
            let partialMention := substring (atPosition + 1) cursor text in
            match partialMention with
            | [] =>
                Some {| m_start := atPosition; m_end := cursor;
                        m_username := partialMention |}
            | _ =>
                if negb (isValidMentionUsernamePartial partialMention)
                then None
                else Some {| m_start := atPosition; m_end := cursor;
                             m_username := partialMention |}
            end
        end
  end.

(** The callback of [text.replace] in [renderMentions]: what replaces the
    match [@capture]. *)
Definition replacement (mentionRenderer : jsstring -> jsstring)
    (capture : jsstring) : jsstring :=
  let cleanUsername := strip_trailing capture in
  if (2 <=? length cleanUsername) && (length cleanUsername <=? 50)
  then mentionRenderer cleanUsername
  else "@"%char :: capture.

(** [text.replace(mentionRegex, callback)] with the [g] flag: the text
    between the matches is kept and each match is replaced.  [skip] counts
    the characters of the current match still to be passed over. *)
Fixpoint replace_from (mentionRenderer : jsstring -> jsstring)
    (prev : option ascii) (skip : nat) (s : jsstring) : jsstring :=
  match s with
  | [] => []
  | c :: s' =>
      match skip with
      | S k => replace_from mentionRenderer (Some c) k s'
      | O =>
          match match_at prev s with
          | Some cap =>
              replacement mentionRenderer cap
              ++ replace_from mentionRenderer (Some c) (length cap) s'
          | None => c :: replace_from mentionRenderer (Some c) 0 s'
          end
      end
  end.

Definition renderMentions (text : jsstring)
    (mentionRenderer : jsstring -> jsstring) : jsstring :=
  match text with
  | [] => text
  | _ => replace_from mentionRenderer None 0 text
  end.

Definition countMentions (text : jsstring) : nat :=
  length (extractMentions text).

Definition hasMentions (text : jsstring) : bool :=
  0 <? countMentions text.

End MentionTools.

(** ** The notifications API (first file of src/unnamed/part_011) *)

Module Notifications.

(** The mutation [create]; the only notification type is ['mention']. *)
Definition create (caller : option Id) (clock : Clock)
    (userId messageId workspaceId : Id) (channelId conversationId : option Id)
  : M Id :=
  match caller with
  | None => throw (js "Unauthorized")
  | Some _ =>
      Messages.insertNotification clock userId messageId workspaceId
        channelId conversationId
  end.

(** [args.limit || 50]; the limit is a natural number here, the only
    numbers [take] accepts. *)
Definition limit_or_50 (limit : option nat) : nat :=
  match limit with
  | Some 0 | None => 50
  | Some l => l
  end.

(** The index [by_user_id]: the documents of a user, oldest first. *)
Definition by_user_id (u : Id) (db : Db) : list Notification :=
  filter (fun n => n_userId n = u) (notifications db).

(** The query [getByUserId]: [.order('desc').take(limit)]. *)
Definition getByUserId (caller : option Id) (userId : Id) (limit : option nat)
    (db : Db) : result (list Notification) :=
  match caller with
  | None => Throw (js "Unauthorized")
  | Some currentUserId =>
      if negb (bool_decide (currentUserId = userId))
      then Throw (js "Forbidden: Can only access own notifications")
      else Ok (take (limit_or_50 limit) (rev (by_user_id userId db)))
  end.

(** The index [by_user_id_read] at [read = false]. *)
Definition by_user_id_unread (u : Id) (db : Db) : list Notification :=
  filter (fun n => n_userId n = u /\ read n = false) (notifications db).

(** [counts[key] = (counts[key] || 0) + 1] *)
Definition increment (key : Id) (counts : gmap Id nat) : gmap Id nat :=
  <[key := default 0 (counts !! key) + 1]> counts.

(** The loop [for (const notification of unreadNotifications)] that
    groups by [key]. *)
Definition countBy (key : Notification -> option Id)
    (unreadNotifications : list Notification) : gmap Id nat :=
  fold_left
    (fun counts notification =>
       match key notification with
       | Some k => increment k counts
       | None => counts
       end)
    unreadNotifications ∅.

Definition getUnreadCountByChannel (caller : option Id)
    (userId workspaceId : Id) (db : Db) : result (gmap Id nat) :=
  match caller with
  | None => Throw (js "Unauthorized")
  | Some currentUserId =>
      if negb (bool_decide (currentUserId = userId))
      then Throw (js "Forbidden: Can only access own notifications")
      else
        let unreadNotifications :=
          filter (fun n => n_workspaceId n = workspaceId)
                 (by_user_id_unread userId db) in
        Ok (countBy n_channelId unreadNotifications)
  end.

Definition getUnreadCountByConversation (caller : option Id)
    (userId workspaceId : Id) (db : Db) : result (gmap Id nat) :=
  match caller with
  | None => Throw (js "Unauthorized")
  | Some currentUserId =>
      if negb (bool_decide (currentUserId = userId))
      then Throw (js "Forbidden: Can only access own notifications")
      else
        let unreadNotifications :=
          filter (fun n => n_conversationId n <> None)
            (filter (fun n => n_workspaceId n = workspaceId)
               (by_user_id_unread userId db)) in
        Ok (countBy n_conversationId unreadNotifications)
  end.

(** [ctx.db.get(notificationId)] *)
Definition getNotification (id : Id) (db : Db) : option Notification :=
  snd <$> list_find (fun n => n_id n = id) (notifications db).

Definition set_read (n : Notification) : Notification :=
  {| n_id := n_id n; n_userId := n_userId n; n_messageId := n_messageId n;
     n_workspaceId := n_workspaceId n; n_channelId := n_channelId n;
     n_conversationId := n_conversationId n; n_type := n_type n;
     read := true; n_createdAt := n_createdAt n |}.

(** [ctx.db.patch(id, { read: true })] *)
Definition patchRead (id : Id) : M unit :=
  fun db =>
    (Ok (),
     Messages.set_notifications
       ((fun n => if bool_decide (n_id n = id) then set_read n else n)
          <$> notifications db)
       (nextId db) db).

(** The mutation [markAsRead]; [true] is its result [{ success: true }]. *)
Definition markAsRead (caller : option Id) (notificationId : Id) : M bool :=
  match caller with
  | None => throw (js "Unauthorized")
  | Some currentUserId =>
      found ← read_db (fun db => Ok (getNotification notificationId db));
      match found with
      | None => throw (js "Notification not found")
      | Some notification =>
          if negb (bool_decide (n_userId notification = currentUserId))
          then throw (js "Forbidden: Can only mark own notifications as read")
          else patchRead notificationId;; mret true
      end
  end.

(** The loop [for (const notification of unreadNotifications)
    await ctx.db.patch(notification._id, { read: true })]. *)
Fixpoint patchEach (unreadNotifications : list Notification) : M unit :=
  match unreadNotifications with
  | [] => mret ()
  | notification :: rest => patchRead (n_id notification);; patchEach rest
  end.

(** The mutation [markChannelAsRead]; its result is [count]. *)
Definition markChannelAsRead (caller : option Id) (userId channelId : Id)
  : M nat :=
  match caller with
  | None => throw (js "Unauthorized")
  | Some currentUserId =>
      if negb (bool_decide (currentUserId = userId))
      then throw (js "Forbidden: Can only mark own notifications as read")
      else
        unreadNotifications ←
          read_db (fun db =>
            Ok (filter (fun n => n_channelId n = Some channelId)
                  (by_user_id_unread userId db)));
        patchEach unreadNotifications;;
        mret (length unreadNotifications)
  end.

Definition markConversationAsRead (caller : option Id)
    (userId conversationId : Id) : M nat :=
  match caller with
  | None => throw (js "Unauthorized")
  | Some currentUserId =>
      if negb (bool_decide (currentUserId = userId))
      then throw (js "Forbidden: Can only mark own notifications as read")
      else
        unreadNotifications ←
          read_db (fun db =>
            Ok (filter (fun n => n_conversationId n = Some conversationId)
                  (by_user_id_unread userId db)));
        patchEach unreadNotifications;;
        mret (length unreadNotifications)
  end.

End Notifications.

(** ** The rest of the notification preferences API
       (src/convex/members.ts) *)

Module PreferencesApi.

Import Preferences.

(** The query [getByUserWorkspace]: [null] for another caller, the
    defaults when nothing is stored. *)
Definition getByUserWorkspace (caller : option Id) (userId workspaceId : Id)
    (db : Db) : result (option NotificationPreferences) :=
  if negb (bool_decide (caller = Some userId)) then Ok None
  else
    match unique (by_user_workspace userId workspaceId db) with
    | Throw e => Throw e
    | Ok None => Ok (Some (createDefaultPreferences userId workspaceId))
    | Ok (Some preferences) => Ok (Some preferences)
    end.

(** The mutation [createDefaults]. *)
Definition createDefaults (caller : option Id) (clock : Clock)
    (userId workspaceId : Id) : M Id :=
  if negb (bool_decide (caller = Some userId))
  then throw (js "Unauthorized")
  else
    existing ← read_db (fun db => unique (by_user_workspace userId workspaceId db));
    match existing with
    | Some p => mret (prefs_id p)
    | None =>
        insertPreferences (createDefaultPreferences userId workspaceId)
          (now clock)
    end.

(** The [preferences] argument of [updateGlobal]: every key is
    optional. *)
Record GlobalArgs := {
  ga_mentions : option bool;
  ga_directMessages : option bool;
  ga_sound : option bool;
  ga_desktop : option bool;
  ga_email : option bool;
  ga_mobile : option bool;
  ga_quietHours : option QuietHours }.

(** [{ ...userPrefs.globalPreferences, ...args.preferences }] *)
Definition updatedGlobalPrefs (old : GlobalPreferences) (preferences : GlobalArgs)
  : GlobalPreferences :=
  {| g_mentions := default (g_mentions old) (ga_mentions preferences);
     directMessages :=
       default (directMessages old) (ga_directMessages preferences);
     sound := default (sound old) (ga_sound preferences);
     desktop := default (desktop old) (ga_desktop preferences);
     g_email := default (g_email old) (ga_email preferences);
     mobile := default (mobile old) (ga_mobile preferences);
     quietHours := default (quietHours old) (ga_quietHours preferences) |}.

Definition patchedGlobal (id : Id) (g : GlobalPreferences) (t : Z)
    (p : NotificationPreferences) : NotificationPreferences :=
  if bool_decide (prefs_id p = id)
  then {| prefs_id := prefs_id p; userId := userId p;
          workspaceId := workspaceId p;
          globalPreferences := g;
          channelPreferences := channelPreferences p;
          createdAt := createdAt p; updatedAt := t |}
  else p.

(** [ctx.db.patch(id, { globalPreferences, updatedAt })] *)
Definition patchGlobalPreferences (id : Id) (g : GlobalPreferences) (t : Z)
  : M unit :=
  fun db =>
    (Ok (),
     set_prefs (patchedGlobal id g t <$> notificationPreferences db)
       (nextId db) db).

(** The mutation [updateGlobal]. *)
Definition updateGlobal (caller : option Id) (clock : Clock)
    (userId workspaceId : Id) (preferences : GlobalArgs) : M Id :=
  if negb (bool_decide (caller = Some userId))
  then throw (js "Unauthorized")
  else
    found ← read_db (fun db => unique (by_user_workspace userId workspaceId db));
    userPrefs ←
      match found with
      | Some p => mret p
      | None =>
          prefsId ← insertPreferences
                      (createDefaultPreferences userId workspaceId) (now clock);
          got ← read_db (fun db => Ok (getPreferences prefsId db));
          match got with
          | Some p => mret p
          | None => throw (js "Failed to create preferences")
          end
      end;
    let updatedGlobalPrefs :=
      updatedGlobalPrefs (globalPreferences userPrefs) preferences in
    patchGlobalPreferences (prefs_id userPrefs) updatedGlobalPrefs (now clock);;
    mret (prefs_id userPrefs).

End PreferencesApi.

(** ** The rest of the members API (src/convex/members.ts) *)

Module MembersApi.

Import Members.

(** The query [current]. *)
Definition current (caller : option Id) (workspaceId : Id) (db : Db)
  : result (option Member) :=
  match caller with
  | None => Ok None
  | Some userId => unique (by_workspace_id_user_id workspaceId userId db)
  end.

(** The query [get]: an element [{ ...member, user }] is a pair. *)
Definition get (caller : option Id) (workspaceId : Id) (db : Db)
  : result (list (Member * User)) :=
  match caller with
  | None => Ok []
  | Some userId =>
      match unique (by_workspace_id_user_id workspaceId userId db) with
      | Throw e => Throw e
      | Ok None => Ok []
      | Ok (Some _) =>
          Ok (omap (fun member =>
                      pair member <$> populateUser db (member_userId member))
                   (by_workspace_id workspaceId db))
      end
  end.

(** [ctx.db.get(args.id)] on the members. *)
Definition getMemberById (id : Id) (db : Db) : option Member :=
  snd <$> list_find (fun m => member_id m = id) (members db).

Definition set_members (l : list Member) (db : Db) : Db :=
  {| users := users db; members := l;
     notificationPreferences := notificationPreferences db;
     notifications := notifications db; messages := messages db;
     nextId := nextId db |}.

(** [ctx.db.patch(args.id, { role: args.role })] *)
Definition patchRole (id : Id) (r : Role) : M unit :=
  fun db =>
    (Ok (),
     set_members
       ((fun m =>
           if bool_decide (member_id m = id)
           then {| member_id := member_id m; member_userId := member_userId m;
                   member_workspaceId := member_workspaceId m; role := r |}
           else m) <$> members db)
       db).

(** The mutation [update]. *)
Definition update (caller : option Id) (id : Id) (r : Role) : M Id :=
  match caller with
  | None => throw (js "Unauthorized")
  | Some userId =>
      found ← read_db (fun db => Ok (getMemberById id db));
      match found with
      | None => throw (js "Member not found")
      | Some member =>
          currentMember ←
            read_db (fun db =>
              unique (by_workspace_id_user_id (member_workspaceId member)
                        userId db));
          match currentMember with
          | Some cm =>
              match role cm with
              | role_admin => patchRole id r;; mret id
              | role_member => throw (js "Unauthorized")
              end
          | None => throw (js "Unauthorized")
          end
      end
  end.

End MembersApi.

(** ** More examples *)

Module Fixtures2.

Import Fixtures.

Definition note (id user : Id) (channel conversation : option Id)
    (isRead : bool) : Notification :=
  {| n_id := id; n_userId := user; n_messageId := 1; n_workspaceId := ws;
     n_channelId := channel; n_conversationId := conversation;
     n_type := mention; read := isRead; n_createdAt := 0 |}.

(** Notifications of [john] (two in [general], one of them read, one in
    channel 8, one in conversation 50) and one of [sarah]. *)
Definition db_notes : Db :=
  Messages.set_notifications
    [ note 900 (user_id john) (Some general) None false;
      note 901 (user_id john) (Some general) None true;
      note 902 (user_id john) (Some 8) None false;
      note 903 (user_id sarah) (Some general) None false;
      note 904 (user_id john) None (Some 50) false ]
    1000 db0.

(** Two stored preference documents for [sarah] in [ws], none for the
    others: her check throws, the checks of the others allow. *)
Definition prefs_of_sarah (id : Id) : NotificationPreferences :=
  {| prefs_id := id; userId := user_id sarah; workspaceId := ws;
     globalPreferences :=
       globalPreferences (prefs_of_john id true false "22:00" "08:00" []);
     channelPreferences := [];
     createdAt := 0; updatedAt := 0 |}.

Definition db_dup_sarah : Db :=
  with_prefs [prefs_of_sarah 500; prefs_of_sarah 501].

(** An insert of notifications that throws for the recipient [bad]. *)
Definition insert_failing_for (bad : Id) (clock : Clock)
    (userId messageId workspaceId : Id) (channelId conversationId : option Id)
  : M Id :=
  if bool_decide (userId = bad) then throw (js "insert failed")
  else Messages.insertNotification clock userId messageId workspaceId
         channelId conversationId.

(** An update that names [mutedUntil] only, as the number 0. *)
Definition mute_until_0 : Preferences.ChannelArgs :=
  {| Preferences.a_mentions := None;
     Preferences.a_allMessages := None;
     Preferences.a_threads := None;
     Preferences.a_keywords := None;
     Preferences.a_mutedUntil := Some (Some 0%Z) |}.

Definition admin_alice : Member :=
  {| member_id := 11; member_userId := user_id alice;
     member_workspaceId := ws; role := role_admin |}.

(** [alice] is admin, [john] a plain member. *)
Definition db_admin : Db :=
  MembersApi.set_members [admin_alice; member_of john] db0.

End Fixtures2.

(** ** Further predicates used to state the properties *)

Module Props.

(** The character before the position reached after [passed], [prev]
    being the character before [passed]. *)
Definition prev_after (prev : option ascii) (passed : jsstring)
  : option ascii :=
  match last passed with
  | Some c => Some c
  | None => prev
  end.

(** [rest] is empty or starts with a character that cannot continue a
    name. *)
Definition ends_name (rest : jsstring) : bool :=
  match rest with
  | [] => true
  | c :: _ => negb (Mentions.is_name_char c)
  end.

(** The unread notifications of user [u] in channel [ch] of workspace
    [w]: what the badge of the channel counts. *)
Definition unread_in_channel (u w ch : Id) (l : list Notification) : nat :=
  length (filter (fun n => n_userId n = u /\ read n = false
                           /\ n_workspaceId n = w
                           /\ n_channelId n = Some ch) l).

(** [n] elements can have been collected under [limit]: none, or the
    last one was added when [n - 1 >= limit] was false. *)
Definition within_limit (limit : number) (n : nat) : Prop :=
  n = 0 \/ length_ge (n - 1) limit = false.

(** The unread notifications of user [u] in conversation [cv] of
    workspace [w]. *)
Definition unread_in_conversation (u w cv : Id) (l : list Notification)
  : nat :=
  length (filter (fun n => n_userId n = u /\ read n = false
                           /\ n_workspaceId n = w
                           /\ n_conversationId n = Some cv) l).

(** A count as a badge shows it: no entry for zero. *)
Definition badge (c : nat) : option nat :=
  match c with
  | O => None
  | S _ => Some c
  end.

(** [db'] is [db] with some notifications marked as read: no document is
    added, removed or reordered, no notification goes back to unread, no
    other field and no other table changes. *)
Definition marks_only (db db' : Db) : Prop :=
  users db' = users db
  /\ members db' = members db
  /\ notificationPreferences db' = notificationPreferences db
  /\ messages db' = messages db
  /\ nextId db' = nextId db
  /\ Forall2 (fun n n' => n' = n \/ n' = Notifications.set_read n)
       (notifications db) (notifications db').

(** The notifications of [l], those that satisfy [P] marked as read. *)
Definition mark (P : Notification -> Prop) `{forall n, Decision (P n)}
    (l : list Notification) : list Notification :=
  (fun n => if decide (P n) then Notifications.set_read n else n) <$> l.

End Props.

(** * Properties *)

(** ** Facts about the string helpers *)

Section JsFacts.

Lemma elem_of_uniq_from (seen xs : list jsstring) (x : jsstring) :
  x ∈ uniq_from seen xs <-> x ∈ xs /\ x ∉ seen.
Proof.
  revert seen. induction xs as [|y xs IH]; intros seen; simpl.
  - rewrite elem_of_nil. tauto.
  - case_bool_decide as Hy.
    + rewrite IH, elem_of_cons. split; [tauto|].
      intros [[->|?] ?]; tauto.
    + rewrite elem_of_cons, IH, !elem_of_cons.
      destruct (decide (x = y)) as [->|]; tauto.
Qed.

Lemma NoDup_uniq_from (seen xs : list jsstring) : NoDup (uniq_from seen xs).
Proof.
  revert seen. induction xs as [|y xs IH]; intros seen; simpl.
  - constructor.
  - case_bool_decide; [apply IH|].
    constructor; [|apply IH].
    rewrite elem_of_uniq_from, elem_of_cons. tauto.
Qed.

Lemma uniq_from_snoc (seen xs : list jsstring) (x : jsstring) :
  uniq_from (seen ++ [x]) xs = uniq_from seen (filter (fun y => y <> x) xs).
Proof.
  revert seen. induction xs as [|y xs IH]; intros seen; simpl; [done|].
  rewrite filter_cons. destruct (decide (y <> x)) as [Hne|Heq]; simpl.
  - destruct (decide (y ∈ seen)) as [Hin|Hnin].
    + rewrite !bool_decide_eq_true_2; [apply IH|done|].
      apply elem_of_app; by left.
    + rewrite !bool_decide_eq_false_2; [f_equal; apply (IH (y :: seen))|done|].
      rewrite elem_of_app, list_elem_of_singleton. tauto.
  - assert (y = x) as -> by (destruct (decide (y = x)); tauto).
    rewrite bool_decide_eq_true_2; [apply IH|].
    apply elem_of_app; right. by apply list_elem_of_singleton.
Qed.

Lemma uniq_cons (x : jsstring) (l : list jsstring) :
  uniq (x :: l) = x :: uniq (filter (fun y => y <> x) l).
Proof.
  unfold uniq. simpl. f_equal. apply (uniq_from_snoc [] l x).
Qed.

End JsFacts.

(** ** src/lib/mentions.ts *)

Section MentionsFacts.

Import Mentions Spec.

Lemma strip_loop_spec (fuel : nat) (u : jsstring) :
  length u <= fuel ->
  exists suffix,
    u = strip_loop fuel u ++ suffix
    /\ forallb is_trailing_punct suffix = true
    /\ ends_with_punct (strip_loop fuel u) = false.
Proof.
  revert u. induction fuel as [|fuel IH]; intros u Hlen; simpl.
  - destruct u; [|simpl in Hlen; lia].
    exists []. done.
  - destruct u as [|c0 u0] using rev_ind.
    { exists []. done. }
    clear IHu0.
    assert (Hep : ends_with_punct (u0 ++ [c0]) = is_trailing_punct c0)
      by (unfold ends_with_punct; by rewrite last_snoc).
    rewrite Hep, removelast_last, length_app. simpl.
    replace (0 <? length u0 + 1) with true
      by (symmetry; apply Nat.ltb_lt; lia).
    simpl. destruct (is_trailing_punct c0) eqn:Hc.
    + rewrite length_app in Hlen. simpl in Hlen.
      destruct (IH u0) as (suf & Hu & Hsuf & Hend); [lia|].
      exists (suf ++ [c0]). split; [|split; [|done]].
      * rewrite app_assoc, <- Hu. done.
      * rewrite forallb_app, Hsuf. simpl. by rewrite Hc.
    + exists []. rewrite app_nil_r. split; [done|split; [done|]].
      by rewrite Hep.
Qed.

Lemma strip_trailing_spec (capture : jsstring) :
  exists suffix,
    capture = strip_trailing capture ++ suffix
    /\ forallb is_trailing_punct suffix = true
    /\ ends_with_punct (strip_trailing capture) = false.
Proof. apply strip_loop_spec. done. Qed.

Lemma clean_Some (capture u : jsstring) :
  clean capture = Some u <->
  u = strip_trailing capture /\ 2 <= length u <= 50.
Proof.
  unfold clean.
  destruct (Nat.ltb_spec (length (strip_trailing capture)) 2);
    destruct (Nat.ltb_spec 50 (length (strip_trailing capture)));
    cbn [orb]; (split; [intros [= <-] | intros [-> ?]]);
    try lia; try done; (split; [done|lia]).
Qed.

Lemma elem_of_extractMentions (text u : jsstring) :
  u ∈ extractMentions text <->
  exists m, m ∈ matchAll text
            /\ u = strip_trailing m.2 /\ 2 <= length u <= 50.
Proof.
  assert (extractMentions text = uniq (omap clean (snd <$> matchAll text)))
    as -> by (by destruct text).
  unfold uniq. rewrite elem_of_uniq_from, list_elem_of_omap.
  split.
  - intros [(cap & Hcap & Hclean) _].
    apply list_elem_of_fmap in Hcap as (m & -> & Hm).
    apply clean_Some in Hclean. eauto.
  - intros (m & Hm & Hu & Hlen). split; [|apply not_elem_of_nil].
    exists m.2. split; [apply list_elem_of_fmap; eauto|].
    apply clean_Some. done.
Qed.

Lemma matchAll_from_trigger (s pre : jsstring) (skip : nat) :
  Forall (fun m => trigger_at (pre ++ s) m.1 = true)
         (matchAll_from (last pre) skip (length pre) s).
Proof.
  revert pre skip.
  induction s as [|c s IH]; intros pre skip; cbn [matchAll_from].
  - constructor.
  - assert (Hnext : forall k,
              Forall (fun m => trigger_at (pre ++ c :: s) m.1 = true)
                     (matchAll_from (Some c) k (S (length pre)) s)).
    { intros k. specialize (IH (pre ++ [c]) k).
      rewrite last_snoc, length_app, <- app_assoc in IH. simpl in IH.
      by rewrite Nat.add_1_r in IH. }
    destruct skip as [|k]; [|apply Hnext].
    destruct (match_at (last pre) (c :: s)) as [cap|] eqn:Hm; [|apply Hnext].
    constructor; [|apply Hnext].
    simpl. unfold match_at in Hm. destruct s as [|l rest]; [done|].
    destruct (lookbehind_ok (last pre)) eqn:Hlb; [|done].
    destruct (Ascii.eqb c "@") eqn:Hc; [|done].
    apply Ascii.eqb_eq in Hc as ->.
    unfold trigger_at. rewrite list_lookup_middle by done.
    rewrite bool_decide_eq_true_2 by done. simpl.
    destruct (length pre) as [|j] eqn:Hlen; [done|].
    rewrite lookup_app_l by lia.
    rewrite last_lookup, Hlen in Hlb. simpl in Hlb.
    destruct (pre !! j) eqn:Hj; [done|].
    apply lookup_ge_None in Hj. lia.
Qed.

Lemma matchAll_trigger (text : jsstring) :
  Forall (fun m => trigger_at text m.1 = true) (matchAll text).
Proof. apply (matchAll_from_trigger text [] 0). Qed.

Lemma extractMentions_length (text : jsstring) :
  Forall (fun u => 2 <= length u <= 50) (extractMentions text).
Proof.
  apply Forall_forall. intros u Hu.
  apply elem_of_extractMentions in Hu as (m & _ & _ & Hlen). done.
Qed.

Lemma extractMentions_NoDup (text : jsstring) : NoDup (extractMentions text).
Proof. destruct text; [constructor|apply NoDup_uniq_from]. Qed.

Lemma extractMentions_unfold (text : jsstring) :
  extractMentions text = uniq (omap clean (snd <$> matchAll text)).
Proof. by destruct text. Qed.

(** C4.  The library [extractMentions]: [@] alone and [@a] give no
    mention and [@ab] gives [ab]; a cleaned token of more than 50
    characters is dropped, every result having between 2 and 50
    characters; every match starts at an [@] that no word character
    precedes, so [user@host.com] gives nothing; the punctuation
    [. , ! ? ; :] at the end of a capture is removed before its length is
    checked; the result has no duplicates and keeps the order of first
    occurrence. *)
Theorem extractMentions_edge_cases :
  extractMentions (js "@") = []
  /\ extractMentions (js "@a") = []
  /\ extractMentions (js "@ab") = [js "ab"]
  /\ extractMentions (js "user@host.com") = []
  /\ extractMentions ("@"%char :: replicate 50 "a"%char)
     = [replicate 50 "a"%char]
  /\ extractMentions ("@"%char :: replicate 51 "a"%char) = []
  /\ extractMentions (js "@a. @john! @sarah? @mike. @john")
     = [js "john"; js "sarah"; js "mike"]
  /\ (forall text, Forall (fun u => 2 <= length u <= 50) (extractMentions text))
  /\ (forall text, Forall (fun m => trigger_at text m.1 = true) (matchAll text))
  /\ (forall capture, exists suffix,
        capture = strip_trailing capture ++ suffix
        /\ forallb is_trailing_punct suffix = true
        /\ ends_with_punct (strip_trailing capture) = false)
  /\ (forall text u,
        u ∈ extractMentions text <->
        exists m, m ∈ matchAll text
                  /\ u = strip_trailing m.2 /\ 2 <= length u <= 50)
  /\ (forall text, NoDup (extractMentions text))
  /\ (forall text,
        extractMentions text = uniq (omap clean (snd <$> matchAll text)))
  /\ (forall x l, uniq (x :: l) = x :: uniq (filter (fun y => y <> x) l)).
Proof.
  repeat split; try (vm_compute; reflexivity).
  - apply extractMentions_length.
  - apply matchAll_trigger.
  - apply strip_trailing_spec.
  - apply elem_of_extractMentions.
  - apply elem_of_extractMentions.
  - apply extractMentions_NoDup.
  - apply extractMentions_unfold.
  - apply uniq_cons.
Qed.

Lemma extractMentions_edge_cases_witness :
  js "ab" ∈ extractMentions (js "see @ab.").
Proof.
  destruct extractMentions_edge_cases
    as (_ & _ & _ & _ & _ & _ & _ & _ & _ & _ & Hin & _).
  apply (Hin (js "see @ab.") (js "ab")).
  exists (4, js "ab."). split; [|split].
  - vm_compute. left.
  - vm_compute. reflexivity.
  - vm_compute. lia.
Defined.

End MentionsFacts.

(** ** Quiet hours and the mention decision *)

Section PreferenceFacts.

Import Preferences Spec Fixtures.

Lemma minutes_of_hhmm (h m : nat) :
  h < 24 -> m < 60 -> minutes_of (hhmm h m) = Some (Z.of_nat (h * 60 + m)).
Proof.
  intros Hh Hm.
  assert (Hall :
    forallb (fun h => forallb (fun m =>
      bool_decide (minutes_of (hhmm h m) = Some (Z.of_nat (h * 60 + m))))
      (seq 0 60)) (seq 0 24) = true) by (vm_compute; reflexivity).
  rewrite forallb_forall in Hall.
  specialize (Hall h). rewrite forallb_forall in Hall.
  eapply bool_decide_eq_true_1, Hall; apply in_seq; lia.
Qed.

(** With quiet hours enabled from [h1:m1] to [h2:m2], [isInQuietHours]
    is the window test on the UTC time of day. *)
Lemma isInQuietHours_window (clock : Clock) (h1 m1 h2 m2 : nat) (tz : jsstring) :
  h1 < 24 -> m1 < 60 -> h2 < 24 -> m2 < 60 ->
  isInQuietHours clock
    {| qh_enabled := true; startTime := hhmm h1 m1;
       endTime := hhmm h2 m2; timezone := tz |}
  = in_window (Z.of_nat (h1 * 60 + m1)) (Z.of_nat (h2 * 60 + m2))
              (utc_minutes clock).
Proof.
  intros. unfold isInQuietHours. cbn [qh_enabled startTime endTime negb].
  rewrite !minutes_of_hhmm by done. reflexivity.
Qed.

(** The query answers [false] in quiet hours whatever else is stored. *)
Lemma shouldSendNotification_quiet (clock : Clock) (u w : Id)
    (ch : option Id) (ty : NotificationType) (db : Db)
    (stored : option NotificationPreferences) :
  unique (by_user_workspace u w db) = Ok stored ->
  isInQuietHours clock
    (quietHours (globalPreferences
                   (default (createDefaultPreferences u w) stored))) = true ->
  shouldSendNotification clock u w ch ty db = Ok false.
Proof.
  intros Hu Hq. unfold shouldSendNotification. rewrite Hu. cbn zeta.
  by rewrite Hq.
Qed.

(** The query side: with quiet hours enabled from [h1:m1] to
    [h2:m2] in the stored document, the query denies every notification
    type at every time of day inside the window. *)
Lemma shouldSendNotification_denies_in_window (clock : Clock) (u w : Id)
    (ch : option Id) (ty : NotificationType) (db : Db)
    (prefs : NotificationPreferences) (h1 m1 h2 m2 : nat) (tz : jsstring) :
  unique (by_user_workspace u w db) = Ok (Some prefs) ->
  quietHours (globalPreferences prefs)
  = {| qh_enabled := true; startTime := hhmm h1 m1;
       endTime := hhmm h2 m2; timezone := tz |} ->
  h1 < 24 -> m1 < 60 -> h2 < 24 -> m2 < 60 ->
  in_window (Z.of_nat (h1 * 60 + m1)) (Z.of_nat (h2 * 60 + m2))
            (utc_minutes clock) = true ->
  shouldSendNotification clock u w ch ty db = Ok false.
Proof.
  intros Hu Hq ? ? ? ? Hin.
  apply (shouldSendNotification_quiet clock u w ch ty db (Some prefs) Hu).
  unfold default, from_option, id. rewrite Hq.
  by rewrite isInQuietHours_window.
Qed.

(** Outside quiet hours and a mute, the query decides a mention by the
    channel entry and falls back to the global setting. *)
Lemma shouldSendNotification_mention (clock : Clock) (u w ch : Id) (db : Db)
    (prefs : NotificationPreferences) :
  unique (by_user_workspace u w db) = Ok (Some prefs) ->
  isInQuietHours clock (quietHours (globalPreferences prefs)) = false ->
  isMuted clock (findChannelPref (channelPreferences prefs) ch) = false ->
  shouldSendNotification clock u w (Some ch) mention db
  = Ok match c_mentions <$> findChannelPref (channelPreferences prefs) ch with
       | Some enabled => true
       | Some disabled => false
       | Some inherit | None => g_mentions (globalPreferences prefs)
       end.
Proof.
  intros Hu Hq Hm. unfold shouldSendNotification. rewrite Hu.
  unfold default, from_option, id. cbn zeta. rewrite Hq, Hm.
  unfold shouldSendMentionNotification.
  destruct (findChannelPref (channelPreferences prefs) ch) as [cp|]; [|done].
  simpl. by destruct (c_mentions cp).
Qed.

(** C1.  At 23:30, with quiet hours from 22:00 to 08:00, the query
    [shouldSendNotification] denies a mention, but the dispatcher's
    [checkNotificationPreferences] allows it when the channel entry says
    [enabled]: it reads the channel entry before the quiet hours.  Its
    quiet-hours test also compares hours only: at 08:15, with quiet hours
    until 08:30, it allows the mention too. *)
Theorem dispatcher_ignores_quiet_hours :
  isInQuietHours clock_2330
    (quietHours (globalPreferences
       (prefs_of_john 500 true true "22:00" "08:00"
          [channel_pref enabled None]))) = true
  /\ shouldSendNotification clock_2330 (user_id john) ws (Some general)
       mention db_quiet_channel_on = Ok false
  /\ Messages.checkNotificationPreferences clock_2330 (user_id john) ws
       (Some general) db_quiet_channel_on = Ok true
  /\ isInQuietHours clock_0815
       (quietHours (globalPreferences
          (prefs_of_john 500 true true "22:00" "08:30" []))) = true
  /\ shouldSendNotification clock_0815 (user_id john) ws (Some general)
       mention db_quiet_0830 = Ok false
  /\ Messages.checkNotificationPreferences clock_0815 (user_id john) ws
       (Some general) db_quiet_0830 = Ok true.
Proof. repeat split; vm_compute; reflexivity. Qed.

(** C2.  With global mentions off and the channel entry set to
    [enabled], the query allows a mention and the dispatcher's
    [checkNotificationPreferences] denies it: it returns on the global
    setting before it reads the channel entry.  The two agree on
    [disabled] and on [inherit]. *)
Theorem dispatcher_global_off_beats_channel_enabled :
  shouldSendNotification clock_noon (user_id john) ws (Some general)
    mention (db_global_off enabled) = Ok true
  /\ Messages.checkNotificationPreferences clock_noon (user_id john) ws
       (Some general) (db_global_off enabled) = Ok false
  /\ Messages.checkNotificationPreferences clock_noon (user_id john) ws
       (Some general) (db_global_off inherit)
     = shouldSendNotification clock_noon (user_id john) ws (Some general)
         mention (db_global_off inherit)
  /\ Messages.checkNotificationPreferences clock_noon (user_id john) ws
       (Some general) (db_global_off disabled)
     = shouldSendNotification clock_noon (user_id john) ws (Some general)
         mention (db_global_off disabled)
  /\ (forall m,
        Messages.checkNotificationPreferences clock_noon (user_id john) ws
          (Some general) (db_global_on m)
        = shouldSendNotification clock_noon (user_id john) ws (Some general)
            mention (db_global_on m)).
Proof.
  repeat split; try (vm_compute; reflexivity).
  intros []; vm_compute; reflexivity.
Qed.

End PreferenceFacts.

(** ** updateChannel *)

Section UpdateChannelFacts.

Import Preferences Spec Fixtures Fixtures2.

Lemma findChannelPref_Some (l : list ChannelPreference) (ch : Id)
    (old : ChannelPreference) :
  findChannelPref l ch = Some old ->
  exists i, list_find (fun cp => channelId cp = ch) l = Some (i, old).
Proof.
  unfold findChannelPref.
  destruct (list_find _ l) as [[i x]|]; [|done].
  intros [= ->]. eauto.
Qed.

(** An update of a channel that has an entry replaces that entry by the
    spread of the old entry and [channelUpdate]. *)
Lemma findChannelPref_updated (l : list ChannelPreference) (ch : Id)
    (args : ChannelArgs) (old : ChannelPreference) :
  findChannelPref l ch = Some old ->
  findChannelPref (updatedChannelPrefs l ch args) ch
  = Some (spread old (channelUpdate ch args)).
Proof.
  intros Hf. apply findChannelPref_Some in Hf as [i Hi].
  unfold updatedChannelPrefs, existingIndex, findChannelPref.
  rewrite Hi. cbn [fmap option_fmap option_map fst].
  apply list_find_Some in Hi as (Hl & Hch & Hmin). rewrite Hl.
  assert (list_find (fun cp => channelId cp = ch)
            (<[i := spread old (channelUpdate ch args)]> l)
          = Some (i, spread old (channelUpdate ch args))) as ->; [|done].
  apply list_find_insert_Some. right; left.
  split; [done|split; [done|]].
  split; [by eapply lookup_lt_Some|].
  split; [done|]. intros j y Hy Hlt. by eapply Hmin.
Qed.

(** Updates keep at most one entry for each channel. *)
Lemma updatedChannelPrefs_NoDup (l : list ChannelPreference) (ch : Id)
    (args : ChannelArgs) :
  NoDup (channelId <$> l) ->
  NoDup (channelId <$> updatedChannelPrefs l ch args).
Proof.
  intros Hnd. unfold updatedChannelPrefs, existingIndex.
  destruct (list_find _ l) as [[i old]|] eqn:Hi; cbn [fmap option_fmap option_map fst].
  - apply list_find_Some in Hi as (Hl & Hch & _). rewrite Hl.
    rewrite list_fmap_insert. cbn [spread channelId channelUpdate].
    rewrite list_insert_id; [done|].
    by rewrite list_lookup_fmap, Hl, <- Hch.
  - apply list_find_None in Hi. rewrite fmap_app.
    apply NoDup_app. split; [done|]. split; [|apply NoDup_singleton].
    intros x Hx Hx'. apply list_elem_of_singleton in Hx'. subst x.
    apply list_elem_of_fmap in Hx as (cp & Hcp & Hin).
    rewrite Forall_forall in Hi. by apply (Hi cp).
Qed.

Lemma unique_Some_elem_of {A} (l : list A) (x : A) :
  unique l = Ok (Some x) -> l = [x].
Proof. destruct l as [|y [|z l]]; simpl; congruence. Qed.

Lemma getPreferences_patch (id : Id) (cps : list ChannelPreference) (t : Z)
    (db : Db) (p : NotificationPreferences) :
  p ∈ notificationPreferences db -> prefs_id p = id ->
  exists p',
    getPreferences id (patchChannelPreferences id cps t db).2 = Some p'
    /\ channelPreferences p' = cps.
Proof.
  intros Hin Hid. unfold getPreferences, patchChannelPreferences.
  cbn [snd set_prefs notificationPreferences].
  destruct (list_find_elem_of (fun q => prefs_id q = id)
              (patched id cps t <$> notificationPreferences db)
              (patched id cps t p)) as [[i q'] Hq'].
  { apply list_elem_of_fmap. eauto. }
  { unfold patched. by rewrite bool_decide_eq_true_2. }
  rewrite Hq'. cbn. eexists. split; [done|].
  apply list_find_Some in Hq' as (Hi & Hq' & _).
  apply list_lookup_fmap_Some in Hi as (q & -> & Hq).
  unfold patched in *. case_bool_decide; [done|]. congruence.
Qed.

Lemma updateChannel_existing (clock : Clock) (u w ch : Id) (args : ChannelArgs)
    (db : Db) (p : NotificationPreferences) :
  unique (by_user_workspace u w db) = Ok (Some p) ->
  updateChannel (Some u) clock u w ch args db
  = (Ok (prefs_id p),
     (patchChannelPreferences (prefs_id p)
        (updatedChannelPrefs (channelPreferences p) ch args)
        (now clock) db).2).
Proof.
  intros Hu. unfold updateChannel.
  rewrite bool_decide_eq_true_2 by done. cbn [negb].
  unfold mbind, M_bind, bind, read_db. rewrite Hu. reflexivity.
Qed.

(** C10, as the code has it.  When the channel has an entry with
    [mutedUntil] set, [updateChannel] with [mutedUntil: null], or without
    the key, succeeds and leaves [mutedUntil] as it was, so the channel
    is as muted as before at every time; nothing removes the key.  A
    number replaces the stored one: with 0, or with a time that is not
    in the future, the channel is no longer muted. *)
Theorem updateChannel_null_keeps_mute (clock : Clock) (u w ch : Id)
    (args : ChannelArgs) (db : Db) (p : NotificationPreferences)
    (old : ChannelPreference) (t : Z) :
  unique (by_user_workspace u w db) = Ok (Some p) ->
  findChannelPref (channelPreferences p) ch = Some old ->
  mutedUntil old = Some t ->
  exists db' p' entry,
    updateChannel (Some u) clock u w ch args db = (Ok (prefs_id p), db')
    /\ getPreferences (prefs_id p) db' = Some p'
    /\ findChannelPref (channelPreferences p') ch = Some entry
    /\ mutedUntil entry
       = Some match a_mutedUntil args with
              | Some (Some t') => t'
              | Some None | None => t
              end
    /\ (a_mutedUntil args = Some None \/ a_mutedUntil args = None ->
        forall clock',
          isMuted clock' (Some entry) = isMuted clock' (Some old))
    /\ (forall t' clock',
          a_mutedUntil args = Some (Some t') ->
          isMuted clock' (Some entry)
          = negb (t' =? 0)%Z && (now clock' <? t')%Z).
Proof.
  intros Hu Hold Ht.
  assert (Hin : p ∈ notificationPreferences db).
  { apply unique_Some_elem_of in Hu. unfold by_user_workspace in Hu.
    assert (Hp : p ∈ [p]) by apply list_elem_of_here.
    rewrite <- Hu in Hp. by apply list_elem_of_filter in Hp as [_ ?]. }
  destruct (getPreferences_patch (prefs_id p)
              (updatedChannelPrefs (channelPreferences p) ch args)
              (now clock) db p Hin eq_refl) as (p' & Hget & Hcps).
  eexists _, p', _. split; [by apply updateChannel_existing|].
  split; [exact Hget|]. rewrite Hcps.
  split; [by apply findChannelPref_updated|].
  cbn [spread channelUpdate mutedUntil]. rewrite Ht. split; [|split].
  - by destruct (a_mutedUntil args) as [[?|]|].
  - intros Hnull clock'. unfold isMuted. cbn.
    destruct Hnull as [-> | ->]; by rewrite Ht.
  - intros t' clock' Ha. unfold isMuted. cbn. by rewrite Ha.
Qed.

Lemma updateChannel_null_keeps_mute_witness :
  (exists db' p' entry,
     updateChannel (Some (user_id john)) clock_noon (user_id john) ws
       general unmute db_tuned = (Ok 500, db')
     /\ getPreferences 500 db' = Some p'
     /\ findChannelPref (channelPreferences p') general = Some entry
     /\ mutedUntil entry = Some 99999999%Z
     /\ isMuted clock_noon (Some entry) = true)
  /\ (exists db' p' entry,
        updateChannel (Some (user_id john)) clock_noon (user_id john) ws
          general mute_until_0 db_tuned = (Ok 500, db')
        /\ getPreferences 500 db' = Some p'
        /\ findChannelPref (channelPreferences p') general = Some entry
        /\ mutedUntil entry = Some 0%Z
        /\ isMuted clock_noon (Some entry) = false).
Proof.
  split.
  - destruct (updateChannel_null_keeps_mute clock_noon (user_id john) ws
                general unmute db_tuned
                (prefs_of_john 500 true false "22:00" "08:00" [tuned_entry])
                tuned_entry 99999999%Z eq_refl eq_refl eq_refl)
      as (db' & p' & entry & Hrun & Hget & Hfind & Hm & Hnull & _).
    exists db', p', entry. split; [exact Hrun|]. split; [exact Hget|].
    split; [exact Hfind|]. split; [exact Hm|].
    rewrite (Hnull (or_introl eq_refl) clock_noon). reflexivity.
  - destruct (updateChannel_null_keeps_mute clock_noon (user_id john) ws
                general mute_until_0 db_tuned
                (prefs_of_john 500 true false "22:00" "08:00" [tuned_entry])
                tuned_entry 99999999%Z eq_refl eq_refl eq_refl)
      as (db' & p' & entry & Hrun & Hget & Hfind & Hm & _ & Hnum).
    exists db', p', entry. split; [exact Hrun|]. split; [exact Hget|].
    split; [exact Hfind|]. split; [exact Hm|].
    rewrite (Hnum 0%Z clock_noon eq_refl). reflexivity.
Defined.

(** Counterexample to C10: the channel is muted until long after noon;
    [updateChannel] with [mutedUntil: 0] stores the 0, and the channel is
    not muted any more. *)
Lemma mute_cleared_early_counterexample :
  ~ mute_cannot_be_cleared clock_noon (user_id john) ws general db_tuned.
Proof.
  intros Hclaim.
  destruct (Hclaim mute_until_0
              (prefs_of_john 500 true false "22:00" "08:00" [tuned_entry])
              tuned_entry eq_refl eq_refl eq_refl)
    as (p' & entry & Hget & Hfind & Hmuted).
  vm_compute in Hget. injection Hget as <-.
  vm_compute in Hfind. injection Hfind as <-.
  vm_compute in Hmuted. discriminate.
Qed.

(** C8.  An update of an existing entry that names [allMessages] only
    resets [mentions], [threads] and [keywords] to the defaults of
    [channelUpdate]; of the fields left out, [mutedUntil] alone keeps its
    value.  The list still has one entry for the channel. *)
Theorem updateChannel_resets_unnamed_fields :
  updatedChannelPrefs [tuned_entry] general only_allMessages
  = [ {| channelId := general; c_mentions := inherit;
         allMessages := enabled; threads := enabled; keywords := [];
         mutedUntil := Some 99999999%Z |} ]
  /\ c_mentions tuned_entry = enabled
  /\ threads tuned_entry = disabled
  /\ keywords tuned_entry = [js "urgent"]
  /\ (channelPreferences <$>
        getPreferences 500
          (updateChannel (Some (user_id john)) clock_noon (user_id john) ws
             general only_allMessages db_tuned).2)
     = Some [ {| channelId := general; c_mentions := inherit;
                 allMessages := enabled; threads := enabled; keywords := [];
                 mutedUntil := Some 99999999%Z |} ].
Proof. repeat split; vm_compute; reflexivity. Qed.

End UpdateChannelFacts.

(** ** getByUsername *)

Section MembersFacts.

Import Members Spec Fixtures.

(** The guard of [getByUsername] stops the empty search term only. *)
Lemma getByUsername_guard (u w : Id) (searchTerm : jsstring)
    (limit : option number) (db : Db) (currentMember : Member) :
  unique (by_workspace_id_user_id w u db) = Ok (Some currentMember) ->
  getByUsername (Some u) w searchTerm limit db
  = match trim searchTerm with
    | [] => Ok []
    | _ => Ok (collectMatches db (limit_or_10 limit)
                 (trim (toLowerCase searchTerm)) (by_workspace_id w db) [])
    end.
Proof.
  intros Hu. unfold getByUsername. rewrite Hu.
  by destruct (trim searchTerm).
Qed.

(** C9.  For the search term [j], of one character, [getByUsername]
    scans the members of the workspace and returns the one it matches;
    the minimum length it enforces is 1, not 2. *)
Theorem getByUsername_one_character_scans :
  length (trim (js "j")) = 1
  /\ (exists l,
        getByUsername (Some (user_id alice)) ws (js "j") None db0 = Ok l
        /\ mm_userId <$> l = [user_id john]
        /\ username <$> l = [js "john.doe"])
  /\ getByUsername (Some (user_id alice)) ws (js "  ") None db0 = Ok [].
Proof.
  split; [reflexivity|]. split; [|vm_compute; reflexivity].
  eexists. split; [vm_compute; reflexivity|]. split; reflexivity.
Qed.

End MembersFacts.

(** ** The dispatcher *)

Section ResolutionFacts.

Import Members Messages Spec Fixtures.

(** The resolution, exactly: a username resolves to the members of the
    workspace whose profile name is not empty and is one of the usernames. *)
Lemma getMentionedUsers_exact_name (db : Db) (w : Id)
    (usernames : list jsstring) (id : Id) :
  id ∈ getMentionedUsers db w usernames <->
  exists m u n,
    m ∈ by_workspace_id w db
    /\ populateUser db (member_userId m) = Some u
    /\ name u = Some n /\ n <> [] /\ n ∈ usernames
    /\ id = user_id u.
Proof.
  unfold getMentionedUsers. destruct usernames as [|x0 xs].
  { rewrite elem_of_nil. split; [done|].
    intros (m & u & n & _ & _ & _ & _ & Hn & _). by apply elem_of_nil in Hn. }
  rewrite list_elem_of_omap. setoid_rewrite list_elem_of_fmap. split.
  - intros (user & (m & -> & Hm) & Hres).
    destruct (populateUser db (member_userId m)) as [u|] eqn:Hu; [|done].
    cbn in Hres. destruct (name u) as [[|c n]|] eqn:Hn; try done.
    case_bool_decide as Hin; [|done]. injection Hres as <-.
    exists m, u, (c :: n). done.
  - intros (m & u & n & Hm & Hu & Hn & Hne & Hin & ->).
    exists (Some u). split; [exists m; by rewrite Hu|].
    cbn. rewrite Hn. destruct n; [done|].
    by rewrite bool_decide_eq_true_2.
Qed.

(** C7.  The resolution of the dispatcher compares a username with the
    profile name, exactly.  [John] does not resolve to the member named
    [john], so the resolution is not case-insensitive; and the member the
    autocomplete search offers under the handle [dana], the local part of
    her email address, is not resolved from [dana]: a message that mentions
    her by that handle creates no notification. *)
Theorem getMentionedUsers_misses_handle :
  getMentionedUsers db0 ws [js "john"] = [user_id john]
  /\ getMentionedUsers db0 ws [js "John"] = []
  /\ ~ resolves_case_insensitively db0 ws [js "John"]
  /\ (exists l,
        getByUsername (Some (user_id alice)) ws (js "Dan") None db_dana = Ok l
        /\ mm_userId <$> l = [user_id dana]
        /\ username <$> l = [js "dana"])
  /\ handle_of dana = js "dana"
  /\ getMentionedUsers db_dana ws [js "dana"] = []
  /\ ~ resolves_case_insensitively db_dana ws [js "dana"]
  /\ notifications
       (create (Some (user_id alice)) clock_noon (js "ask @dana about it")
          None ws (Some general) None None db_dana).2
     = [].
Proof.
  split; [reflexivity|]. split; [reflexivity|]. split.
  { intros H.
    assert (Hin : user_id john ∈ getMentionedUsers db0 ws [js "John"]).
    { apply (H (member_of john) john (js "John")).
      - vm_compute. right. left.
      - reflexivity.
      - left.
      - right. reflexivity. }
    vm_compute in Hin. by apply elem_of_nil in Hin. }
  split.
  { eexists. split; [vm_compute; reflexivity|]. split; reflexivity. }
  split; [reflexivity|]. split; [reflexivity|]. split; [|reflexivity].
  intros H.
  assert (Hin : user_id dana ∈ getMentionedUsers db_dana ws [js "dana"]).
  { apply (H (member_of dana) dana (js "dana")).
    - vm_compute. right. left.
    - reflexivity.
    - left.
    - left. reflexivity. }
  vm_compute in Hin. by apply elem_of_nil in Hin.
Qed.

(** C3.  The dispatcher's [extractMentions] is not the library's: it
    takes the domain of an email address as a mention, keeps a name of one
    character and a name of 51, and stops a name at a dot or a dash.  A
    message that quotes the address [a@b.com] notifies the member named
    [b]. *)
Theorem dispatcher_extractMentions_differs :
  Mentions.extractMentions (js "contact me at a@b.com or @sarah")
  = [js "sarah"]
  /\ Messages.extractMentions (js "contact me at a@b.com or @sarah")
     = [js "b"; js "sarah"]
  /\ Mentions.extractMentions (js "@a") = []
  /\ Messages.extractMentions (js "@a") = [js "a"]
  /\ Mentions.extractMentions ("@"%char :: replicate 51 "a"%char) = []
  /\ Messages.extractMentions ("@"%char :: replicate 51 "a"%char)
     = [replicate 51 "a"%char]
  /\ Mentions.extractMentions (js "ping @john.doe!") = [js "john.doe"]
  /\ Messages.extractMentions (js "ping @john.doe!") = [js "john"]
  /\ n_userId <$>
       notifications
         (create (Some (user_id alice)) clock_noon
            (js "contact me at a@b.com") None ws (Some general) None None
            db0).2
     = [user_id b].
Proof. repeat split; vm_compute; reflexivity. Qed.

End ResolutionFacts.

Section LoopFacts.

Import Messages.

Variable check : Id -> Db -> result bool.
Variable insert : Id -> M Id.
Variable author : option Id.

Lemma bind_run {A B} (m : M A) (k : A -> M B) (db : Db) :
  (m ≫= k) db
  = match m db with
    | (Ok a, db') => k a db'
    | (Throw e, db') => (Throw e, db')
    end.
Proof. reflexivity. Qed.

Lemma notifyEachWith_cons (u : Id) (rest : list Id) (db : Db) :
  author <> Some u ->
  notifyEachWith check insert author (u :: rest) db
  = match notifyOne check insert u db with
    | (Ok _, db') => notifyEachWith check insert author rest db'
    | (Throw e, db') => (Throw e, db')
    end.
Proof.
  intros Hne. cbn [notifyEachWith].
  rewrite bool_decide_eq_false_2 by done. apply bind_run.
Qed.

Lemma notifyEachWith_app (pre post : list Id) (db db1 : Db) :
  notifyEachWith check insert author pre db = (Ok (), db1) ->
  notifyEachWith check insert author (pre ++ post) db
  = notifyEachWith check insert author post db1.
Proof.
  revert db. induction pre as [|u pre IH]; intros db Hpre.
  - by injection Hpre as ->.
  - cbn [app]. destruct (decide (author = Some u)) as [Heq|Hne].
    + cbn [notifyEachWith] in *.
      rewrite bool_decide_eq_true_2 in * by done. by apply IH.
    + rewrite notifyEachWith_cons in * by done.
      destruct (notifyOne check insert u db) as [[[]|e] db']; [|done].
      by apply IH.
Qed.

Lemma notifyOne_throws (u : Id) (db db' : Db) (e : jsstring) :
  (check u db = Throw e /\ db' = db)
  \/ (check u db = Ok true /\ insert u db = (Throw e, db')) ->
  notifyOne check insert u db = (Throw e, db').
Proof.
  unfold notifyOne. rewrite bind_run. unfold read_db.
  intros [[-> ->]|[-> Hins]]; [done|].
  rewrite bind_run, Hins. done.
Qed.

Lemma notifyEachWith_throws (pre : list Id) (u : Id) (post : list Id)
    (db db1 db2 : Db) (e : jsstring) :
  notifyEachWith check insert author pre db = (Ok (), db1) ->
  author <> Some u ->
  (check u db1 = Throw e /\ db2 = db1)
  \/ (check u db1 = Ok true /\ insert u db1 = (Throw e, db2)) ->
  notifyEachWith check insert author (pre ++ u :: post) db = (Throw e, db2).
Proof.
  intros Hpre Hne Hfail.
  rewrite (notifyEachWith_app pre (u :: post) db db1 Hpre).
  rewrite notifyEachWith_cons by done.
  by rewrite (notifyOne_throws u db1 db2 e Hfail).
Qed.

End LoopFacts.

Section DispatchFacts.

Import Members Messages Spec Fixtures Fixtures2.

Lemma handleMentionNotifications_run (clock : Clock) (messageId : Id)
    (body : jsstring) (w : Id) (ch conv author : option Id) (db : Db) :
  handleMentionNotifications clock messageId body w ch conv author db
  = notifyEach clock messageId w ch conv author
      (getMentionedUsers db w (extractMentions body)) db.
Proof.
  unfold handleMentionNotifications, getMentionedUsers.
  destruct (extractMentions body); reflexivity.
Qed.

Lemma mutation_throws {A} (handler : M A) (db : Db) (e : jsstring) :
  (handler db).1 = Throw e -> mutation handler db = (Throw e, db).
Proof.
  unfold mutation. destruct (handler db) as [[a|e'] db']; [done|].
  by intros [= ->].
Qed.

Lemma handleMentionNotificationsWith_run
    (insert : Clock -> Id -> Id -> Id -> option Id -> option Id -> M Id)
    (clock : Clock) (messageId : Id) (body : jsstring) (w : Id)
    (ch conv author : option Id) (db : Db) :
  handleMentionNotificationsWith insert clock messageId body w ch conv
    author db
  = notifyEachWith
      (fun userId => checkNotificationPreferences clock userId w ch)
      (fun userId => insert clock userId messageId w ch conv)
      author (getMentionedUsers db w (extractMentions body)) db.
Proof.
  unfold handleMentionNotificationsWith, getMentionedUsers.
  destruct (extractMentions body); reflexivity.
Qed.

(** Up to the dispatch, [createWith] looks up the member, settles the
    conversation and inserts the message. *)
Lemma createWith_run
    (insert : Clock -> Id -> Id -> Id -> option Id -> option Id -> M Id)
    (caller : Id) (clock : Clock) (body : jsstring) (image : option Id)
    (w : Id) (ch parent conv conv' : option Id) (db : Db) (member : Member) :
  unique (by_workspace_id_user_id w caller db) = Ok (Some member) ->
  stored_conversation db ch parent conv conv' ->
  createWith insert (Some caller) clock body image w ch parent conv db
  = match
      handleMentionNotificationsWith insert clock (nextId db) body w ch conv'
        (Some caller)
        (insertMessage (member_id member) body image ch conv' w parent db).2
    with
    | (Ok _, db') => (Ok (nextId db), db')
    | (Throw e, db') => (Throw e, db')
    end.
Proof.
  intros Hm Hconv. unfold createWith. rewrite bind_run. unfold read_db.
  rewrite Hm. rewrite bind_run.
  assert (Hrest : forall c,
    (insertMessage (member_id member) body image ch c w parent
     ≫= fun messageId =>
          handleMentionNotificationsWith insert clock messageId body w ch c
            (Some caller) ≫= fun _ => mret messageId) db
    = match
        handleMentionNotificationsWith insert clock (nextId db) body w ch c
          (Some caller)
          (insertMessage (member_id member) body image ch c w parent db).2
      with
      | (Ok _, db') => (Ok (nextId db), db')
      | (Throw e, db') => (Throw e, db')
      end).
  { intros c. rewrite bind_run. cbn [insertMessage snd]. rewrite bind_run.
    by destruct (handleMentionNotificationsWith _ _ _ _ _ _ _ _ _)
      as [[[]|e] db']. }
  unfold stored_conversation in Hconv.
  destruct conv as [c|]; [subst conv'; apply Hrest|].
  destruct ch as [c|]; [subst conv'; apply Hrest|].
  destruct parent as [pid|]; [|subst conv'; apply Hrest].
  destruct Hconv as (pm & Hpm & ->).
  rewrite bind_run. unfold read_db. rewrite Hpm. apply Hrest.
Qed.

(** C5, as the code has it.  The loop over the recipients awaits each
    step and catches nothing: when the preference check or the insert
    throws for a recipient, after the recipients before it went through,
    the loop stops there with that exception and the recipients after it
    are not processed.  For every message [create] gets as far as the
    dispatch with, in a channel, in a conversation or as a thread reply,
    [handleMentionNotifications] then fails with the exception, and so
    does [create]; the mutation, being a transaction, commits nothing,
    neither the message nor the notifications of the recipients before.
    The context's insert of notifications is any operation [insert];
    with [insertNotification] the functions are those of the code. *)
Theorem dispatch_failure_aborts :
  (forall check insert author pre u post db db1 db2 e,
      notifyEachWith check insert author pre db = (Ok (), db1) ->
      author <> Some u ->
      (check u db1 = Throw e /\ db2 = db1)
      \/ (check u db1 = Ok true /\ insert u db1 = (Throw e, db2)) ->
      notifyEachWith check insert author (pre ++ u :: post) db
      = (Throw e, db2))
  /\ (forall insert caller clock body image w ch parent conv conv' db member
             pre u post db1 db2 e,
        unique (by_workspace_id_user_id w caller db) = Ok (Some member) ->
        stored_conversation db ch parent conv conv' ->
        getMentionedUsers
          (insertMessage (member_id member) body image ch conv' w parent db).2
          w (extractMentions body)
        = pre ++ u :: post ->
        notifyEachWith
          (fun userId => checkNotificationPreferences clock userId w ch)
          (fun userId => insert clock userId (nextId db) w ch conv')
          (Some caller) pre
          (insertMessage (member_id member) body image ch conv' w parent db).2
        = (Ok (), db1) ->
        u <> caller ->
        (checkNotificationPreferences clock u w ch db1 = Throw e /\ db2 = db1)
        \/ (checkNotificationPreferences clock u w ch db1 = Ok true
            /\ insert clock u (nextId db) w ch conv' db1 = (Throw e, db2)) ->
        handleMentionNotificationsWith insert clock (nextId db) body w ch
          conv' (Some caller)
          (insertMessage (member_id member) body image ch conv' w parent db).2
        = (Throw e, db2)
        /\ (createWith insert (Some caller) clock body image w ch parent conv
              db).1 = Throw e
        /\ mutation
             (createWith insert (Some caller) clock body image w ch parent
                conv) db
           = (Throw e, db))
  /\ handleMentionNotifications
     = handleMentionNotificationsWith insertNotification
  /\ create = createWith insertNotification.
Proof.
  split; [|split; [|split; reflexivity]].
  - intros. by eapply notifyEachWith_throws.
  - intros insert caller clock body image w ch parent conv conv' db member
      pre u post db1 db2 e Hm Hconv Hres Hpre Hne Hfail.
    assert (Hhandle :
      handleMentionNotificationsWith insert clock (nextId db) body w ch
        conv' (Some caller)
        (insertMessage (member_id member) body image ch conv' w parent db).2
      = (Throw e, db2)).
    { rewrite handleMentionNotificationsWith_run, Hres.
      eapply notifyEachWith_throws; [exact Hpre|congruence|exact Hfail]. }
    assert (Hcreate :
      (createWith insert (Some caller) clock body image w ch parent conv
         db).1 = Throw e).
    { rewrite (createWith_run insert caller clock body image w ch parent conv
                 conv' db member Hm Hconv), Hhandle. reflexivity. }
    split; [exact Hhandle|]. split; [exact Hcreate|].
    by apply mutation_throws.
Qed.

Lemma dispatch_failure_aborts_witness :
  (mutation
     (createWith insertNotification (Some (user_id alice)) clock_noon
        (js "@john @sarah @b") None ws (Some general) None None)
     db_dup_sarah
   = (Throw (js "unique() query returned more than one result"),
      db_dup_sarah))
  /\ (mutation
        (createWith (insert_failing_for (user_id sarah))
           (Some (user_id alice)) clock_noon (js "@john @sarah @b") None ws
           None None (Some 50))
        db0
      = (Throw (js "insert failed"), db0)).
Proof.
  split.
  - apply (proj1 (proj2 dispatch_failure_aborts)
             insertNotification (user_id alice) clock_noon
             (js "@john @sarah @b") None ws (Some general) None None None
             db_dup_sarah (member_of alice) [user_id john] (user_id sarah)
             [user_id b]
             (insertNotification clock_noon (user_id john) 1000 ws
                (Some general) None
                (insertMessage (member_id (member_of alice))
                   (js "@john @sarah @b") None (Some general) None ws None
                   db_dup_sarah).2).2
             (insertNotification clock_noon (user_id john) 1000 ws
                (Some general) None
                (insertMessage (member_id (member_of alice))
                   (js "@john @sarah @b") None (Some general) None ws None
                   db_dup_sarah).2).2
             (js "unique() query returned more than one result"));
      [reflexivity|reflexivity|reflexivity|reflexivity|discriminate|].
    left. split; reflexivity.
  - apply (proj1 (proj2 dispatch_failure_aborts)
             (insert_failing_for (user_id sarah)) (user_id alice) clock_noon
             (js "@john @sarah @b") None ws None None (Some 50) (Some 50)
             db0 (member_of alice) [user_id john] (user_id sarah)
             [user_id b]
             (insertNotification clock_noon (user_id john) 1000 ws
                None (Some 50)
                (insertMessage (member_id (member_of alice))
                   (js "@john @sarah @b") None None (Some 50) ws None
                   db0).2).2
             (insertNotification clock_noon (user_id john) 1000 ws
                None (Some 50)
                (insertMessage (member_id (member_of alice))
                   (js "@john @sarah @b") None None (Some 50) ws None
                   db0).2).2
             (js "insert failed"));
      [reflexivity|reflexivity|reflexivity|reflexivity|discriminate|].
    right. split; reflexivity.
Defined.

(** Counterexample to C5: [john] has two preference documents, so his
    check throws; the mutation [create] fails with that exception, and
    [sarah], who is resolved and whose preferences allow the mention,
    gets no notification. *)
Lemma isolates_failures_counterexample :
  ~ isolates_failures (user_id alice) clock_noon (js "@john @sarah") ws
      general db_dup
  /\ getMentionedUsers db_dup ws (extractMentions (js "@john @sarah"))
     = [user_id john; user_id sarah]
  /\ checkNotificationPreferences clock_noon (user_id sarah) ws
       (Some general) db_dup = Ok true
  /\ mutation
       (create (Some (user_id alice)) clock_noon (js "@john @sarah") None ws
          (Some general) None None) db_dup
     = (Throw (js "unique() query returned more than one result"), db_dup).
Proof.
  split; [|repeat split; vm_compute; reflexivity].
  unfold isolates_failures. intros [Hok _].
  vm_compute in Hok. discriminate.
Qed.






End DispatchFacts.

(** * Properties of the rest of the code *)

(** ** The rest of src/lib/mentions.ts *)

Section MentionToolsFacts.

Import Mentions MentionTools Spec Props.

Lemma span_forallb (p : ascii -> bool) (s : jsstring) :
  forallb p (span p s) = true.
Proof.
  induction s as [|c s IH]; simpl; [done|].
  destruct (p c) eqn:Hc; simpl; [by rewrite Hc|done].
Qed.

Lemma span_all (p : ascii -> bool) (s rest : jsstring) :
  forallb p s = true -> span p (s ++ rest) = s ++ span p rest.
Proof.
  induction s as [|c s IH]; simpl; [done|].
  intros [Hc Hs]%andb_true_iff. rewrite Hc. f_equal. by apply IH.
Qed.

Lemma span_stop (p : ascii -> bool) (s : jsstring) :
  match s with [] => True | c :: _ => p c = false end -> span p s = [].
Proof. destruct s as [|c s]; simpl; [done|]. by intros ->. Qed.

Lemma span_prefix (p : ascii -> bool) (s : jsstring) :
  exists rest, s = span p s ++ rest.
Proof.
  induction s as [|c s [rest IH]]; simpl; [by exists []|].
  destruct (p c); [|by eexists].
  exists rest. simpl. by f_equal.
Qed.

(** A match starts with [@]; its capture is a letter followed by name
    characters and is a prefix of what follows the [@]. *)
Lemma match_at_Some (prev : option ascii) (s cap : jsstring) :
  match_at prev s = Some cap ->
  lookbehind_ok prev = true
  /\ usernameRegex cap = true
  /\ exists rest, s = "@"%char :: cap ++ rest.
Proof.
  unfold match_at. destruct s as [|c [|l rest]]; try done.
  destruct (lookbehind_ok prev); [|done].
  destruct (Ascii.eqb c "@") eqn:Hc; [|done].
  destruct (is_letter l) eqn:Hl; [|done].
  cbn [andb]. intros [= <-]. apply Ascii.eqb_eq in Hc as ->.
  split; [done|]. split.
  - cbn [usernameRegex]. rewrite Hl. apply span_forallb.
  - destruct (span_prefix is_name_char rest) as [rest' Hr].
    exists rest'. cbn [app]. by rewrite <- Hr.
Qed.

Lemma prev_after_cons (prev : option ascii) (c : ascii) (s : jsstring) :
  prev_after prev (c :: s) = prev_after (Some c) s.
Proof.
  unfold prev_after. destruct s as [|d s]; [done|].
  rewrite last_cons_cons.
  destruct (last (d :: s)) eqn:Hl; [done|]. by apply last_None in Hl.
Qed.

(** Passing over the characters of a match. *)
Lemma matchAll_from_skip (passed rest : jsstring) (prev : option ascii)
    (idx : nat) :
  matchAll_from prev (length passed) idx (passed ++ rest)
  = matchAll_from (prev_after prev passed) 0 (idx + length passed) rest.
Proof.
  revert prev idx. induction passed as [|c passed IH]; intros prev idx.
  - cbn [length app]. by rewrite Nat.add_0_r.
  - cbn [length app matchAll_from]. rewrite IH, prev_after_cons.
    f_equal. lia.
Qed.

Lemma replace_from_skip (f : jsstring -> jsstring) (passed rest : jsstring)
    (prev : option ascii) :
  replace_from f prev (length passed) (passed ++ rest)
  = replace_from f (prev_after prev passed) 0 rest.
Proof.
  revert prev. induction passed as [|c passed IH]; intros prev; [done|].
  cbn [length app replace_from]. by rewrite IH, prev_after_cons.
Qed.

Lemma match_at_no_at (prev : option ascii) (c : ascii) (s : jsstring) :
  c <> "@"%char -> match_at prev (c :: s) = None.
Proof.
  intros Hc. unfold match_at. destruct s as [|l rest]; [done|].
  apply Ascii.eqb_neq in Hc. rewrite Hc.
  by destruct (lookbehind_ok prev).
Qed.

(** Passing over text that holds no [@]. *)
Lemma matchAll_from_no_at (pre rest : jsstring) (prev : option ascii)
    (idx : nat) :
  "@"%char ∉ pre ->
  matchAll_from prev 0 idx (pre ++ rest)
  = matchAll_from (prev_after prev pre) 0 (idx + length pre) rest.
Proof.
  revert prev idx. induction pre as [|c pre IH]; intros prev idx Hno.
  - cbn [length app]. by rewrite Nat.add_0_r.
  - apply not_elem_of_cons in Hno as [Hc Hno].
    cbn [app length matchAll_from].
    rewrite match_at_no_at by done.
    rewrite IH, prev_after_cons by done. f_equal. lia.
Qed.

Lemma replace_from_no_at (f : jsstring -> jsstring) (pre rest : jsstring)
    (prev : option ascii) :
  "@"%char ∉ pre ->
  replace_from f prev 0 (pre ++ rest)
  = pre ++ replace_from f (prev_after prev pre) 0 rest.
Proof.
  revert prev. induction pre as [|c pre IH]; intros prev Hno; [done|].
  apply not_elem_of_cons in Hno as [Hc Hno].
  cbn [app replace_from]. rewrite match_at_no_at by done.
  by rewrite IH, prev_after_cons.
Qed.

Lemma matchAll_from_nil (prev : option ascii) (skip idx : nat) :
  matchAll_from prev skip idx [] = [].
Proof. done. Qed.

Lemma exec_from_no_at (s : jsstring) (skip : nat) :
  "@"%char ∉ s -> Messages.exec_from skip s = [].
Proof.
  revert skip. induction s as [|c s IH]; intros skip Hno; [done|].
  apply not_elem_of_cons in Hno as [Hc Hno].
  cbn [Messages.exec_from]. destruct skip; [|by apply IH].
  unfold Messages.match_at.
  assert (Hc' : Ascii.eqb c "@" = false) by (apply Ascii.eqb_neq; congruence).
  rewrite Hc'. by apply IH.
Qed.

(** X1.  A text without [@] holds no mention, for the library and for
    the dispatcher's extractor, and [renderMentions] returns it as it
    is. *)
Theorem no_at_no_mention (text : jsstring) (f : jsstring -> jsstring) :
  "@"%char ∉ text ->
  extractMentions text = []
  /\ hasMentions text = false
  /\ renderMentions text f = text
  /\ Messages.extractMentions text = [].
Proof.
  intros Hno.
  assert (Hm : matchAll text = []).
  { unfold matchAll.
    rewrite <- (app_nil_r text), matchAll_from_no_at by done. done. }
  assert (He : extractMentions text = []).
  { rewrite extractMentions_unfold, Hm. done. }
  split; [done|]. split; [unfold hasMentions, countMentions; by rewrite He|].
  split.
  - unfold renderMentions. destruct text as [|c text]; [done|].
    rewrite <- (app_nil_r (c :: text)) at 1.
    rewrite replace_from_no_at by done. cbn [replace_from].
    by rewrite app_nil_r.
  - unfold Messages.extractMentions. by rewrite exec_from_no_at.
Qed.

Lemma no_at_no_mention_witness :
  ("@"%char ∉ js "see you at 5")
  /\ extractMentions (js "see you at 5") = []
  /\ hasMentions (js "see you at 5") = false
  /\ renderMentions (js "see you at 5") (fun u => js "<" ++ u) = js "see you at 5"
  /\ Messages.extractMentions (js "see you at 5") = [].
Proof.
  assert (Hno : "@"%char ∉ (js "see you at 5")).
  { intros Hin. apply list_elem_of_In in Hin. vm_compute in Hin.
    repeat (destruct Hin as [Hin|Hin]; [discriminate|]). done. }
  split; [exact Hno|].
  apply (no_at_no_mention (js "see you at 5") (fun u => js "<" ++ u) Hno).
Defined.

Lemma matchAll_from_captures (s : jsstring) (prev : option ascii)
    (skip idx : nat) :
  Forall (fun m => usernameRegex m.2 = true) (matchAll_from prev skip idx s).
Proof.
  revert prev skip idx.
  induction s as [|c s IH]; intros prev skip idx; cbn [matchAll_from].
  - constructor.
  - destruct skip; [|apply IH].
    destruct (match_at prev (c :: s)) as [cap|] eqn:Hm; [|apply IH].
    constructor; [|apply IH].
    by apply match_at_Some in Hm as (_ & Hcap & _).
Qed.

Lemma usernameRegex_prefix (u suffix : jsstring) :
  usernameRegex (u ++ suffix) = true -> u <> [] -> usernameRegex u = true.
Proof.
  destruct u as [|c u]; [done|]. cbn [app usernameRegex].
  rewrite forallb_app. intros H _.
  apply andb_true_iff in H as [Hc H]. apply andb_true_iff in H as [Hu _].
  by rewrite Hc, Hu.
Qed.

(** X2.  Every name [extractMentions] returns is a valid username for
    [isValidMentionUsername]. *)
Theorem extractMentions_valid (text : jsstring) :
  Forall (fun u => isValidMentionUsername u = true) (extractMentions text).
Proof.
  apply Forall_forall. intros u Hu.
  apply elem_of_extractMentions in Hu as ([i cap] & Hin & -> & Hlen).
  cbn [snd] in *.
  assert (Hcap : usernameRegex cap = true).
  { pose proof (matchAll_from_captures text None 0 0) as Hall.
    rewrite Forall_forall in Hall. apply (Hall _ Hin). }
  destruct (strip_trailing_spec cap) as (suffix & Hsplit & _ & _).
  set (u := strip_trailing cap) in *.
  assert (Hu : usernameRegex u = true).
  { apply (usernameRegex_prefix u suffix); [by rewrite <- Hsplit|].
    intros Hnil. rewrite Hnil in Hlen. cbn in Hlen. lia. }
  unfold isValidMentionUsername. destruct u as [|c u']; [cbn in Hlen; lia|].
  destruct (Nat.ltb_spec (length (c :: u')) 2); [lia|].
  destruct (Nat.ltb_spec 50 (length (c :: u'))); [lia|]. done.
Qed.

Lemma strip_loop_app (u suffix : jsstring) (fuel : nat) :
  ends_with_punct u = false ->
  forallb is_trailing_punct suffix = true ->
  length suffix <= fuel ->
  strip_loop fuel (u ++ suffix) = u.
Proof.
  intros Hu. revert fuel.
  induction suffix as [|c suffix IH] using rev_ind; intros fuel Hp Hlen.
  - rewrite app_nil_r. destruct fuel; [done|]. cbn [strip_loop].
    by rewrite Hu, andb_false_r.
  - rewrite forallb_app in Hp. apply andb_true_iff in Hp as [Hp Hc].
    cbn in Hc. rewrite andb_true_r in Hc.
    rewrite length_app in Hlen. cbn in Hlen.
    destruct fuel as [|fuel]; [lia|]. cbn [strip_loop].
    rewrite app_assoc.
    assert (Hep : ends_with_punct ((u ++ suffix) ++ [c]) = true)
      by (unfold ends_with_punct; by rewrite last_snoc).
    rewrite Hep, removelast_last, length_app. cbn [length].
    replace (0 <? length (u ++ suffix) + 1) with true
      by (symmetry; apply Nat.ltb_lt; lia).
    cbn [andb]. apply IH; [done|lia].
Qed.

Lemma strip_trailing_app (u suffix : jsstring) :
  ends_with_punct u = false ->
  forallb is_trailing_punct suffix = true ->
  strip_trailing (u ++ suffix) = u.
Proof.
  intros Hu Hp. unfold strip_trailing.
  apply strip_loop_app; [done|done|]. rewrite length_app. lia.
Qed.

Lemma isValidMentionUsername_inv (u : jsstring) :
  isValidMentionUsername u = true ->
  2 <= length u <= 50 /\ usernameRegex u = true.
Proof.
  unfold isValidMentionUsername. destruct u as [|c u]; [done|].
  destruct (Nat.ltb_spec (length (c :: u)) 2); [done|].
  destruct (Nat.ltb_spec 50 (length (c :: u))); [done|].
  cbn [orb]. intros ->. split; [lia|done].
Qed.

Lemma replacement_clean (f : jsstring -> jsstring) (cap : jsstring) :
  replacement f cap
  = match clean cap with
    | Some u => f u
    | None => "@"%char :: cap
    end.
Proof.
  unfold replacement, clean.
  destruct (Nat.ltb_spec (length (strip_trailing cap)) 2);
    destruct (Nat.ltb_spec 50 (length (strip_trailing cap)));
    destruct (Nat.leb_spec 2 (length (strip_trailing cap)));
    destruct (Nat.leb_spec (length (strip_trailing cap)) 50);
    cbn [andb orb]; try lia; done.
Qed.

Lemma dots_punct (n : nat) :
  forallb is_trailing_punct (replicate n "."%char) = true
  /\ forallb is_name_char (replicate n "."%char) = true.
Proof. induction n as [|n [IH1 IH2]]; [done|]. cbn. by rewrite IH1, IH2. Qed.

Lemma prev_after_None (pre : jsstring) : prev_after None pre = last pre.
Proof. unfold prev_after. by destruct (last pre). Qed.

(** The one match of a text made of some text without [@], a mention
    [@u] followed by [n] dots, and more text without [@]. *)
Lemma single_mention (pre u rest : jsstring) (n : nat) :
  isValidMentionUsername u = true ->
  ends_with_punct u = false ->
  "@"%char ∉ pre -> lookbehind_ok (last pre) = true ->
  "@"%char ∉ rest -> ends_name rest = true ->
  match_at (last pre) ("@"%char :: u ++ replicate n "."%char ++ rest)
  = Some (u ++ replicate n "."%char)
  /\ clean (u ++ replicate n "."%char) = Some u.
Proof.
  intros Hvalid Hend Hpre Hlb Hrest Hstop.
  apply isValidMentionUsername_inv in Hvalid as [Hlen Hre].
  destruct u as [|l r]; [done|]. cbn [usernameRegex] in Hre.
  apply andb_true_iff in Hre as [Hl Hr].
  destruct (dots_punct n) as [Hdp Hdn]. split.
  - cbn [app match_at]. rewrite Hlb, Hl. cbn [andb Ascii.eqb Bool.eqb].
    do 2 f_equal. rewrite app_assoc, span_all.
    + rewrite span_stop, app_nil_r; [done|].
      unfold ends_name in Hstop. destruct rest; [done|].
      by apply negb_true_iff.
    + by rewrite forallb_app, Hr, Hdn.
  - apply clean_Some. rewrite strip_trailing_app by done. done.
Qed.

(** X3.  Round trip through the extractor and the renderer.  For a valid
    username [u] that does not end in a dot, written as [@u] after text
    without [@] that does not end in a word character, followed by [n]
    dots and then by text without [@] that cannot continue the name:
    [extractMentions] returns [u] alone, and [renderMentions] puts the
    rendering of [u] in place of [@u] and of the dots, which are lost. *)
Theorem mention_round_trip (pre u rest : jsstring) (n : nat)
    (f : jsstring -> jsstring) :
  isValidMentionUsername u = true ->
  ends_with_punct u = false ->
  "@"%char ∉ pre -> lookbehind_ok (last pre) = true ->
  "@"%char ∉ rest -> ends_name rest = true ->
  extractMentions (pre ++ "@"%char :: u ++ replicate n "."%char ++ rest) = [u]
  /\ renderMentions (pre ++ "@"%char :: u ++ replicate n "."%char ++ rest) f
     = pre ++ f u ++ rest.
Proof.
  intros Hvalid Hend Hpre Hlb Hrest Hstop.
  destruct (single_mention pre u rest n) as [Hm Hc]; try done.
  set (cap := u ++ replicate n "."%char) in *.
  assert (Htail : u ++ replicate n "."%char ++ rest = cap ++ rest)
    by (subst cap; by rewrite <- app_assoc).
  split.
  - rewrite extractMentions_unfold. unfold matchAll.
    rewrite matchAll_from_no_at, prev_after_None by done.
    cbn [matchAll_from]. rewrite Hm, Htail.
    rewrite matchAll_from_skip.
    rewrite <- (app_nil_r rest), matchAll_from_no_at by done.
    cbn [matchAll_from fmap list_fmap snd]. cbn [omap list_omap].
    rewrite Hc. reflexivity.
  - unfold renderMentions.
    destruct (pre ++ "@"%char :: u ++ replicate n "."%char ++ rest)
      as [|c0 t0] eqn:Htext; [by destruct pre|]. rewrite <- Htext.
    rewrite replace_from_no_at, prev_after_None by done. f_equal.
    cbn [replace_from]. rewrite Hm, Htail, replace_from_skip.
    rewrite replacement_clean, Hc. f_equal.
    rewrite <- (app_nil_r rest) at 1.
    rewrite replace_from_no_at by done. cbn [replace_from].
    by rewrite app_nil_r.
Qed.

Lemma mention_round_trip_witness :
  isValidMentionUsername (js "john") = true
  /\ ends_with_punct (js "john") = false
  /\ ("@"%char ∉ js "Hi ")
  /\ lookbehind_ok (last (js "Hi ")) = true
  /\ ("@"%char ∉ js " ok")
  /\ ends_name (js " ok") = true
  /\ extractMentions (js "Hi @john.. ok") = [js "john"]
  /\ renderMentions (js "Hi @john.. ok") (fun u => js "<" ++ u ++ js ">")
     = js "Hi <john> ok".
Proof.
  assert (H1 : "@"%char ∉ js "Hi ")
    by (apply (bool_decide_unpack _); vm_compute; exact I).
  assert (H2 : "@"%char ∉ js " ok")
    by (apply (bool_decide_unpack _); vm_compute; exact I).
  split; [reflexivity|]. split; [reflexivity|]. split; [exact H1|].
  split; [reflexivity|]. split; [exact H2|]. split; [reflexivity|].
  apply (mention_round_trip (js "Hi ") (js "john") (js " ok") 2
           (fun u => js "<" ++ u ++ js ">"));
    [reflexivity|reflexivity|exact H1|reflexivity|exact H2|reflexivity].
Defined.

Lemma replace_from_invalid (f : jsstring -> jsstring) (s : jsstring)
    (prev : option ascii) (skip idx : nat) :
  omap clean (snd <$> matchAll_from prev skip idx s) = [] ->
  replace_from f prev skip s = drop skip s.
Proof.
  revert prev skip idx.
  induction s as [|c s IH]; intros prev skip idx;
    cbn [matchAll_from replace_from].
  - by destruct skip.
  - destruct skip as [|k]; [|apply IH].
    destruct (match_at prev (c :: s)) as [cap|] eqn:Hm.
    + cbn [fmap list_fmap snd omap list_omap].
      destruct (clean cap) eqn:Hc; [done|]. intros Hrest.
      rewrite replacement_clean, Hc, (IH _ _ _ Hrest).
      apply match_at_Some in Hm as (_ & _ & rest & Hs).
      injection Hs as -> ->. cbn [drop app]. f_equal.
      by rewrite drop_app_length.
    + intros Hrest. cbn [drop]. f_equal. apply (IH _ _ _ Hrest).
Qed.

Lemma uniq_nil (l : list jsstring) : uniq l = [] -> l = [].
Proof. destruct l as [|x l]; [done|]. unfold uniq. cbn. done. Qed.

(** X4.  A text in which [hasMentions] finds no mention comes back from
    [renderMentions] unchanged, whatever the renderer: a candidate that is
    too short or too long is left as it was typed. *)
Theorem renderMentions_without_mentions (text : jsstring)
    (f : jsstring -> jsstring) :
  hasMentions text = false -> renderMentions text f = text.
Proof.
  unfold hasMentions, countMentions. intros Hno.
  apply Nat.ltb_ge in Hno.
  assert (He : extractMentions text = [])
    by (destruct (extractMentions text); [done|cbn in Hno; lia]).
  rewrite extractMentions_unfold in He. apply uniq_nil in He.
  unfold renderMentions. destruct text as [|c text]; [done|].
  by rewrite (replace_from_invalid f (c :: text) None 0 0 He).
Qed.

Lemma renderMentions_without_mentions_witness :
  hasMentions (js "mail a@b.com or @x") = false
  /\ renderMentions (js "mail a@b.com or @x") (fun u => js "<" ++ u)
     = js "mail a@b.com or @x".
Proof.
  split; [reflexivity|].
  apply (renderMentions_without_mentions (js "mail a@b.com or @x")
           (fun u => js "<" ++ u)).
  reflexivity.
Defined.

Lemma is_name_char_plain (c : ascii) :
  is_name_char c = true -> Ascii.eqb c "@" = false /\ is_space c = false.
Proof.
  destruct c as [[] [] [] [] [] [] [] []]; vm_compute; intros H;
    first [discriminate H | split; reflexivity].
Qed.

Lemma scanBack_Some (before : jsstring) (i a : nat) :
  scanBack i before = Some a ->
  exists passed rest,
    before = passed ++ "@"%char :: rest /\ a = i - length passed.
Proof.
  revert i. induction before as [|c before IH]; intros i; [done|].
  cbn [scanBack]. destruct (Ascii.eqb c "@") eqn:Hc.
  - intros [= <-]. apply Ascii.eqb_eq in Hc as ->.
    exists [], before. cbn. split; [done|lia].
  - destruct (is_space c); [done|]. intros Hs.
    apply IH in Hs as (passed & rest & -> & ->).
    exists (c :: passed), rest. cbn. split; [done|lia].
Qed.

Lemma scanBack_pass (passed rest : jsstring) (i : nat) :
  forallb is_name_char passed = true ->
  scanBack i (passed ++ "@"%char :: rest) = Some (i - length passed).
Proof.
  revert i. induction passed as [|c passed IH]; intros i Hp.
  - cbn. f_equal. lia.
  - cbn in Hp. apply andb_true_iff in Hp as [Hc Hp].
    apply is_name_char_plain in Hc as [Hat Hsp].
    cbn [app scanBack length]. rewrite Hat, Hsp, IH by done. f_equal. lia.
Qed.

Lemma isValidMentionUsernamePartial_chars (u : jsstring) :
  isValidMentionUsernamePartial u = true -> forallb is_name_char u = true.
Proof.
  destruct u as [|c u]; [done|]. unfold isValidMentionUsernamePartial.
  by destruct (is_letter c).
Qed.

Lemma substring_middle (pre u post : jsstring) :
  substring (length pre + 1) (length pre + 1 + length u)
    (pre ++ "@"%char :: u ++ post) = u.
Proof.
  unfold substring.
  replace (length pre + 1 + length u - (length pre + 1)) with (length u) by lia.
  replace (pre ++ "@"%char :: u ++ post) with ((pre ++ ["@"%char]) ++ u ++ post)
    by (by rewrite <- app_assoc).
  replace (length pre + 1) with (length (pre ++ ["@"%char]))
    by (rewrite length_app; cbn; lia).
  by rewrite drop_app_length, take_app_length.
Qed.

(** X5.  What [findMentionAtCursor] finds: when it returns a mention, the
    cursor is in range, the mention starts at an [@] of the text, it ends
    at the cursor, its username is the text between the two, and that
    username is empty or a letter followed by name characters. *)
Theorem findMentionAtCursor_sound (text : jsstring) (cursorPosition : Z)
    (r : MentionAtCursor) :
  findMentionAtCursor text cursorPosition = Some r ->
  exists pre post,
    text = pre ++ "@"%char :: m_username r ++ post
    /\ m_start r = length pre
    /\ m_end r = length pre + 1 + length (m_username r)
    /\ cursorPosition = Z.of_nat (m_end r)
    /\ isValidMentionUsernamePartial (m_username r) = true.
Proof.
  unfold findMentionAtCursor. destruct text as [|c0 t0] eqn:Htext; [done|].
  rewrite <- Htext. clear Htext c0 t0.
  destruct (Z.ltb_spec cursorPosition 0); [done|].
  destruct (Z.ltb_spec (Z.of_nat (length text)) cursorPosition); [done|].
  cbn [orb]. set (cursor := Z.to_nat cursorPosition).
  assert (Hcur : cursor <= length text) by lia.
  destruct (scanBack (cursor - 1) (rev (take cursor text)))
    as [a|] eqn:Hscan; [|done].
  apply scanBack_Some in Hscan as (passed & rest & Hrev & ->).
  apply (f_equal (@rev ascii)) in Hrev.
  rewrite rev_involutive, rev_app_distr in Hrev. cbn [rev] in Hrev.
  rewrite <- app_assoc in Hrev. cbn [app] in Hrev.
  set (pre := rev rest) in *. set (u := rev passed) in *.
  assert (Hlen : cursor = length pre + 1 + length u).
  { apply (f_equal (@length ascii)) in Hrev.
    rewrite length_take, length_app in Hrev. cbn in Hrev. lia. }
  assert (Hsplit : text = pre ++ "@"%char :: u ++ drop cursor text).
  { rewrite <- (take_drop cursor text) at 1. rewrite Hrev.
    rewrite <- app_assoc. done. }
  assert (Hpassed : length passed = length u)
    by (subst u; by rewrite length_rev).
  assert (Hsub : substring (cursor - 1 - length passed + 1) cursor text = u).
  { rewrite Hsplit at 1. rewrite Hlen, Hpassed.
    replace (length pre + 1 + length u - 1 - length u + 1)
      with (length pre + 1) by lia.
    apply substring_middle. }
  rewrite Hsub.
  assert (Hres : forall r0,
    r0 = {| m_start := cursor - 1 - length passed; m_end := cursor;
            m_username := u |} ->
    isValidMentionUsernamePartial u = true ->
    exists pre0 post,
      text = pre0 ++ "@"%char :: m_username r0 ++ post
      /\ m_start r0 = length pre0
      /\ m_end r0 = length pre0 + 1 + length (m_username r0)
      /\ cursorPosition = Z.of_nat (m_end r0)
      /\ isValidMentionUsernamePartial (m_username r0) = true).
  { intros r0 -> Hv. exists pre, (drop cursor text). cbn.
    split; [done|]. split; [lia|]. split; [lia|]. split; [lia|done]. }
  destruct u as [|c u'] eqn:Hu.
  - intros [= <-]. by apply Hres.
  - destruct (isValidMentionUsernamePartial (c :: u')) eqn:Hv; [|done].
    cbn [negb]. intros [= <-]. by apply Hres.
Qed.

Lemma findMentionAtCursor_sound_witness :
  findMentionAtCursor (js "Hey @jo there") 7
  = Some {| m_start := 4; m_end := 7; m_username := js "jo" |}
  /\ exists pre post,
       js "Hey @jo there" = pre ++ "@"%char :: js "jo" ++ post
       /\ 4 = length pre
       /\ 7 = length pre + 1 + length (js "jo")
       /\ 7%Z = Z.of_nat 7
       /\ isValidMentionUsernamePartial (js "jo") = true.
Proof.
  split; [reflexivity|].
  apply (findMentionAtCursor_sound (js "Hey @jo there") 7
           {| m_start := 4; m_end := 7; m_username := js "jo" |}).
  reflexivity.
Defined.

(** X6.  What [findMentionAtCursor] does not miss: with the cursor right
    after [@u], where [u] is empty or a letter followed by name characters,
    it returns that mention, whatever stands before the [@] and after the
    cursor. *)
Theorem findMentionAtCursor_complete (pre u post : jsstring) :
  isValidMentionUsernamePartial u = true ->
  findMentionAtCursor (pre ++ "@"%char :: u ++ post)
    (Z.of_nat (length pre + 1 + length u))
  = Some {| m_start := length pre; m_end := length pre + 1 + length u;
            m_username := u |}.
Proof.
  intros Hv. unfold findMentionAtCursor.
  destruct (pre ++ "@"%char :: u ++ post) as [|c0 t0] eqn:Htext;
    [by destruct pre|].
  rewrite <- Htext. clear c0 t0 Htext.
  set (text := pre ++ "@"%char :: u ++ post).
  assert (Hlen : length text = length pre + 1 + length u + length post).
  { subst text. rewrite length_app. cbn. rewrite length_app. lia. }
  destruct (Z.ltb_spec (Z.of_nat (length pre + 1 + length u)) 0); [lia|].
  destruct (Z.ltb_spec (Z.of_nat (length text))
              (Z.of_nat (length pre + 1 + length u))); [lia|].
  cbn [orb]. rewrite Nat2Z.id.
  assert (Htake : take (length pre + 1 + length u) text
                  = pre ++ "@"%char :: u).
  { subst text.
    replace (pre ++ "@"%char :: u ++ post)
      with ((pre ++ "@"%char :: u) ++ post)
      by (rewrite <- app_assoc; done).
    replace (length pre + 1 + length u) with (length (pre ++ "@"%char :: u))
      by (rewrite length_app; cbn; lia).
    apply take_app_length. }
  rewrite Htake, rev_app_distr. cbn [rev]. rewrite <- app_assoc. cbn [app].
  rewrite scanBack_pass.
  2:{ rewrite forallb_forall. intros c Hc. apply in_rev in Hc.
      pose proof (isValidMentionUsernamePartial_chars u Hv) as Hall.
      rewrite forallb_forall in Hall. by apply Hall. }
  rewrite length_rev.
  replace (length pre + 1 + length u - 1 - length u) with (length pre) by lia.
  subst text. rewrite substring_middle.
  destruct u as [|c u']; [done|]. by rewrite Hv.
Qed.

Lemma findMentionAtCursor_complete_witness :
  isValidMentionUsernamePartial (js "jo") = true
  /\ findMentionAtCursor (js "Hey @jo there") 7
     = Some {| m_start := 4; m_end := 7; m_username := js "jo" |}.
Proof.
  split; [reflexivity|].
  apply (findMentionAtCursor_complete (js "Hey ") (js "jo") (js " there")).
  reflexivity.
Defined.

End MentionToolsFacts.

(** ** Preferences: defaults, mutes and the preference mutations *)

Section PreferenceApiFacts.

Import Preferences PreferencesApi Spec Props Fixtures.

(** X7.  A user without a stored preference record is treated as having
    the defaults: the query allows mentions and direct messages and denies
    all-messages notifications, at any time and for any channel, the
    dispatcher's check allows, and [getByUserWorkspace] returns the default
    record; none of them fails. *)
Theorem missing_record_defaults (clock : Clock) (u w : Id) (ch : option Id)
    (ty : NotificationType) (db : Db) :
  by_user_workspace u w db = [] ->
  shouldSendNotification clock u w ch ty db
  = Ok match ty with all_messages => false | _ => true end
  /\ Messages.checkNotificationPreferences clock u w ch db = Ok true
  /\ getByUserWorkspace (Some u) u w db
     = Ok (Some (createDefaultPreferences u w)).
Proof.
  intros Hnone. split; [|split].
  - unfold shouldSendNotification. rewrite Hnone. cbn.
    destruct ch, ty; reflexivity.
  - unfold Messages.checkNotificationPreferences. by rewrite Hnone.
  - unfold getByUserWorkspace. rewrite bool_decide_eq_true_2 by done.
    by rewrite Hnone.
Qed.

Lemma missing_record_defaults_witness :
  by_user_workspace (user_id sarah) ws db_tuned = []
  /\ shouldSendNotification clock_2330 (user_id sarah) ws (Some general)
       all_messages db_tuned = Ok false
  /\ Messages.checkNotificationPreferences clock_2330 (user_id sarah) ws
       (Some general) db_tuned = Ok true
  /\ getByUserWorkspace (Some (user_id sarah)) (user_id sarah) ws db_tuned
     = Ok (Some (createDefaultPreferences (user_id sarah) ws)).
Proof.
  split; [reflexivity|].
  apply (missing_record_defaults clock_2330 (user_id sarah) ws (Some general)
           all_messages db_tuned).
  reflexivity.
Defined.

(** X8.  While a channel is muted, that is while its [mutedUntil] is a
    time after now, the query denies every notification type for that
    channel and the dispatcher's check denies the mention, whatever the
    other settings are. *)
Theorem active_mute_denies (clock : Clock) (u w ch : Id)
    (ty : NotificationType) (db : Db) (prefs : NotificationPreferences)
    (cp : ChannelPreference) (t : Z) :
  unique (by_user_workspace u w db) = Ok (Some prefs) ->
  findChannelPref (channelPreferences prefs) ch = Some cp ->
  mutedUntil cp = Some t ->
  t <> 0%Z -> (now clock < t)%Z ->
  shouldSendNotification clock u w (Some ch) ty db = Ok false
  /\ Messages.checkNotificationPreferences clock u w (Some ch) db = Ok false.
Proof.
  intros Hu Hcp Ht Hnz Hlt.
  assert (Hmuted : isMuted clock (Some cp) = true).
  { unfold isMuted. cbn. rewrite Ht.
    apply andb_true_iff. split.
    - apply negb_true_iff. by apply Z.eqb_neq.
    - by apply Z.ltb_lt. }
  split.
  - unfold shouldSendNotification. rewrite Hu.
    unfold default, from_option, id. cbn zeta.
    destruct (isInQuietHours clock _); [done|]. by rewrite Hcp, Hmuted.
  - unfold Messages.checkNotificationPreferences. rewrite Hu.
    destruct (g_mentions (globalPreferences prefs)); [|done]. cbn [negb].
    unfold Messages.channelDecision. by rewrite Hcp, Hmuted.
Qed.

Lemma active_mute_denies_witness :
  unique (by_user_workspace (user_id john) ws db_tuned)
  = Ok (Some (prefs_of_john 500 true false "22:00" "08:00" [tuned_entry]))
  /\ findChannelPref [tuned_entry] general = Some tuned_entry
  /\ mutedUntil tuned_entry = Some 99999999%Z
  /\ 99999999%Z <> 0%Z /\ (now clock_noon < 99999999)%Z
  /\ shouldSendNotification clock_noon (user_id john) ws (Some general)
       mention db_tuned = Ok false
  /\ Messages.checkNotificationPreferences clock_noon (user_id john) ws
       (Some general) db_tuned = Ok false.
Proof.
  split; [reflexivity|]. split; [reflexivity|]. split; [reflexivity|].
  split; [discriminate|]. split; [reflexivity|].
  apply (active_mute_denies clock_noon (user_id john) ws general mention
           db_tuned
           (prefs_of_john 500 true false "22:00" "08:00" [tuned_entry])
           tuned_entry 99999999%Z);
    [reflexivity|reflexivity|reflexivity|discriminate|reflexivity].
Defined.

(** X9.  A mute that has run out does not suppress anything: once now
    has reached [mutedUntil], and outside quiet hours, the query decides a
    mention by the channel entry alone, and the dispatcher's check agrees
    with it when global mentions are on and its own quiet-hours test does
    not deny. *)
Theorem expired_mute_ignored (clock : Clock) (u w ch : Id) (db : Db)
    (prefs : NotificationPreferences) (cp : ChannelPreference) (t : Z) :
  unique (by_user_workspace u w db) = Ok (Some prefs) ->
  findChannelPref (channelPreferences prefs) ch = Some cp ->
  mutedUntil cp = Some t ->
  (t <= now clock)%Z ->
  isInQuietHours clock (quietHours (globalPreferences prefs)) = false ->
  shouldSendNotification clock u w (Some ch) mention db
  = Ok match c_mentions cp with
       | enabled => true
       | disabled => false
       | inherit => g_mentions (globalPreferences prefs)
       end
  /\ (g_mentions (globalPreferences prefs) = true ->
      Messages.quietHoursDeny clock (quietHours (globalPreferences prefs))
      = false ->
      Messages.checkNotificationPreferences clock u w (Some ch) db
      = shouldSendNotification clock u w (Some ch) mention db).
Proof.
  intros Hu Hcp Ht Hle Hq.
  assert (Hmuted : isMuted clock (Some cp) = false).
  { unfold isMuted. cbn. rewrite Ht.
    apply andb_false_iff. right. by apply Z.ltb_ge. }
  assert (Hquery :
    shouldSendNotification clock u w (Some ch) mention db
    = Ok match c_mentions cp with
         | enabled => true
         | disabled => false
         | inherit => g_mentions (globalPreferences prefs)
         end).
  { rewrite (shouldSendNotification_mention clock u w ch db prefs Hu Hq);
      rewrite Hcp; [|done]. cbn. by destruct (c_mentions cp). }
  split; [done|]. intros Hg Hqd. rewrite Hquery.
  unfold Messages.checkNotificationPreferences. rewrite Hu, Hg. cbn [negb].
  unfold Messages.channelDecision. rewrite Hcp, Hmuted.
  destruct (c_mentions cp); try done. by rewrite Hqd.
Qed.

Lemma expired_mute_ignored_witness :
  unique (by_user_workspace (user_id john) ws db_tuned)
  = Ok (Some (prefs_of_john 500 true false "22:00" "08:00" [tuned_entry]))
  /\ findChannelPref [tuned_entry] general = Some tuned_entry
  /\ mutedUntil tuned_entry = Some 99999999%Z
  /\ (99999999 <= now {| now := 100000000; tzOffset := 0 |})%Z
  /\ shouldSendNotification {| now := 100000000; tzOffset := 0 |}
       (user_id john) ws (Some general) mention db_tuned = Ok true.
Proof.
  split; [reflexivity|]. split; [reflexivity|]. split; [reflexivity|].
  split; [vm_compute; discriminate|].
  apply (proj1 (expired_mute_ignored {| now := 100000000; tzOffset := 0 |}
           (user_id john) ws general db_tuned
           (prefs_of_john 500 true false "22:00" "08:00" [tuned_entry])
           tuned_entry 99999999%Z
           eq_refl eq_refl eq_refl
           ltac:(vm_compute; discriminate) eq_refl)).
Defined.

(** X10.  The query allows an all-messages notification only for a
    channel whose stored entry sets [allMessages] to [enabled]: never
    without a channel, without a stored record or on [inherit]. *)
Theorem all_messages_needs_opt_in (clock : Clock) (u w : Id) (ch : option Id)
    (db : Db) :
  shouldSendNotification clock u w ch all_messages db = Ok true ->
  exists c prefs cp,
    ch = Some c
    /\ unique (by_user_workspace u w db) = Ok (Some prefs)
    /\ findChannelPref (channelPreferences prefs) c = Some cp
    /\ allMessages cp = enabled.
Proof.
  unfold shouldSendNotification.
  destruct (unique (by_user_workspace u w db)) as [[prefs|]|e] eqn:Hu;
    [| |done].
  - unfold default, from_option, id. cbn zeta.
    destruct (isInQuietHours clock _); [done|].
    destruct ch as [c|]; [|done].
    destruct (isMuted clock _); [done|].
    unfold shouldSendAllMessagesNotification.
    destruct (findChannelPref (channelPreferences prefs) c) as [cp|] eqn:Hcp;
      [|done].
    destruct (allMessages cp) eqn:Ha; try done.
    intros _. by exists c, prefs, cp.
  - cbn. destruct ch; done.
Qed.

Lemma all_messages_needs_opt_in_witness :
  exists c prefs cp,
    Some general = Some c
    /\ unique (by_user_workspace (user_id john) ws
                 (with_prefs [prefs_of_john 500 true false "22:00" "08:00"
                    [{| channelId := general; c_mentions := inherit;
                        allMessages := enabled; threads := enabled;
                        keywords := []; mutedUntil := None |}]]))
       = Ok (Some prefs)
    /\ findChannelPref (channelPreferences prefs) c = Some cp
    /\ allMessages cp = enabled.
Proof.
  apply (all_messages_needs_opt_in clock_noon (user_id john) ws (Some general)).
  reflexivity.
Defined.

Lemma by_user_workspace_set_prefs (u w : Id) (l : list NotificationPreferences)
    (n : Id) (db : Db) :
  by_user_workspace u w (set_prefs l n db)
  = filter (fun p => userId p = u /\ workspaceId p = w) l.
Proof. reflexivity. Qed.

(** The document [createDefaults] stores. *)
Lemma insert_defaults (clock : Clock) (u w : Id) (db : Db) :
  by_user_workspace u w db = [] ->
  by_user_workspace u w
    (insertPreferences (createDefaultPreferences u w) (now clock) db).2
  = [ {| prefs_id := nextId db; userId := u; workspaceId := w;
         globalPreferences := globalPreferences (createDefaultPreferences u w);
         channelPreferences := [];
         createdAt := now clock; updatedAt := now clock |} ].
Proof.
  intros Hnone. unfold insertPreferences. cbn [snd].
  rewrite by_user_workspace_set_prefs, filter_app.
  unfold by_user_workspace in Hnone. rewrite Hnone. cbn [app].
  rewrite filter_cons. cbn [userId workspaceId createDefaultPreferences].
  rewrite decide_True by done. reflexivity.
Qed.

(** X11.  [createDefaults] for a user without a record stores the
    defaults under a new id, as the last document of the table and the
    only one of that user and workspace, stamped with the time of the
    call, and touches no other table; [getByUserWorkspace] then returns
    that document.  Storing it changes no decision: the query and the
    dispatcher's check answer on the new database as they did before.  A
    second call returns the same id and changes nothing. *)
Theorem createDefaults_neutral (clock : Clock) (u w : Id) (db : Db) :
  by_user_workspace u w db = [] ->
  let stored :=
    {| prefs_id := nextId db; userId := u; workspaceId := w;
       globalPreferences := globalPreferences (createDefaultPreferences u w);
       channelPreferences :=
         channelPreferences (createDefaultPreferences u w);
       createdAt := now clock; updatedAt := now clock |} in
  exists db',
    createDefaults (Some u) clock u w db = (Ok (nextId db), db')
    /\ notificationPreferences db' = notificationPreferences db ++ [stored]
    /\ users db' = users db /\ members db' = members db
    /\ notifications db' = notifications db /\ messages db' = messages db
    /\ by_user_workspace u w db' = [stored]
    /\ getByUserWorkspace (Some u) u w db' = Ok (Some stored)
    /\ (forall clock' ch ty,
          shouldSendNotification clock' u w ch ty db'
          = shouldSendNotification clock' u w ch ty db)
    /\ (forall clock' ch,
          Messages.checkNotificationPreferences clock' u w ch db'
          = Messages.checkNotificationPreferences clock' u w ch db)
    /\ (forall clock',
          createDefaults (Some u) clock' u w db' = (Ok (nextId db), db')).
Proof.
  intros Hnone stored.
  exists (insertPreferences (createDefaultPreferences u w) (now clock) db).2.
  pose proof (insert_defaults clock u w db Hnone) as Hstored.
  split_and!; try reflexivity.
  - unfold createDefaults. rewrite bool_decide_eq_true_2 by done.
    cbn [negb]. unfold mbind, M_bind, bind, read_db. by rewrite Hnone.
  - exact Hstored.
  - unfold getByUserWorkspace. rewrite bool_decide_eq_true_2 by done.
    cbn [negb]. by rewrite Hstored.
  - intros clock' ch ty. unfold shouldSendNotification.
    rewrite Hstored, Hnone. reflexivity.
  - intros clock' ch. unfold Messages.checkNotificationPreferences.
    rewrite Hstored, Hnone. cbn.
    by destruct ch.
  - intros clock'. unfold createDefaults.
    rewrite bool_decide_eq_true_2 by done. cbn [negb].
    unfold mbind, M_bind, bind, read_db. by rewrite Hstored.
Qed.

Lemma createDefaults_neutral_witness :
  by_user_workspace (user_id sarah) ws db0 = []
  /\ exists db',
       createDefaults (Some (user_id sarah)) clock_noon (user_id sarah) ws db0
       = (Ok 1000, db')
       /\ (prefs_id <$> notificationPreferences db') = [1000]
       /\ (forall clock' ch ty,
             shouldSendNotification clock' (user_id sarah) ws ch ty db'
             = shouldSendNotification clock' (user_id sarah) ws ch ty db0)
       /\ (forall clock',
             createDefaults (Some (user_id sarah)) clock' (user_id sarah) ws db'
             = (Ok 1000, db')).
Proof.
  split; [reflexivity|].
  destruct (createDefaults_neutral clock_noon (user_id sarah) ws db0 eq_refl)
    as (db' & Hrun & Hprefs & _ & _ & _ & _ & _ & _ & Hsame & _ & Hagain).
  exists db'. split; [exact Hrun|]. split; [by rewrite Hprefs|].
  split; [exact Hsame|exact Hagain].
Defined.

(** X12.  A caller other than the user the preferences belong to cannot
    read or change them: [getByUserWorkspace] returns [null], and
    [createDefaults], [updateGlobal] and [updateChannel] throw and leave the
    database as it was. *)
Theorem preferences_owner_only (caller : option Id) (clock : Clock)
    (u w ch : Id) (gargs : GlobalArgs) (cargs : ChannelArgs) (db : Db) :
  caller <> Some u ->
  getByUserWorkspace caller u w db = Ok None
  /\ createDefaults caller clock u w db = (Throw (js "Unauthorized"), db)
  /\ updateGlobal caller clock u w gargs db = (Throw (js "Unauthorized"), db)
  /\ updateChannel caller clock u w ch cargs db
     = (Throw (js "Unauthorized"), db).
Proof.
  intros Hne.
  unfold getByUserWorkspace, createDefaults, updateGlobal, updateChannel.
  rewrite !bool_decide_eq_false_2 by done. done.
Qed.

Lemma preferences_owner_only_witness :
  Some (user_id alice) <> Some (user_id john)
  /\ getByUserWorkspace (Some (user_id alice)) (user_id john) ws db_tuned
     = Ok None
  /\ createDefaults (Some (user_id alice)) clock_noon (user_id john) ws
       db_tuned = (Throw (js "Unauthorized"), db_tuned)
  /\ updateGlobal (Some (user_id alice)) clock_noon (user_id john) ws
       {| ga_mentions := Some false; ga_directMessages := None;
          ga_sound := None; ga_desktop := None; ga_email := None;
          ga_mobile := None; ga_quietHours := None |} db_tuned
     = (Throw (js "Unauthorized"), db_tuned)
  /\ updateChannel (Some (user_id alice)) clock_noon (user_id john) ws
       general unmute db_tuned = (Throw (js "Unauthorized"), db_tuned).
Proof.
  split; [discriminate|].
  apply (preferences_owner_only (Some (user_id alice)) clock_noon
           (user_id john) ws general _ unmute db_tuned).
  discriminate.
Defined.

Lemma by_user_workspace_fmap (u w : Id)
    (f : NotificationPreferences -> NotificationPreferences)
    (l : list NotificationPreferences) :
  (forall p, userId (f p) = userId p /\ workspaceId (f p) = workspaceId p) ->
  filter (fun p => userId p = u /\ workspaceId p = w) (f <$> l)
  = f <$> filter (fun p => userId p = u /\ workspaceId p = w) l.
Proof.
  intros Hf. induction l as [|p l IH]; [done|].
  cbn [fmap list_fmap]. rewrite !filter_cons.
  destruct (Hf p) as [-> ->].
  destruct (decide (userId p = u /\ workspaceId p = w)); cbn; by rewrite <- IH.
Qed.

Lemma updateGlobal_existing (clock : Clock) (u w : Id) (args : GlobalArgs)
    (db : Db) (p : NotificationPreferences) :
  unique (by_user_workspace u w db) = Ok (Some p) ->
  updateGlobal (Some u) clock u w args db
  = (Ok (prefs_id p),
     (patchGlobalPreferences (prefs_id p)
        (updatedGlobalPrefs (globalPreferences p) args) (now clock) db).2).
Proof.
  intros Hu. unfold updateGlobal.
  rewrite bool_decide_eq_true_2 by done. cbn [negb].
  unfold mbind, M_bind, bind, read_db. rewrite Hu. reflexivity.
Qed.

Lemma updateGlobal_stored (clock : Clock) (u w : Id) (args : GlobalArgs)
    (db : Db) (p : NotificationPreferences) :
  unique (by_user_workspace u w db) = Ok (Some p) ->
  unique (by_user_workspace u w (updateGlobal (Some u) clock u w args db).2)
  = Ok (Some {| prefs_id := prefs_id p; userId := userId p;
                workspaceId := workspaceId p;
                globalPreferences :=
                  updatedGlobalPrefs (globalPreferences p) args;
                channelPreferences := channelPreferences p;
                createdAt := createdAt p; updatedAt := now clock |}).
Proof.
  intros Hu. rewrite (updateGlobal_existing clock u w args db p Hu).
  unfold patchGlobalPreferences. cbn [snd].
  rewrite by_user_workspace_set_prefs, by_user_workspace_fmap.
  2:{ intros q. unfold patchedGlobal. by case_bool_decide. }
  apply unique_Some_elem_of in Hu. unfold by_user_workspace in Hu.
  rewrite Hu. cbn. unfold patchedGlobal.
  rewrite bool_decide_eq_true_2 by done. reflexivity.
Qed.

(** X13.  [updateGlobal] on a stored record is a field-level merge: the
    stored record gets the fields the update names, keeps the value of
    every field it leaves out, keeps its channel preferences, and only
    [updatedAt] changes besides; an update that names nothing changes no
    preference. *)
Theorem updateGlobal_merges (clock : Clock) (u w : Id) (args : GlobalArgs)
    (db : Db) (p : NotificationPreferences) :
  unique (by_user_workspace u w db) = Ok (Some p) ->
  exists db' g,
    updateGlobal (Some u) clock u w args db = (Ok (prefs_id p), db')
    /\ unique (by_user_workspace u w db')
       = Ok (Some {| prefs_id := prefs_id p; userId := userId p;
                     workspaceId := workspaceId p;
                     globalPreferences := g;
                     channelPreferences := channelPreferences p;
                     createdAt := createdAt p; updatedAt := now clock |})
    /\ g_mentions g = default (g_mentions (globalPreferences p)) (ga_mentions args)
    /\ directMessages g
       = default (directMessages (globalPreferences p)) (ga_directMessages args)
    /\ sound g = default (sound (globalPreferences p)) (ga_sound args)
    /\ desktop g = default (desktop (globalPreferences p)) (ga_desktop args)
    /\ g_email g = default (g_email (globalPreferences p)) (ga_email args)
    /\ mobile g = default (mobile (globalPreferences p)) (ga_mobile args)
    /\ quietHours g
       = default (quietHours (globalPreferences p)) (ga_quietHours args)
    /\ (args = {| ga_mentions := None; ga_directMessages := None;
                  ga_sound := None; ga_desktop := None; ga_email := None;
                  ga_mobile := None; ga_quietHours := None |} ->
        g = globalPreferences p).
Proof.
  intros Hu. eexists _, (updatedGlobalPrefs (globalPreferences p) args).
  split; [by apply updateGlobal_existing|].
  split; [|repeat split; try done; intros ->; by destruct (globalPreferences p)].
  pose proof (updateGlobal_stored clock u w args db p Hu) as Hs.
  by rewrite (updateGlobal_existing clock u w args db p Hu) in Hs.
Qed.

Lemma updateGlobal_merges_witness :
  unique (by_user_workspace (user_id john) ws db_tuned)
  = Ok (Some (prefs_of_john 500 true false "22:00" "08:00" [tuned_entry]))
  /\ exists db' g,
       updateGlobal (Some (user_id john)) clock_noon (user_id john) ws
         {| ga_mentions := None; ga_directMessages := None;
            ga_sound := Some false; ga_desktop := None; ga_email := None;
            ga_mobile := None; ga_quietHours := None |} db_tuned
       = (Ok 500, db')
       /\ unique (by_user_workspace (user_id john) ws db')
          = Ok (Some {| prefs_id := 500; userId := user_id john;
                        workspaceId := ws; globalPreferences := g;
                        channelPreferences := [tuned_entry];
                        createdAt := 0; updatedAt := now clock_noon |})
       /\ g_mentions g = true /\ sound g = false.
Proof.
  split; [reflexivity|].
  destruct (updateGlobal_merges clock_noon (user_id john) ws
              {| ga_mentions := None; ga_directMessages := None;
                 ga_sound := Some false; ga_desktop := None; ga_email := None;
                 ga_mobile := None; ga_quietHours := None |} db_tuned
              (prefs_of_john 500 true false "22:00" "08:00" [tuned_entry])
              eq_refl)
    as (db' & g & Hrun & Hstored & Hm & _ & Hs & _).
  exists db', g. split; [exact Hrun|]. split; [exact Hstored|].
  split; [exact Hm|exact Hs].
Defined.

(** X14.  After [updateGlobal] has turned mentions off, the dispatcher's
    check denies every mention of that user in the workspace, in any
    channel and at any time, and the query denies a mention outside a
    channel. *)
Theorem mentions_off_silences (clock clock' : Clock) (u w : Id)
    (args : GlobalArgs) (db : Db) (p : NotificationPreferences)
    (ch : option Id) :
  unique (by_user_workspace u w db) = Ok (Some p) ->
  ga_mentions args = Some false ->
  Messages.checkNotificationPreferences clock' u w ch
    (updateGlobal (Some u) clock u w args db).2 = Ok false
  /\ shouldSendNotification clock' u w None mention
       (updateGlobal (Some u) clock u w args db).2 = Ok false.
Proof.
  intros Hu Hoff.
  pose proof (updateGlobal_stored clock u w args db p Hu) as Hstored.
  split.
  - unfold Messages.checkNotificationPreferences. rewrite Hstored.
    cbn [globalPreferences updatedGlobalPrefs g_mentions]. by rewrite Hoff.
  - unfold shouldSendNotification. rewrite Hstored.
    unfold default, from_option, id. cbn zeta. cbn [globalPreferences].
    destruct (isInQuietHours clock' _); [done|].
    unfold shouldSendMentionNotification.
    cbn [globalPreferences updatedGlobalPrefs g_mentions]. by rewrite Hoff.
Qed.

Lemma mentions_off_silences_witness :
  unique (by_user_workspace (user_id john) ws db_tuned)
  = Ok (Some (prefs_of_john 500 true false "22:00" "08:00" [tuned_entry]))
  /\ Messages.checkNotificationPreferences clock_2330 (user_id john) ws
       (Some general)
       (updateGlobal (Some (user_id john)) clock_noon (user_id john) ws
          {| ga_mentions := Some false; ga_directMessages := None;
             ga_sound := None; ga_desktop := None; ga_email := None;
             ga_mobile := None; ga_quietHours := None |} db_tuned).2
     = Ok false
  /\ shouldSendNotification clock_2330 (user_id john) ws None mention
       (updateGlobal (Some (user_id john)) clock_noon (user_id john) ws
          {| ga_mentions := Some false; ga_directMessages := None;
             ga_sound := None; ga_desktop := None; ga_email := None;
             ga_mobile := None; ga_quietHours := None |} db_tuned).2
     = Ok false.
Proof.
  split; [reflexivity|].
  apply (mentions_off_silences clock_noon clock_2330 (user_id john) ws _
           db_tuned
           (prefs_of_john 500 true false "22:00" "08:00" [tuned_entry])
           (Some general)); reflexivity.
Defined.

Lemma findChannelPref_cons (cp : ChannelPreference)
    (l : list ChannelPreference) (ch : Id) :
  findChannelPref (cp :: l) ch
  = if decide (channelId cp = ch) then Some cp else findChannelPref l ch.
Proof.
  unfold findChannelPref. cbn [list_find].
  destruct (decide (channelId cp = ch)); [done|].
  by destruct (list_find _ l) as [[i x]|].
Qed.

Lemma findChannelPref_insert_other (l : list ChannelPreference) (i : nat)
    (old new : ChannelPreference) (ch' : Id) :
  l !! i = Some old -> channelId old <> ch' -> channelId new <> ch' ->
  findChannelPref (<[i := new]> l) ch' = findChannelPref l ch'.
Proof.
  revert i. induction l as [|cp l IH]; intros i Hi Hold Hnew; [done|].
  destruct i as [|i]; cbn in Hi.
  - injection Hi as ->. cbn [insert list_insert].
    rewrite !findChannelPref_cons. by rewrite !decide_False.
  - cbn [insert list_insert]. rewrite !findChannelPref_cons.
    destruct (decide (channelId cp = ch')); [done|]. by eapply IH.
Qed.

Lemma findChannelPref_app (l : list ChannelPreference)
    (cp : ChannelPreference) (ch' : Id) :
  findChannelPref (l ++ [cp]) ch'
  = match findChannelPref l ch' with
    | Some x => Some x
    | None => if decide (channelId cp = ch') then Some cp else None
    end.
Proof.
  induction l as [|x l IH]; cbn [app].
  - rewrite findChannelPref_cons. by destruct (decide (channelId cp = ch')).
  - rewrite !findChannelPref_cons.
    destruct (decide (channelId x = ch')); [done|]. apply IH.
Qed.

(** X15.  What an update of the preferences of one channel changes in
    the list of channel preferences: a channel without an entry gets one,
    at the end, made of the fields of the update and the defaults of the
    others; the entries of all other channels stay as they are. *)
Theorem updatedChannelPrefs_effect (l : list ChannelPreference) (ch : Id)
    (args : ChannelArgs) :
  (findChannelPref l ch = None ->
   updatedChannelPrefs l ch args = l ++ [channelUpdate ch args]
   /\ findChannelPref (updatedChannelPrefs l ch args) ch
      = Some (channelUpdate ch args))
  /\ (forall ch', ch' <> ch ->
        findChannelPref (updatedChannelPrefs l ch args) ch'
        = findChannelPref l ch')
  /\ length l <= length (updatedChannelPrefs l ch args) <= S (length l).
Proof.
  split; [|split].
  - intros Hnone. unfold updatedChannelPrefs, existingIndex.
    unfold findChannelPref in Hnone.
    destruct (list_find _ l) as [[i x]|] eqn:Hf; [done|].
    cbn [fmap option_fmap option_map]. split; [done|].
    rewrite findChannelPref_app.
    assert (Hl : findChannelPref l ch = None)
      by (unfold findChannelPref; by rewrite Hf).
    rewrite Hl. by rewrite decide_True.
  - intros ch' Hne. unfold updatedChannelPrefs, existingIndex.
    destruct (list_find _ l) as [[i old]|] eqn:Hf;
      cbn [fmap option_fmap option_map fst].
    + apply list_find_Some in Hf as (Hi & Hch & _). rewrite Hi.
      apply (findChannelPref_insert_other l i old); [done|congruence|].
      cbn. congruence.
    + rewrite findChannelPref_app.
      destruct (findChannelPref l ch'); [done|].
      rewrite decide_False; [done|]. cbn. congruence.
  - unfold updatedChannelPrefs, existingIndex.
    destruct (list_find _ l) as [[i old]|] eqn:Hf;
      cbn [fmap option_fmap option_map fst].
    + destruct (l !! i); [rewrite length_insert|]; lia.
    + rewrite length_app. cbn. lia.
Qed.

Lemma updatedChannelPrefs_effect_witness :
  findChannelPref [tuned_entry] 8 = None
  /\ updatedChannelPrefs [tuned_entry] 8 only_allMessages
     = [tuned_entry; channelUpdate 8 only_allMessages]
  /\ findChannelPref (updatedChannelPrefs [tuned_entry] 8 only_allMessages)
       general
     = Some tuned_entry.
Proof.
  destruct (updatedChannelPrefs_effect [tuned_entry] 8 only_allMessages)
    as (Hnew & Hother & _).
  split; [reflexivity|]. split.
  - apply Hnew. reflexivity.
  - rewrite (Hother general); [reflexivity|]. vm_compute. discriminate.
Defined.

(** X16.  Uniqueness of the channel entries is an invariant of the
    updates: starting from a list with at most one entry for each channel,
    the empty list of a new record for one, no sequence of updates produces
    two entries for one channel. *)
Theorem channel_entries_stay_unique (l : list ChannelPreference)
    (updates : list (Id * ChannelArgs)) :
  NoDup (channelId <$> l) ->
  NoDup (channelId <$>
           fold_left (fun l' upd => updatedChannelPrefs l' upd.1 upd.2)
             updates l).
Proof.
  revert l. induction updates as [|[ch args] updates IH]; intros l Hnd.
  - done.
  - cbn [fold_left fst snd]. apply IH. by apply updatedChannelPrefs_NoDup.
Qed.

Lemma channel_entries_stay_unique_witness :
  NoDup (channelId <$> ([] : list ChannelPreference))
  /\ NoDup (channelId <$>
              fold_left (fun l' upd => updatedChannelPrefs l' upd.1 upd.2)
                [(general, only_allMessages); (8, unmute);
                 (general, unmute)] []).
Proof.
  split; [constructor|].
  apply (channel_entries_stay_unique []
           [(general, only_allMessages); (8, unmute); (general, unmute)]).
  constructor.
Defined.

(** X17.  [updateChannel] for a user without a record creates the record
    first: afterwards the user has one record, under the new id, with the
    default global preferences and the updated channel as its only channel
    entry.  The new id is one no stored record has. *)
Theorem updateChannel_creates_record (clock : Clock) (u w ch : Id)
    (args : ChannelArgs) (db : Db) :
  by_user_workspace u w db = [] ->
  Forall (fun p => prefs_id p <> nextId db) (notificationPreferences db) ->
  exists db',
    updateChannel (Some u) clock u w ch args db = (Ok (nextId db), db')
    /\ unique (by_user_workspace u w db')
       = Ok (Some {| prefs_id := nextId db; userId := u; workspaceId := w;
                     globalPreferences :=
                       globalPreferences (createDefaultPreferences u w);
                     channelPreferences := [channelUpdate ch args];
                     createdAt := now clock; updatedAt := now clock |}).
Proof.
  intros Hnone Hfresh.
  set (stored :=
    {| prefs_id := nextId db; userId := u; workspaceId := w;
       globalPreferences := globalPreferences (createDefaultPreferences u w);
       channelPreferences := [];
       createdAt := now clock; updatedAt := now clock |}).
  set (db1 := (insertPreferences (createDefaultPreferences u w)
                 (now clock) db).2).
  assert (Hget : getPreferences (nextId db) db1 = Some stored).
  { unfold getPreferences, db1, insertPreferences.
    cbn [snd set_prefs notificationPreferences].
    assert (Hl : list_find (fun p => prefs_id p = nextId db)
                   (notificationPreferences db) = None)
      by (by apply list_find_None).
    rewrite (list_find_app_r _ _ _ Hl). cbn [list_find].
    by rewrite decide_True. }
  eexists. split.
  - unfold updateChannel. rewrite bool_decide_eq_true_2 by done.
    cbn [negb]. unfold mbind, M_bind, bind, read_db. rewrite Hnone.
    cbn [unique].
    assert (Hins : insertPreferences (createDefaultPreferences u w)
                     (now clock) db = (Ok (nextId db), db1)) by reflexivity.
    rewrite Hins, Hget.
    cbn [mret M_ret ret patchChannelPreferences]. reflexivity.
  - rewrite by_user_workspace_set_prefs, by_user_workspace_fmap.
    2:{ intros q. unfold patched. by case_bool_decide. }
    pose proof (insert_defaults clock u w db Hnone) as Hs.
    unfold by_user_workspace in Hs. fold db1 in Hs. rewrite Hs.
    cbn. unfold patched. rewrite bool_decide_eq_true_2 by done.
    reflexivity.
Qed.

Lemma updateChannel_creates_record_witness :
  by_user_workspace (user_id sarah) ws db_tuned = []
  /\ Forall (fun p => prefs_id p <> nextId db_tuned)
       (notificationPreferences db_tuned)
  /\ exists db',
       updateChannel (Some (user_id sarah)) clock_noon (user_id sarah) ws
         general only_allMessages db_tuned = (Ok 1000, db')
       /\ unique (by_user_workspace (user_id sarah) ws db')
          = Ok (Some {| prefs_id := 1000; userId := user_id sarah;
                        workspaceId := ws;
                        globalPreferences :=
                          globalPreferences
                            (createDefaultPreferences (user_id sarah) ws);
                        channelPreferences :=
                          [channelUpdate general only_allMessages];
                        createdAt := now clock_noon;
                        updatedAt := now clock_noon |}).
Proof.
  assert (Hfresh : Forall (fun p => prefs_id p <> nextId db_tuned)
                     (notificationPreferences db_tuned)).
  { repeat constructor. vm_compute. discriminate. }
  split; [reflexivity|]. split; [exact Hfresh|].
  apply (updateChannel_creates_record clock_noon (user_id sarah) ws general
           only_allMessages db_tuned); [reflexivity|exact Hfresh].
Defined.

End PreferenceApiFacts.

(** ** The notifications API *)

Section NotificationFacts.

Import Notifications Props Fixtures Fixtures2.

Lemma countBy_fold (key : Notification -> option Id) (l : list Notification)
    (acc : gmap Id nat) (k : Id) :
  fold_left
    (fun counts notification =>
       match key notification with
       | Some k' => increment k' counts
       | None => counts
       end) l acc !! k
  = match acc !! k with
    | Some a => Some (a + length (filter (fun n => key n = Some k) l))
    | None => badge (length (filter (fun n => key n = Some k) l))
    end.
Proof.
  revert acc. induction l as [|n l IH]; intros acc; cbn [fold_left].
  - cbn. destruct (acc !! k); [f_equal; lia|done].
  - rewrite IH, filter_cons. destruct (key n) as [k'|] eqn:Hk.
    + unfold increment. destruct (decide (k' = k)) as [->|Hne].
      * rewrite lookup_insert_eq, decide_True by done. cbn [length].
        destruct (acc !! k); cbn; f_equal; lia.
      * rewrite lookup_insert_ne by done.
        rewrite decide_False by congruence. done.
    + rewrite decide_False by done. done.
Qed.

Lemma countBy_lookup (key : Notification -> option Id)
    (l : list Notification) (k : Id) :
  countBy key l !! k = badge (length (filter (fun n => key n = Some k) l)).
Proof. unfold countBy. by rewrite countBy_fold, lookup_empty. Qed.

Lemma unread_counts_lookup (u w : Id) (db : Db) (m : gmap Id nat) (ch : Id) :
  getUnreadCountByChannel (Some u) u w db = Ok m ->
  m !! ch = badge (unread_in_channel u w ch (notifications db)).
Proof.
  unfold getUnreadCountByChannel. rewrite bool_decide_eq_true_2 by done.
  cbn [negb]. intros [= <-].
  rewrite countBy_lookup. unfold unread_in_channel. f_equal.
  f_equal. unfold by_user_id_unread. rewrite !list_filter_filter.
  apply list_filter_iff. intros n. tauto.
Qed.

(** X18.  The map [getUnreadCountByChannel] returns for a user has, for
    each channel, the number of that user's unread notifications in that
    channel and workspace, and no entry for a channel without one. *)
Theorem getUnreadCountByChannel_counts (u w : Id) (db : Db) :
  exists m,
    getUnreadCountByChannel (Some u) u w db = Ok m
    /\ forall ch, m !! ch = badge (unread_in_channel u w ch (notifications db)).
Proof.
  assert (Hrun : exists m, getUnreadCountByChannel (Some u) u w db = Ok m).
  { unfold getUnreadCountByChannel. rewrite bool_decide_eq_true_2 by done.
    by eexists. }
  destruct Hrun as [m Hm]. exists m. split; [done|].
  intros ch. by apply unread_counts_lookup.
Qed.

Lemma set_notifications_twice (l l' : list Notification) (n n' : Id) (db : Db) :
  Messages.set_notifications l' n' (Messages.set_notifications l n db)
  = Messages.set_notifications l' n' db.
Proof. reflexivity. Qed.

Lemma set_notifications_same (db : Db) :
  Messages.set_notifications (notifications db) (nextId db) db = db.
Proof. by destruct db. Qed.

Lemma mark_ext (P Q : Notification -> Prop)
    `{forall n, Decision (P n)} `{forall n, Decision (Q n)}
    (l : list Notification) :
  (forall n, n ∈ l -> (P n <-> Q n)) -> mark P l = mark Q l.
Proof.
  intros Hpq. unfold mark. apply list_fmap_ext. intros i n Hn.
  apply list_elem_of_lookup_2 in Hn.
  destruct (decide (P n)), (decide (Q n)); try done;
    exfalso; apply Hpq in Hn; tauto.
Qed.

Lemma mark_none (P : Notification -> Prop) `{forall n, Decision (P n)}
    (l : list Notification) :
  (forall n, n ∈ l -> ~ P n) -> mark P l = l.
Proof.
  intros Hno. unfold mark. rewrite <- (list_fmap_id l) at 2.
  apply list_fmap_ext. intros i n Hn.
  apply list_elem_of_lookup_2 in Hn. by rewrite decide_False by auto.
Qed.

Lemma mark_mark (P Q : Notification -> Prop)
    `{forall n, Decision (P n)} `{forall n, Decision (Q n)}
    (l : list Notification) :
  (forall n, Q (set_read n) <-> Q n) ->
  mark Q (mark P l) = mark (fun n => P n \/ Q n) l.
Proof.
  intros Hq. unfold mark. rewrite <- list_fmap_compose.
  apply list_fmap_ext. intros i n _. cbn.
  destruct (decide (P n)) as [Hp|Hp].
  - rewrite (decide_True (P:=P n \/ Q n)) by tauto.
    by destruct (decide (Q (set_read n))).
  - destruct (decide (Q n)) as [Hqn|Hqn].
    + by rewrite (decide_True (P:=P n \/ Q n)) by tauto.
    + by rewrite (decide_False (P:=P n \/ Q n)) by tauto.
Qed.

Lemma patchRead_run (id : Id) (db : Db) :
  patchRead id db
  = (Ok (),
     Messages.set_notifications
       (mark (fun n => n_id n = id) (notifications db)) (nextId db) db).
Proof.
  unfold patchRead, mark. do 2 f_equal.
  apply list_fmap_ext. intros i n _.
  case_bool_decide; [by rewrite decide_True|by rewrite decide_False].
Qed.

Lemma patchEach_run (l : list Notification) (db : Db) :
  patchEach l db
  = (Ok (),
     Messages.set_notifications
       (mark (fun n => n_id n ∈ n_id <$> l) (notifications db))
       (nextId db) db).
Proof.
  revert db. induction l as [|x l IH]; intros db.
  - cbn [patchEach mret M_ret ret]. f_equal.
    rewrite mark_none; [by rewrite set_notifications_same|].
    intros n _ Hin. by apply elem_of_nil in Hin.
  - cbn [patchEach]. rewrite bind_run, patchRead_run, IH.
    cbn [notifications nextId Messages.set_notifications].
    f_equal. unfold Messages.set_notifications. cbn. f_equal.
    rewrite mark_mark by done.
    apply mark_ext. intros n _. cbn [fmap list_fmap].
    rewrite elem_of_cons. tauto.
Qed.

Lemma marks_only_mark (P : Notification -> Prop) `{forall n, Decision (P n)}
    (db : Db) :
  marks_only db
    (Messages.set_notifications (mark P (notifications db)) (nextId db) db).
Proof.
  unfold marks_only. cbn. repeat split.
  unfold mark. apply Forall2_fmap_r, Forall_Forall2_diag, Forall_forall.
  intros n _. cbn. destruct (decide (P n)); tauto.
Qed.

Lemma marks_only_refl (db : Db) : marks_only db db.
Proof.
  unfold marks_only. repeat split.
  apply Forall_Forall2_diag, Forall_forall. tauto.
Qed.

(** X19.  The three mutations that mark notifications as read only do
    that: whatever the caller and the arguments, and whether they succeed
    or throw, they add, remove and reorder no notification, reset none to
    unread, and change no other field and no other table. *)
Theorem marking_only_marks (caller : option Id) (id u k : Id) (db : Db) :
  marks_only db (markAsRead caller id db).2
  /\ marks_only db (markChannelAsRead caller u k db).2
  /\ marks_only db (markConversationAsRead caller u k db).2.
Proof.
  split; [|split].
  - unfold markAsRead. destruct caller as [c|]; [|apply marks_only_refl].
    rewrite bind_run. unfold read_db.
    destruct (getNotification id db) as [n|]; [|apply marks_only_refl].
    destruct (bool_decide (n_userId n = c)); [|apply marks_only_refl].
    cbn [negb]. rewrite bind_run, patchRead_run. apply marks_only_mark.
  - unfold markChannelAsRead. destruct caller as [c|]; [|apply marks_only_refl].
    destruct (bool_decide (c = u)); [|apply marks_only_refl].
    cbn [negb]. rewrite bind_run. unfold read_db.
    rewrite bind_run, patchEach_run. apply marks_only_mark.
  - unfold markConversationAsRead.
    destruct caller as [c|]; [|apply marks_only_refl].
    destruct (bool_decide (c = u)); [|apply marks_only_refl].
    cbn [negb]. rewrite bind_run. unfold read_db.
    rewrite bind_run, patchEach_run. apply marks_only_mark.
Qed.

Lemma same_id_same_notification (l : list Notification) (n n' : Notification) :
  NoDup (n_id <$> l) -> n ∈ l -> n' ∈ l -> n_id n = n_id n' -> n = n'.
Proof.
  induction l as [|x l IH]; intros Hnd Hn Hn' Hid.
  - by apply elem_of_nil in Hn.
  - cbn in Hnd. apply NoDup_cons in Hnd as [Hx Hnd].
    apply elem_of_cons in Hn as [->|Hn], Hn' as [->|Hn']; [done| | |by apply IH].
    + exfalso. apply Hx. rewrite Hid. apply list_elem_of_fmap. eauto.
    + exfalso. apply Hx. rewrite <- Hid. apply list_elem_of_fmap. eauto.
Qed.

Lemma id_in_filter (Q : Notification -> Prop) `{forall n, Decision (Q n)}
    (l : list Notification) (n : Notification) :
  NoDup (n_id <$> l) -> n ∈ l ->
  (n_id n ∈ n_id <$> filter Q l <-> Q n).
Proof.
  intros Hnd Hn. rewrite list_elem_of_fmap. split.
  - intros (n' & Hid & Hin). apply list_elem_of_filter in Hin as [Hq Hin].
    by rewrite (same_id_same_notification l n n' Hnd Hn Hin Hid).
  - intros Hq. exists n. split; [done|]. by apply list_elem_of_filter.
Qed.

(** The database after [markChannelAsRead], when ids are unique. *)
Lemma markChannelAsRead_run (u ch : Id) (db : Db) :
  NoDup (n_id <$> notifications db) ->
  markChannelAsRead (Some u) u ch db
  = (Ok (length (filter (fun n => n_channelId n = Some ch)
                   (by_user_id_unread u db))),
     Messages.set_notifications
       (mark (fun n => n_channelId n = Some ch
                       /\ n_userId n = u /\ read n = false)
          (notifications db))
       (nextId db) db).
Proof.
  intros Hnd. unfold markChannelAsRead.
  rewrite bool_decide_eq_true_2 by done. cbn [negb].
  rewrite bind_run. unfold read_db. rewrite bind_run, patchEach_run.
  cbn [mret M_ret ret]. do 2 f_equal.
  apply mark_ext. intros n Hn. unfold by_user_id_unread.
  rewrite list_filter_filter. by apply id_in_filter.
Qed.

Lemma unread_after_mark (u w ch ch' : Id) (l : list Notification) :
  unread_in_channel u w ch'
    (mark (fun n => n_channelId n = Some ch
                    /\ n_userId n = u /\ read n = false) l)
  = if decide (ch' = ch) then 0 else unread_in_channel u w ch' l.
Proof.
  unfold unread_in_channel, mark.
  induction l as [|n l IH]; [by destruct (decide (ch' = ch))|].
  cbn [fmap list_fmap]. rewrite !filter_cons.
  destruct (decide (n_channelId n = Some ch
                    /\ n_userId n = u /\ read n = false)) as [Hq|Hq].
  - rewrite decide_False by (cbn; intros (_ & ? & _); done).
    destruct (decide (ch' = ch)) as [->|Hne]; [exact IH|].
    rewrite decide_False by (intros (_ & _ & _ & Hc); destruct Hq; congruence).
    exact IH.
  - destruct (decide (ch' = ch)) as [->|Hne].
    + rewrite decide_False by tauto. exact IH.
    + destruct (decide (n_userId n = u /\ read n = false
                        /\ n_workspaceId n = w /\ n_channelId n = Some ch'));
        cbn [length]; by rewrite IH.
Qed.

(** X20.  After [markChannelAsRead] the badge of that channel is gone:
    in every workspace the unread counts of the user have no entry for the
    channel, and the counts of all other channels are what they were.  The
    call returns the number of notifications it marked.  Document ids are
    unique. *)
Theorem markChannelAsRead_clears_badge (u ch : Id) (db : Db) :
  NoDup (n_id <$> notifications db) ->
  (markChannelAsRead (Some u) u ch db).1
  = Ok (length (filter (fun n => n_channelId n = Some ch)
                  (by_user_id_unread u db)))
  /\ forall w m m0,
       getUnreadCountByChannel (Some u) u w
         (markChannelAsRead (Some u) u ch db).2 = Ok m ->
       getUnreadCountByChannel (Some u) u w db = Ok m0 ->
       m !! ch = None
       /\ forall ch', ch' <> ch -> m !! ch' = m0 !! ch'.
Proof.
  intros Hnd. rewrite markChannelAsRead_run by done. split; [done|].
  intros w m m0 Hm Hm0. cbn [snd] in Hm. split.
  - rewrite (unread_counts_lookup u w _ m ch Hm).
    cbn [notifications Messages.set_notifications].
    rewrite unread_after_mark. by rewrite decide_True.
  - intros ch' Hne.
    rewrite (unread_counts_lookup u w _ m ch' Hm),
      (unread_counts_lookup u w _ m0 ch' Hm0).
    cbn [notifications Messages.set_notifications].
    rewrite unread_after_mark. by rewrite decide_False.
Qed.

Lemma markChannelAsRead_clears_badge_witness :
  NoDup (n_id <$> notifications db_notes)
  /\ (markChannelAsRead (Some (user_id john)) (user_id john) general
        db_notes).1 = Ok 1
  /\ exists m,
       getUnreadCountByChannel (Some (user_id john)) (user_id john) ws
         (markChannelAsRead (Some (user_id john)) (user_id john) general
            db_notes).2 = Ok m
       /\ m !! general = None /\ m !! 8 = Some 1.
Proof.
  assert (Hnd : NoDup (n_id <$> notifications db_notes))
    by (apply (bool_decide_unpack _); vm_compute; exact I).
  destruct (markChannelAsRead_clears_badge (user_id john) general db_notes Hnd)
    as [Hcount Hbadge].
  split; [exact Hnd|]. split; [exact Hcount|].
  eexists. split; [reflexivity|].
  destruct (Hbadge ws _ _ eq_refl eq_refl) as [Hgone Hother].
  split; [exact Hgone|].
  etransitivity; [exact (Hother 8 ltac:(discriminate))|].
  vm_compute. reflexivity.
Defined.

Lemma mark_keeps (P : Notification -> Prop) `{forall n, Decision (P n)}
    (l : list Notification) (n : Notification) :
  n ∈ l -> ~ P n -> n ∈ mark P l.
Proof.
  intros Hn Hp. unfold mark. apply list_elem_of_fmap.
  exists n. split; [by rewrite decide_False|done].
Qed.

Lemma getNotification_Some (id : Id) (db : Db) (n : Notification) :
  getNotification id db = Some n -> n ∈ notifications db /\ n_id n = id.
Proof.
  unfold getNotification.
  destruct (list_find _ (notifications db)) as [[i x]|] eqn:Hf; [|done].
  intros [= ->]. apply list_find_Some in Hf as (Hi & Hid & _).
  split; [by eapply list_elem_of_lookup_2|done].
Qed.

(** X21.  Marking as read never touches the notifications of another
    user: after [markAsRead], [markChannelAsRead] or
    [markConversationAsRead] called by [c], every notification that does
    not belong to [c] is in the table as it was.  Document ids are
    unique. *)
Theorem marking_spares_other_users (c id u k : Id) (db : Db)
    (n : Notification) :
  NoDup (n_id <$> notifications db) ->
  n ∈ notifications db -> n_userId n <> c ->
  n ∈ notifications (markAsRead (Some c) id db).2
  /\ n ∈ notifications (markChannelAsRead (Some c) u k db).2
  /\ n ∈ notifications (markConversationAsRead (Some c) u k db).2.
Proof.
  intros Hnd Hn Hne. split; [|split].
  - unfold markAsRead. rewrite bind_run. unfold read_db.
    destruct (getNotification id db) as [n0|] eqn:Hget; [|done].
    case_bool_decide as Hown; [|done]. cbn [negb].
    rewrite bind_run, patchRead_run.
    cbn [snd mret M_ret ret notifications Messages.set_notifications].
    apply mark_keeps; [done|]. intros Hid.
    apply getNotification_Some in Hget as [Hn0 Hid0].
    assert (n = n0) as ->
      by (apply (same_id_same_notification (notifications db)); congruence).
    done.
  - unfold markChannelAsRead. case_bool_decide as Hcu; [|done]. cbn [negb].
    rewrite bind_run. unfold read_db. rewrite bind_run, patchEach_run.
    cbn [snd mret M_ret ret notifications Messages.set_notifications].
    apply mark_keeps; [done|]. unfold by_user_id_unread.
    rewrite list_filter_filter, id_in_filter by done. intros (_ & ? & _).
    congruence.
  - unfold markConversationAsRead. case_bool_decide as Hcu; [|done].
    cbn [negb].
    rewrite bind_run. unfold read_db. rewrite bind_run, patchEach_run.
    cbn [snd mret M_ret ret notifications Messages.set_notifications].
    apply mark_keeps; [done|]. unfold by_user_id_unread.
    rewrite list_filter_filter, id_in_filter by done. intros (_ & ? & _).
    congruence.
Qed.

Lemma marking_spares_other_users_witness :
  NoDup (n_id <$> notifications db_notes)
  /\ note 903 (user_id sarah) (Some general) None false
       ∈ notifications db_notes
  /\ user_id sarah <> user_id john
  /\ note 903 (user_id sarah) (Some general) None false
       ∈ notifications
           (markAsRead (Some (user_id john)) 903 db_notes).2
  /\ note 903 (user_id sarah) (Some general) None false
       ∈ notifications
           (markChannelAsRead (Some (user_id john)) (user_id john) general
              db_notes).2.
Proof.
  assert (Hnd : NoDup (n_id <$> notifications db_notes))
    by (apply (bool_decide_unpack _); vm_compute; exact I).
  assert (Hin : note 903 (user_id sarah) (Some general) None false
                  ∈ notifications db_notes)
    by (vm_compute; do 3 right; left).
  assert (Hne : user_id sarah <> user_id john) by discriminate.
  destruct (marking_spares_other_users (user_id john) 903 (user_id john)
              general db_notes _ Hnd Hin Hne) as (H1 & H2 & _).
  split; [exact Hnd|]. split; [exact Hin|]. split; [exact Hne|].
  split; [exact H1|exact H2].
Defined.

Lemma conversation_counts_lookup (u w : Id) (db : Db) (m : gmap Id nat)
    (cv : Id) :
  getUnreadCountByConversation (Some u) u w db = Ok m ->
  m !! cv = badge (unread_in_conversation u w cv (notifications db)).
Proof.
  unfold getUnreadCountByConversation. rewrite bool_decide_eq_true_2 by done.
  cbn [negb]. intros [= <-].
  rewrite countBy_lookup. unfold unread_in_conversation. f_equal. f_equal.
  unfold by_user_id_unread. rewrite !list_filter_filter.
  apply list_filter_iff. intros n. split; [tauto|].
  intros (? & ? & ? & Hcv). rewrite Hcv. done.
Qed.

Lemma badge_S (n : nat) : badge (S n) = Some (S n).
Proof. reflexivity. Qed.

(** X22.  The mutation [create] of the notifications API, for any
    authenticated caller, returns the new id and appends exactly one
    document: unread, of type mention, with the user, message, workspace,
    channel and conversation it was given and the time of the call; no
    other table changes.  The document shows up at once: it is the first
    element of what [getByUserId] returns for its user, before the
    documents returned so far, the unread count of its channel, if it has
    one, and of its conversation, if it has one, go up by one, and all
    other counts stay. *)
Theorem create_then_read_back (c : Id) (clock : Clock) (u mid w : Id)
    (ch conv : option Id) (limit : option nat) (db : Db) :
  let doc :=
    {| n_id := nextId db; n_userId := u; n_messageId := mid;
       n_workspaceId := w; n_channelId := ch; n_conversationId := conv;
       n_type := mention; read := false; n_createdAt := now clock |} in
  exists db',
    create (Some c) clock u mid w ch conv db = (Ok (nextId db), db')
    /\ notifications db' = notifications db ++ [doc]
    /\ users db' = users db /\ members db' = members db
    /\ notificationPreferences db' = notificationPreferences db
    /\ messages db' = messages db
    /\ getByUserId (Some u) u limit db'
       = Ok (doc :: take (limit_or_50 limit - 1) (rev (by_user_id u db)))
    /\ (forall m m0 k,
          getUnreadCountByChannel (Some u) u w db' = Ok m ->
          getUnreadCountByChannel (Some u) u w db = Ok m0 ->
          m !! k
          = if bool_decide (ch = Some k)
            then Some (S (unread_in_channel u w k (notifications db)))
            else m0 !! k)
    /\ (forall m m0 k,
          getUnreadCountByConversation (Some u) u w db' = Ok m ->
          getUnreadCountByConversation (Some u) u w db = Ok m0 ->
          m !! k
          = if bool_decide (conv = Some k)
            then Some (S (unread_in_conversation u w k (notifications db)))
            else m0 !! k).
Proof.
  intros doc. eexists. split; [reflexivity|].
  cbn [snd notifications users members notificationPreferences messages
       Messages.set_notifications].
  split_and!; try reflexivity.
  - unfold getByUserId. rewrite bool_decide_eq_true_2 by done. cbn [negb].
    unfold by_user_id. cbn [notifications Messages.set_notifications].
    rewrite filter_app, filter_cons, decide_True by done.
    rewrite filter_nil, rev_app_distr. cbn [rev app].
    assert (Hl : exists k, limit_or_50 limit = S k).
    { unfold limit_or_50. destruct limit as [[|k]|]; eauto. }
    destruct Hl as [k ->]. cbn [take]. by rewrite Nat.sub_1_r.
  - intros m m0 k Hm Hm0.
    rewrite (unread_counts_lookup u w _ m k Hm).
    cbn [notifications Messages.set_notifications].
    unfold unread_in_channel at 1. rewrite filter_app, filter_cons.
    case_bool_decide as Hk.
    + rewrite decide_True by done. rewrite length_app. cbn [length].
      rewrite Nat.add_1_r. apply badge_S.
    + rewrite decide_False by (cbn; intros (_ & _ & _ & ?); congruence).
      rewrite filter_nil, app_nil_r.
      by rewrite (unread_counts_lookup u w _ m0 k Hm0).
  - intros m m0 k Hm Hm0.
    rewrite (conversation_counts_lookup u w _ m k Hm).
    cbn [notifications Messages.set_notifications].
    unfold unread_in_conversation at 1. rewrite filter_app, filter_cons.
    case_bool_decide as Hk.
    + rewrite decide_True by done. rewrite length_app. cbn [length].
      rewrite Nat.add_1_r. apply badge_S.
    + rewrite decide_False by (cbn; intros (_ & _ & _ & ?); congruence).
      rewrite filter_nil, app_nil_r.
      by rewrite (conversation_counts_lookup u w _ m0 k Hm0).
Qed.

Lemma create_then_read_back_witness :
  exists m,
    getUnreadCountByChannel (Some (user_id john)) (user_id john) ws
      (create (Some (user_id alice)) clock_noon (user_id john) 1 ws
         (Some general) None db_notes).2 = Ok m
    /\ m !! general = Some 2 /\ m !! 8 = Some 1.
Proof.
  destruct (create_then_read_back (user_id alice) clock_noon (user_id john)
              1 ws (Some general) None None db_notes)
    as (db' & Hc & _ & _ & _ & _ & _ & _ & Hcount & _).
  rewrite Hc. eexists. split; [reflexivity|]. split.
  - etransitivity; [exact (Hcount _ _ general eq_refl eq_refl)|].
    vm_compute. reflexivity.
  - etransitivity; [exact (Hcount _ _ 8 eq_refl eq_refl)|].
    vm_compute. reflexivity.
Defined.

(** X23.  The map [getUnreadCountByConversation] returns for a user has,
    for every conversation, the number of that user's unread
    notifications of the workspace in that conversation, and no entry
    where that number is zero; notifications without a conversation
    count nowhere. *)
Theorem getUnreadCountByConversation_counts (u w : Id) (db : Db) :
  exists m,
    getUnreadCountByConversation (Some u) u w db = Ok m
    /\ forall cv,
         m !! cv
         = badge (length (filter (fun n => n_userId n = u /\ read n = false
                                           /\ n_workspaceId n = w
                                           /\ n_conversationId n = Some cv)
                            (notifications db))).
Proof.
  unfold getUnreadCountByConversation.
  rewrite bool_decide_eq_true_2 by done. cbn [negb].
  eexists. split; [reflexivity|]. intros cv.
  rewrite countBy_lookup. f_equal. f_equal.
  unfold by_user_id_unread. rewrite !list_filter_filter.
  apply list_filter_iff. intros n. split.
  - tauto.
  - intros (? & ? & ? & Hcv). rewrite Hcv. done.
Qed.

End NotificationFacts.

(** ** The members API *)

Section MembersApiFacts.

Import Members MembersApi Props Fixtures Fixtures2.

Lemma populateUser_Some (db : Db) (u : Id) (usr : User) :
  populateUser db u = Some usr -> usr ∈ users db /\ user_id usr = u.
Proof.
  unfold populateUser.
  destruct (list_find _ (users db)) as [[i x]|] eqn:Hf; [|done].
  intros [= ->]. apply list_find_Some in Hf as (Hi & Hid & _).
  split; [by eapply list_elem_of_lookup_2|done].
Qed.

Lemma getMemberById_Some (id : Id) (db : Db) (m : Member) :
  getMemberById id db = Some m -> m ∈ members db /\ member_id m = id.
Proof.
  unfold getMemberById.
  destruct (list_find _ (members db)) as [[i x]|] eqn:Hf; [|done].
  intros [= ->]. apply list_find_Some in Hf as (Hi & Hid & _).
  split; [by eapply list_elem_of_lookup_2|done].
Qed.

Lemma unique_member (w u : Id) (db : Db) (m : Member) :
  unique (by_workspace_id_user_id w u db) = Ok (Some m) ->
  m ∈ members db /\ member_workspaceId m = w /\ member_userId m = u.
Proof.
  intros Hu. apply unique_Some_elem_of in Hu.
  assert (Hin : m ∈ by_workspace_id_user_id w u db)
    by (rewrite Hu; apply list_elem_of_singleton; done).
  unfold by_workspace_id_user_id in Hin.
  apply list_elem_of_filter in Hin as [[? ?] ?]. done.
Qed.

(** X24.  Only an admin of the member's workspace changes a role.  When
    [update] throws, the database is as it was.  When it returns, it
    returns the given id, the caller has a member document with role
    [admin] in the workspace of the target member, the members with
    another id are kept, and every member with the given id has the new
    role. *)
Theorem update_admin_only (caller : option Id) (id : Id) (r : Role)
    (db : Db) :
  (forall e, (update caller id r db).1 = Throw e ->
             (update caller id r db).2 = db)
  /\ (forall i, (update caller id r db).1 = Ok i ->
        i = id
        /\ (exists userId target cm,
              caller = Some userId
              /\ target ∈ members db /\ member_id target = id
              /\ cm ∈ members db /\ member_userId cm = userId
              /\ member_workspaceId cm = member_workspaceId target
              /\ role cm = role_admin)
        /\ (forall m, m ∈ members db -> member_id m <> id ->
                      m ∈ members (update caller id r db).2)
        /\ (forall m, m ∈ members (update caller id r db).2 ->
                      member_id m = id -> role m = r)
        /\ length (members (update caller id r db).2)
           = length (members db)).
Proof.
  unfold update. destruct caller as [userId|]; [|by split].
  rewrite bind_run. unfold read_db.
  destruct (getMemberById id db) as [target|] eqn:Hget; [|by split].
  rewrite bind_run.
  destruct (unique (by_workspace_id_user_id (member_workspaceId target)
                      userId db)) as [[cm|]|e0] eqn:Hcm; [|by split..].
  destruct (role cm) eqn:Hrole; [|by split].
  rewrite bind_run. cbn [patchRole fst snd mret M_ret ret].
  split; [done|]. intros i [= <-]. split; [done|].
  apply getMemberById_Some in Hget as [Htarget Hid].
  apply unique_member in Hcm as (Hcm & Hw & Hu).
  split; [by exists userId, target, cm|].
  cbn [set_members members]. split; [|split].
  - intros m Hm Hne. apply list_elem_of_fmap. exists m.
    by rewrite bool_decide_eq_false_2.
  - intros m (m0 & -> & Hm0)%list_elem_of_fmap Hm.
    case_bool_decide; [done|]. done.
  - by rewrite length_fmap.
Qed.

Lemma update_admin_only_witness :
  (update (Some (user_id alice)) 12 role_admin db_admin).1 = Ok 12
  /\ (exists userId target cm,
        Some (user_id alice) = Some userId
        /\ target ∈ members db_admin /\ member_id target = 12
        /\ cm ∈ members db_admin /\ member_userId cm = userId
        /\ member_workspaceId cm = member_workspaceId target
        /\ role cm = role_admin)
  /\ (update (Some (user_id john)) 11 role_member db_admin).1
     = Throw (js "Unauthorized")
  /\ (update (Some (user_id john)) 11 role_member db_admin).2 = db_admin.
Proof.
  assert (Hok : (update (Some (user_id alice)) 12 role_admin db_admin).1
                = Ok 12) by (vm_compute; reflexivity).
  assert (Hthrow : (update (Some (user_id john)) 11 role_member db_admin).1
                   = Throw (js "Unauthorized")) by (vm_compute; reflexivity).
  split; [exact Hok|]. split.
  - exact (proj1 (proj2 (proj2 (update_admin_only (Some (user_id alice)) 12
                                  role_admin db_admin) 12 Hok))).
  - split; [exact Hthrow|].
    exact (proj1 (update_admin_only (Some (user_id john)) 11 role_member
                    db_admin) _ Hthrow).
Defined.

(** X25.  [get] lists the members of the asked workspace only, each with
    its own user document, and lists anything only for a caller who is a
    member of that workspace; for such a caller every member of the
    workspace whose user document exists is listed. *)
Theorem get_lists_own_workspace (caller : option Id) (w : Id) (db : Db)
    (l : list (Member * User)) :
  get caller w db = Ok l ->
  (forall m u, (m, u) ∈ l ->
     m ∈ members db /\ member_workspaceId m = w
     /\ u ∈ users db /\ user_id u = member_userId m)
  /\ (l <> [] ->
      exists userId cm,
        caller = Some userId /\ cm ∈ members db
        /\ member_workspaceId cm = w /\ member_userId cm = userId)
  /\ (forall userId cm m u,
        caller = Some userId ->
        unique (by_workspace_id_user_id w userId db) = Ok (Some cm) ->
        m ∈ members db -> member_workspaceId m = w ->
        populateUser db (member_userId m) = Some u ->
        (m, u) ∈ l).
Proof.
  unfold get. destruct caller as [userId|].
  2:{ intros [= <-]. split; [by intros ?? ?%elem_of_nil|]. by split. }
  destruct (unique (by_workspace_id_user_id w userId db))
    as [[cm|]|e] eqn:Hcm; [| |done].
  2:{ intros [= <-]. split; [by intros ?? ?%elem_of_nil|].
      split; [done|]. intros ???? [= <-]. congruence. }
  intros [= <-]. split; [|split].
  - intros m u (m0 & Hm0 & Hres)%list_elem_of_omap.
    destruct (populateUser db (member_userId m0)) as [u0|] eqn:Hu; [|done].
    cbn in Hres. injection Hres as <- <-.
    apply populateUser_Some in Hu as [Hu Hid].
    unfold by_workspace_id in Hm0.
    apply list_elem_of_filter in Hm0 as [Hw Hm0]. done.
  - intros _. apply unique_member in Hcm as (? & ? & ?).
    by exists userId, cm.
  - intros userId' cm' m u _ _ Hm Hw Hu. apply list_elem_of_omap.
    exists m. split.
    + unfold by_workspace_id. by apply list_elem_of_filter.
    + by rewrite Hu.
Qed.

Lemma get_lists_own_workspace_witness :
  exists l,
    get (Some (user_id john)) ws db0 = Ok l
    /\ (member_of sarah, sarah) ∈ l
    /\ forall m u, (m, u) ∈ l ->
         m ∈ members db0 /\ member_workspaceId m = ws
         /\ u ∈ users db0 /\ user_id u = member_userId m.
Proof.
  eexists. split; [vm_compute; reflexivity|].
  match goal with
  | |- _ ∈ ?l /\ _ =>
      destruct (get_lists_own_workspace (Some (user_id john)) ws db0 l
                  ltac:(vm_compute; reflexivity)) as (Hsound & _ & Hcomplete)
  end.
  split; [|exact Hsound].
  apply (Hcomplete (user_id john) (member_of john)); try reflexivity.
  vm_compute. do 2 right. left.
Defined.

Lemma collectMatches_inv (P : MemberMatch -> Prop) (db : Db) (limit : number)
    (term : jsstring) (w : Id) (members : list Member)
    (acc : list MemberMatch) :
  (forall m u,
     m ∈ members -> populateUser db (member_userId m) = Some u ->
     includes (toLowerCase (default [] (name u))) term
     || includes
          (default [] (split "@" (toLowerCase (default [] (email u))) !! 0))
          term
     || includes (toLowerCase (default [] (email u))) term = true ->
     P {| mm_id := member_id m; mm_userId := member_userId m;
          mm_workspaceId := member_workspaceId m; mm_role := role m;
          mm_user := u;
          displayName :=
            or_else (default [] (name u)) (js "Unknown User");
          username :=
            or_else
              (default [] (split "@" (toLowerCase (default [] (email u))) !! 0))
              (or_else (default [] (email u)) (js "unknown")) |}) ->
  Forall P acc ->
  within_limit limit (length acc) ->
  Forall P (collectMatches db limit term members acc)
  /\ within_limit limit (length (collectMatches db limit term members acc)).
Proof.
  revert acc. induction members as [|m rest IH]; intros acc Hstep Hacc Hlen;
    [done|].
  cbn [collectMatches].
  destruct (length_ge (length acc) limit) eqn:Hlim; [done|].
  assert (Hrest : forall acc',
     Forall P acc' -> within_limit limit (length acc') ->
     Forall P (collectMatches db limit term rest acc')
     /\ within_limit limit (length (collectMatches db limit term rest acc'))).
  { intros acc' ? ?. apply IH; [|done..].
    intros m0 u Hm0. apply Hstep. by right. }
  destruct (populateUser db (member_userId m)) as [u|] eqn:Hu;
    [|by apply Hrest].
  cbv zeta.
  destruct (includes _ term || includes _ term || includes _ term) eqn:Hinc;
    [|by apply Hrest].
  apply Hrest.
  - apply Forall_app. split; [done|]. constructor; [|done].
    apply Hstep; [by left|done|done].
  - right. rewrite length_app. cbn [length].
    by replace (length acc + 1 - 1) with (length acc) by lia.
Qed.

Lemma within_limit_integer (n : Z) (len : nat) :
  within_limit (Finite (inject_Z n)) len -> (Z.of_nat len <= Z.max 0 n)%Z.
Proof.
  intros [->|Hge]; [cbn; lia|].
  cbn [length_ge] in Hge.
  destruct (Qle_bool (inject_Z n) (inject_Z (Z.of_nat (len - 1)))) eqn:Hq;
    [done|].
  assert (Hn : ~ (n <= Z.of_nat (len - 1))%Z).
  { intros Hle. rewrite Zle_Qle in Hle. apply Qle_bool_iff in Hle.
    congruence. }
  lia.
Qed.

(** X26.  What [getByUsername] returns is bounded and scoped.  A match is
    added only while the number of matches is below the limit (10 when
    the limit is absent, [NaN] or 0), so for a whole number [n] as limit
    there are at most [n] matches, and none for a negative one.  Every
    match is a member of the asked workspace with the user document of
    that member, and the lower-cased, trimmed search term occurs in the
    lower-cased name, in the e-mail handle or in the e-mail address of
    that user. *)
Theorem getByUsername_results (caller : option Id) (w : Id)
    (term : jsstring) (limit : option number) (db : Db)
    (l : list MemberMatch) :
  getByUsername caller w term limit db = Ok l ->
  within_limit (limit_or_10 limit) (length l)
  /\ (forall n : Z, limit_or_10 limit = Finite (inject_Z n) ->
        (Z.of_nat (length l) <= Z.max 0 n)%Z)
  /\ Forall
       (fun mm =>
          mm_workspaceId mm = w
          /\ (exists m, m ∈ members db /\ member_id m = mm_id mm
                        /\ member_userId m = mm_userId mm)
          /\ mm_user mm ∈ users db
          /\ user_id (mm_user mm) = mm_userId mm
          /\ includes (toLowerCase (default [] (name (mm_user mm))))
               (trim (toLowerCase term))
             || includes
                  (default []
                     (split "@"
                        (toLowerCase (default [] (email (mm_user mm)))) !! 0))
                  (trim (toLowerCase term))
             || includes (toLowerCase (default [] (email (mm_user mm))))
                  (trim (toLowerCase term)) = true)
       l.
Proof.
  intros Hrun.
  enough (Hmain : within_limit (limit_or_10 limit) (length l)
                  /\ Forall
       (fun mm =>
          mm_workspaceId mm = w
          /\ (exists m, m ∈ members db /\ member_id m = mm_id mm
                        /\ member_userId m = mm_userId mm)
          /\ mm_user mm ∈ users db
          /\ user_id (mm_user mm) = mm_userId mm
          /\ includes (toLowerCase (default [] (name (mm_user mm))))
               (trim (toLowerCase term))
             || includes
                  (default []
                     (split "@"
                        (toLowerCase (default [] (email (mm_user mm)))) !! 0))
                  (trim (toLowerCase term))
             || includes (toLowerCase (default [] (email (mm_user mm))))
                  (trim (toLowerCase term)) = true)
       l).
  { destruct Hmain as [Hlen Hall]. split; [done|]. split; [|done].
    intros n Hn. rewrite Hn in Hlen. by apply within_limit_integer. }
  revert Hrun. unfold getByUsername. destruct caller as [userId|].
  2:{ intros [= <-]. split; [by left|constructor]. }
  destruct (unique (by_workspace_id_user_id w userId db))
    as [[cm|]|e]; [| |done].
  2:{ intros [= <-]. split; [by left|constructor]. }
  destruct (length (trim term) <? 1).
  { intros [= <-]. split; [by left|constructor]. }
  intros [= <-].
  match goal with
  | |- _ /\ Forall ?P _ =>
      destruct (collectMatches_inv P db (limit_or_10 limit)
                  (trim (toLowerCase term)) w (by_workspace_id w db) [])
        as [Hall Hlen]
  end; [| constructor | by left | by split].
  intros m u Hm Hu Hinc. cbn [mm_workspaceId mm_id mm_userId mm_user].
  unfold by_workspace_id in Hm. apply list_elem_of_filter in Hm as [Hw Hm].
  apply populateUser_Some in Hu as [Hu Hid].
  split; [done|]. split; [by exists m|]. done.
Qed.

Lemma getByUsername_results_witness :
  exists l,
    getByUsername (Some (user_id alice)) ws (js " O ") (Some (Finite 2)) db0
    = Ok l
    /\ (Z.of_nat (length l) <= 2)%Z
    /\ Forall (fun mm => mm_workspaceId mm = ws
                         /\ user_id (mm_user mm) = mm_userId mm) l.
Proof.
  eexists. split; [vm_compute; reflexivity|].
  match goal with
  | |- (Z.of_nat (length ?l) <= _)%Z /\ _ =>
      destruct (getByUsername_results (Some (user_id alice)) ws (js " O ")
                  (Some (Finite 2)) db0 l ltac:(vm_compute; reflexivity))
        as (_ & Hlen & Hall)
  end.
  split; [exact (Hlen 2%Z eq_refl)|].
  eapply Forall_impl; [exact Hall|]. intros mm (? & _ & _ & ? & _). done.
Defined.

End MembersApiFacts.

(** ** The mutation [create] of the messages API *)

Section CreateFacts.

Import Members Messages Fixtures.

Lemma notifyEach_docs (clock : Clock) (messageId w : Id)
    (ch conv author : option Id) (ids : list Id) (db : Db) :
  exists new,
    notifications (notifyEach clock messageId w ch conv author ids db).2
    = notifications db ++ new
    /\ messages (notifyEach clock messageId w ch conv author ids db).2
       = messages db
    /\ Forall (fun n => n_messageId n = messageId /\ n_workspaceId n = w
                        /\ n_channelId n = ch /\ n_conversationId n = conv
                        /\ n_type n = mention /\ read n = false
                        /\ n_userId n ∈ ids
                        /\ author <> Some (n_userId n)) new.
Proof.
  revert db. induction ids as [|u ids IH]; intros db.
  { exists []. by rewrite app_nil_r. }
  assert (Hweak : forall db1,
    exists new,
      notifications
        (notifyEach clock messageId w ch conv author ids db1).2
      = notifications db1 ++ new
      /\ messages (notifyEach clock messageId w ch conv author ids db1).2
         = messages db1
      /\ Forall (fun n => n_messageId n = messageId /\ n_workspaceId n = w
                          /\ n_channelId n = ch /\ n_conversationId n = conv
                          /\ n_type n = mention /\ read n = false
                          /\ n_userId n ∈ u :: ids
                          /\ author <> Some (n_userId n)) new).
  { intros db1. destruct (IH db1) as (new & Hn & Hm & Hall).
    exists new. split; [done|]. split; [done|].
    eapply Forall_impl; [exact Hall|].
    intros n (? & ? & ? & ? & ? & ? & ? & ?).
    repeat (split; [done|]). split; [by right|done]. }
  unfold notifyEach in *. cbn [notifyEachWith].
  destruct (decide (author = Some u)) as [Heq|Hne].
  { rewrite bool_decide_eq_true_2 by done. apply Hweak. }
  rewrite bool_decide_eq_false_2 by done.
  rewrite bind_run. unfold notifyOne. rewrite bind_run. unfold read_db.
  destruct (checkNotificationPreferences clock u w ch db) as [[|]|e].
  - rewrite bind_run.
    set (db1 := (insertNotification clock u messageId w ch conv db).2).
    change (insertNotification clock u messageId w ch conv db)
      with (Ok (nextId db), db1).
    cbn [mret M_ret ret].
    destruct (Hweak db1) as (new & Hn & Hm & Hall).
    eexists (_ :: new). split; [|split].
    + rewrite Hn. subst db1. cbn [insertNotification snd set_notifications
        notifications]. rewrite <- app_assoc. reflexivity.
    + rewrite Hm. reflexivity.
    + constructor; [|done]. cbn. repeat (split; [done|]).
      split; [by left|done].
  - cbn [mret M_ret ret]. apply Hweak.
  - exists []. rewrite app_nil_r. by cbn.
Qed.

Lemma handleMentionNotifications_no_at (clock : Clock) (messageId : Id)
    (text : jsstring) (w : Id) (ch conv author : option Id) (db : Db) :
  "@"%char ∉ text ->
  handleMentionNotifications clock messageId text w ch conv author db
  = (Ok (), db).
Proof.
  intros Hno. unfold handleMentionNotifications, extractMentions.
  by rewrite (exec_from_no_at text 0 Hno).
Qed.

(** X27.  A message stored by [create] and its notifications belong
    together.  When [create] returns, it returns the id of the one
    message it appended, written by the caller's member document of the
    workspace; a thread reply given neither a channel nor a conversation
    takes the conversation of its parent message.  Every notification
    added is an unread mention that points at the new message and carries
    its workspace, channel and conversation, and its recipient is a user
    with a member document in that workspace whose profile name is among
    the extracted mentions, never the caller. *)
Theorem create_links_notifications (caller : Id) (clock : Clock)
    (text : jsstring) (image : option Id) (w : Id)
    (ch parent conv : option Id) (db : Db) (id : Id) :
  (create (Some caller) clock text image w ch parent conv db).1 = Ok id ->
  id = nextId db
  /\ exists member msg new,
       unique (by_workspace_id_user_id w caller db) = Ok (Some member)
       /\ messages
            (create (Some caller) clock text image w ch parent conv db).2
          = messages db ++ [msg]
       /\ msg_id msg = id /\ body msg = text
       /\ memberId msg = member_id member
       /\ msg_workspaceId msg = w /\ msg_channelId msg = ch
       /\ parentMessageId msg = parent
       /\ (conv <> None \/ ch <> None \/ parent = None ->
           msg_conversationId msg = conv)
       /\ (forall p, conv = None -> ch = None -> parent = Some p ->
           exists pm, getMessage p db = Some pm
                      /\ msg_conversationId msg = msg_conversationId pm)
       /\ notifications
            (create (Some caller) clock text image w ch parent conv db).2
          = notifications db ++ new
       /\ Forall (fun n =>
                    n_messageId n = id /\ n_workspaceId n = w
                    /\ n_channelId n = ch
                    /\ n_conversationId n = msg_conversationId msg
                    /\ n_type n = mention /\ read n = false
                    /\ n_userId n <> caller
                    /\ exists m u nm,
                         m ∈ members db /\ member_workspaceId m = w
                         /\ member_userId m = n_userId n
                         /\ u ∈ users db /\ user_id u = n_userId n
                         /\ name u = Some nm
                         /\ nm ∈ extractMentions text) new.
Proof.
  assert (Hrest : forall member conv' i,
    ((insertMessage (member_id member) text image ch conv' w parent
      ≫= fun messageId =>
           handleMentionNotifications clock messageId text w ch conv'
             (Some caller) ≫= fun _ => mret messageId) db).1 = Ok i ->
    i = nextId db
    /\ exists msg new,
         messages
           ((insertMessage (member_id member) text image ch conv' w parent
             ≫= fun messageId =>
                  handleMentionNotifications clock messageId text w ch conv'
                    (Some caller) ≫= fun _ => mret messageId) db).2
         = messages db ++ [msg]
         /\ msg_id msg = i /\ body msg = text
         /\ memberId msg = member_id member
         /\ msg_workspaceId msg = w /\ msg_channelId msg = ch
         /\ parentMessageId msg = parent
         /\ msg_conversationId msg = conv'
         /\ notifications
              ((insertMessage (member_id member) text image ch conv' w parent
                ≫= fun messageId =>
                     handleMentionNotifications clock messageId text w ch
                       conv' (Some caller) ≫= fun _ => mret messageId) db).2
            = notifications db ++ new
         /\ Forall (fun n =>
                      n_messageId n = i /\ n_workspaceId n = w
                      /\ n_channelId n = ch
                      /\ n_conversationId n = conv'
                      /\ n_type n = mention /\ read n = false
                      /\ n_userId n <> caller
                      /\ exists m u nm,
                           m ∈ members db /\ member_workspaceId m = w
                           /\ member_userId m = n_userId n
                           /\ u ∈ users db /\ user_id u = n_userId n
                           /\ name u = Some nm
                           /\ nm ∈ extractMentions text) new).
  { intros member conv' i. rewrite bind_run. cbn [insertMessage].
    rewrite bind_run, handleMentionNotifications_run.
    match goal with
    | |- context [notifyEach ?c ?mi ?w0 ?ch0 ?cv ?au ?ids ?d] =>
        destruct (notifyEach_docs c mi w0 ch0 cv au ids d)
          as (new & Hn & Hm & Hall);
        pose proof (getMentionedUsers_exact_name d w0 (extractMentions text))
          as Hres;
        destruct (notifyEach c mi w0 ch0 cv au ids d) as [[[]|e] db2]
    end; [|done].
    cbn [fst snd mret M_ret ret] in *. intros [= <-]. split; [done|].
    eexists _, new. split; [rewrite Hm; reflexivity|].
    cbn [msg_id body memberId msg_workspaceId msg_channelId parentMessageId
         msg_conversationId].
    repeat (split; [reflexivity|]). split; [by rewrite Hn|].
    eapply Forall_impl; [exact Hall|].
    intros n (? & ? & ? & ? & ? & ? & Hin & Hau).
    repeat (split; [done|]). split; [congruence|].
    apply Hres in Hin as (m & u & nm & Hm' & Hu & Hnm & _ & Hin & Hid).
    unfold by_workspace_id in Hm'. cbn [set_messages members] in Hm'.
    apply list_elem_of_filter in Hm' as [Hw Hm'].
    unfold populateUser in Hu. cbn [set_messages users] in Hu.
    destruct (list_find (fun x => user_id x = member_userId m) (users db))
      as [[j x]|] eqn:Hf; [|done].
    cbn in Hu. injection Hu as ->.
    apply list_find_Some in Hf as (Hj & Hx & _).
    exists m, u, nm. rewrite Hid.
    repeat (split; [done|]).
    split; [by eapply list_elem_of_lookup_2|done]. }
  unfold create. rewrite bind_run. unfold read_db.
  destruct (unique (by_workspace_id_user_id w caller db))
    as [[member|]|e] eqn:Hmem; [|done|done].
  rewrite bind_run.
  assert (Hplain : conv <> None \/ ch <> None \/ parent = None ->
    forall i,
      ((insertMessage (member_id member) text image ch conv w parent
        ≫= fun messageId =>
             handleMentionNotifications clock messageId text w ch conv
               (Some caller) ≫= fun _ => mret messageId) db).1 = Ok i ->
      i = nextId db
      /\ exists member0 msg new,
           Ok (Some member) = Ok (Some member0)
           /\ messages
                ((insertMessage (member_id member) text image ch conv w parent
                  ≫= fun messageId =>
                       handleMentionNotifications clock messageId text w ch
                         conv (Some caller) ≫= fun _ => mret messageId) db).2
              = messages db ++ [msg]
           /\ msg_id msg = i /\ body msg = text
           /\ memberId msg = member_id member0
           /\ msg_workspaceId msg = w /\ msg_channelId msg = ch
           /\ parentMessageId msg = parent
           /\ (conv <> None \/ ch <> None \/ parent = None ->
               msg_conversationId msg = conv)
           /\ (forall p, conv = None -> ch = None -> parent = Some p ->
               exists pm, getMessage p db = Some pm
                          /\ msg_conversationId msg = msg_conversationId pm)
           /\ notifications
                ((insertMessage (member_id member) text image ch conv w parent
                  ≫= fun messageId =>
                       handleMentionNotifications clock messageId text w ch
                         conv (Some caller) ≫= fun _ => mret messageId) db).2
              = notifications db ++ new
           /\ Forall (fun n =>
                        n_messageId n = i /\ n_workspaceId n = w
                        /\ n_channelId n = ch
                        /\ n_conversationId n = msg_conversationId msg
                        /\ n_type n = mention /\ read n = false
                        /\ n_userId n <> caller
                        /\ exists m u nm,
                             m ∈ members db /\ member_workspaceId m = w
                             /\ member_userId m = n_userId n
                             /\ u ∈ users db /\ user_id u = n_userId n
                             /\ name u = Some nm
                             /\ nm ∈ extractMentions text) new).
  { intros Hcase i Hrun.
    destruct (Hrest member conv i Hrun)
      as (Hi & msg & new & Hm & ? & ? & ? & ? & ? & ? & Hc & Hn & Hall).
    split; [done|]. exists member, msg, new.
    split_and!; try done.
    - intros p -> -> ->. by destruct Hcase as [?|[?|?]].
    - by rewrite Hc. }
  destruct conv as [c|]; [apply Hplain; by left|].
  destruct ch as [c|]; [apply Hplain; right; by left|].
  destruct parent as [pid|]; [|apply Hplain; right; by right].
  rewrite bind_run. unfold read_db.
  destruct (getMessage pid db) as [pm|] eqn:Hpm; [|done].
  cbn [mret M_ret ret]. intros Hrun.
  destruct (Hrest member (msg_conversationId pm) id Hrun)
    as (Hi & msg & new & Hm & ? & ? & ? & ? & ? & ? & Hc & Hn & Hall).
  split; [done|]. exists member, msg, new.
  split_and!; try done.
  - by intros [?|[?|?]].
  - intros p _ _ [= <-]. by exists pm.
  - by rewrite Hc.
Qed.

Lemma create_links_notifications_witness :
  (create (Some (user_id john)) clock_noon (js "hi @sarah") None ws
     (Some general) None None db0).1 = Ok 1000
  /\ exists new,
       notifications
         (create (Some (user_id john)) clock_noon (js "hi @sarah") None ws
            (Some general) None None db0).2
       = notifications db0 ++ new
       /\ Forall (fun n => n_messageId n = 1000
                           /\ n_userId n <> user_id john) new.
Proof.
  assert (Hrun : (create (Some (user_id john)) clock_noon (js "hi @sarah")
                    None ws (Some general) None None db0).1 = Ok 1000)
    by (vm_compute; reflexivity).
  split; [exact Hrun|].
  destruct (create_links_notifications (user_id john) clock_noon
              (js "hi @sarah") None ws (Some general) None None db0 1000 Hrun)
    as (_ & member & msg & new & _ & _ & _ & _ & _ & _ & _ & _ & _ & _
        & Hn & Hall).
  exists new. split; [exact Hn|].
  eapply Forall_impl; [exact Hall|].
  intros n (? & _ & _ & _ & _ & _ & ? & _). done.
Defined.

(** X28.  A message without the character [@] never notifies anybody:
    [create] leaves the notifications as they are.  If it throws, the
    database is as it was; it returns the fresh id whenever the caller
    has one member document in the workspace and the parent message of a
    thread reply without channel and conversation exists. *)
Theorem create_without_mention (caller : option Id) (clock : Clock)
    (text : jsstring) (image : option Id) (w : Id)
    (ch parent conv : option Id) (db : Db) :
  "@"%char ∉ text ->
  notifications (create caller clock text image w ch parent conv db).2
  = notifications db
  /\ (forall e,
        (create caller clock text image w ch parent conv db).1 = Throw e ->
        (create caller clock text image w ch parent conv db).2 = db)
  /\ (forall userId member,
        caller = Some userId ->
        unique (by_workspace_id_user_id w userId db) = Ok (Some member) ->
        (conv <> None \/ ch <> None \/ parent = None
         \/ exists p pm, parent = Some p /\ getMessage p db = Some pm) ->
        (create caller clock text image w ch parent conv db).1
        = Ok (nextId db)).
Proof.
  intros Hno.
  assert (Hrest : forall mid conv',
    (insertMessage mid text image ch conv' w parent
      ≫= fun messageId =>
           handleMentionNotifications clock messageId text w ch conv'
             caller ≫= fun _ => mret messageId) db
    = (Ok (nextId db),
       set_messages
         (messages db ++
          [{| msg_id := nextId db; memberId := mid; body := text;
              image := image; msg_channelId := ch;
              msg_conversationId := conv'; msg_workspaceId := w;
              parentMessageId := parent |}])
         (S (nextId db)) db)).
  { intros mid conv'. rewrite bind_run. cbn [insertMessage].
    rewrite bind_run, handleMentionNotifications_no_at by done.
    reflexivity. }
  unfold create. destruct caller as [userId|].
  2:{ split; [done|]. split; [done|]. by intros ?? [=]. }
  rewrite bind_run. unfold read_db.
  destruct (unique (by_workspace_id_user_id w userId db))
    as [[member|]|e0] eqn:Hmem.
  2:{ split; [done|]. split; [done|]. intros ?? [= <-]. congruence. }
  2:{ split; [done|]. split; [done|]. intros ?? [= <-]. congruence. }
  rewrite bind_run.
  destruct conv as [c|].
  { cbn [mret M_ret ret]. rewrite Hrest. by repeat split. }
  destruct ch as [c|].
  { cbn [mret M_ret ret]. rewrite Hrest. by repeat split. }
  destruct parent as [pid|].
  2:{ cbn [mret M_ret ret]. rewrite Hrest. by repeat split. }
  rewrite bind_run. unfold read_db.
  destruct (getMessage pid db) as [pm|] eqn:Hpm.
  { cbn [mret M_ret ret]. rewrite Hrest. by repeat split. }
  split; [done|]. split; [done|].
  intros ?? _ _ [?|[?|[?|(p & pm & [= <-] & ?)]]]; congruence.
Qed.

Lemma create_without_mention_witness :
  ("@"%char ∉ js "good morning")
  /\ notifications
       (create (Some (user_id john)) clock_noon (js "good morning") None ws
          (Some general) None None db0).2 = notifications db0
  /\ (create (Some (user_id john)) clock_noon (js "good morning") None ws
        (Some general) None None db0).1 = Ok (nextId db0).
Proof.
  assert (Hno : "@"%char ∉ js "good morning")
    by (apply (bool_decide_unpack _); vm_compute; exact I).
  destruct (create_without_mention (Some (user_id john)) clock_noon
              (js "good morning") None ws (Some general) None None db0 Hno)
    as (Hn & _ & Hok).
  split; [exact Hno|]. split; [exact Hn|].
  apply (Hok (user_id john) (member_of john)); [reflexivity|reflexivity|].
  right. left. discriminate.
Defined.

End CreateFacts.
